(** * BIM Quantity Take-Off Tool: quantity resolution, BOQ aggregation and rates

    A shallow embedding of the decision logic of
      - [src/cost_estimator.py]      ([CostEstimator.get_rate]),
      - [src/ifc_reader.py]          ([IFCReader.get_unit_scale_factor]),
      - [src/quantity_extractor.py]  ([QuantityExtractor]),
      - [src/boq_generator.py]       ([BOQGenerator]),
    together with the properties the specification states about them.

    Conventions.
      - A Python [float] is an IEEE binary64 number: Rocq's primitive [float].
      - A Python [str] is a [string]; [lower]/[upper] act on ASCII letters
        (bytes above 127 are left as they are).
      - A Python [dict] is an association list in insertion order, because the
        code iterates over dictionaries and the iteration order matters.
      - [None] is [None]; a call that may raise returns an [option] or a
        [result].
      - What the library replies is data of the model: an element carries
        the replies of the calls the extractor makes on it.  The installed
        library has no function [get_qtos] and its shapes have no methods
        [volume], [area] and [bbox]; [Library] says what this makes of the
        replies in a run of the program. *)

From Stdlib Require Import ZArith List String Ascii Bool Lia Permutation.
From Stdlib Require Import Floats.PrimFloat.
From Corelib Require Floats.FloatOps Floats.FloatAxioms Floats.SpecFloat.
Import ListNotations.

Local Open Scope string_scope.
Local Open Scope list_scope.

Set Warnings "-inexact-float".

(* ================================================================= *)
(** ** Python strings *)

Module PyStr.

Definition is_upper (c : ascii) : bool :=
  let n := nat_of_ascii c in (65 <=? n)%nat && (n <=? 90)%nat.

Definition is_lower (c : ascii) : bool :=
  let n := nat_of_ascii c in (97 <=? n)%nat && (n <=? 122)%nat.

Definition lower_char (c : ascii) : ascii :=
  if is_upper c then ascii_of_nat (nat_of_ascii c + 32) else c.

Definition upper_char (c : ascii) : ascii :=
  if is_lower c then ascii_of_nat (nat_of_ascii c - 32) else c.

Fixpoint smap (f : ascii -> ascii) (s : string) : string :=
  match s with
  | EmptyString => EmptyString
  | String c s' => String (f c) (smap f s')
  end.

(** [s.lower()] and [s.upper()], exact on ASCII text: [str.lower] and
    [str.upper] also map the letters beyond ASCII, which are left as they
    are here. *)
Definition lower : string -> string := smap lower_char.
Definition upper : string -> string := smap upper_char.

(** [needle in hay] on strings. *)
Fixpoint contains (needle hay : string) : bool :=
  if String.prefix needle hay then true
  else match hay with
       | EmptyString => false
       | String _ hay' => contains needle hay'
       end.

(** [s.startswith(p)]. *)
Definition startswith (s p : string) : bool := String.prefix p s.

(** The text of [s] up to the first [sep], and what follows it. *)
Fixpoint break_at (sep : ascii) (s : string) : string * option string :=
  match s with
  | EmptyString => (EmptyString, None)
  | String c s' =>
      if Ascii.eqb c sep then (EmptyString, Some s')
      else let '(h, t) := break_at sep s' in (String c h, t)
  end.

(** [s.split(sep)] for a one-character separator: never empty. *)
Fixpoint split_fuel (fuel : nat) (sep : ascii) (s : string) : list string :=
  match fuel with
  | O => [s]
  | S fuel' =>
      match break_at sep s with
      | (h, None) => [h]
      | (h, Some t) => h :: split_fuel fuel' sep t
      end
  end.

Definition split (sep : ascii) (s : string) : list string :=
  split_fuel (String.length s) sep s.

(** [s.replace(old, "")]: every non-overlapping occurrence of [old],
    scanning from the left, is removed. *)
Fixpoint drop (n : nat) (s : string) : string :=
  match n, s with
  | O, _ => s
  | S n', String _ s' => drop n' s'
  | S _, EmptyString => EmptyString
  end.

Fixpoint remove_all_fuel (fuel : nat) (old s : string) : string :=
  match fuel with
  | O => s
  | S fuel' =>
      match s with
      | EmptyString => EmptyString
      | String c s' =>
          if String.prefix old s
          then remove_all_fuel fuel' old (drop (String.length old) s)
          else String c (remove_all_fuel fuel' old s')
      end
  end.

Definition remove_all (old s : string) : string :=
  match old with
  | EmptyString => s
  | _ => remove_all_fuel (String.length s) old s
  end.

(** Truthiness of a string: [bool(s)]. *)
Definition truthy (s : string) : bool :=
  match s with EmptyString => false | _ => true end.

End PyStr.

(* ================================================================= *)
(** ** Python dictionaries, in insertion order *)

Module PyDict.

Definition dict (V : Type) : Type := list (string * V).

Fixpoint lookup {V} (d : dict V) (k : string) : option V :=
  match d with
  | [] => None
  | (k', v) :: d' => if String.eqb k' k then Some v else lookup d' k
  end.

(** [d.get(k, default)]. *)
Definition get {V} (d : dict V) (k : string) (default : V) : V :=
  match lookup d k with Some v => v | None => default end.

Definition mem {V} (d : dict V) (k : string) : bool :=
  match lookup d k with Some _ => true | None => false end.

(** [bool(d)]. *)
Definition truthy {V} (d : dict V) : bool :=
  match d with [] => false | _ => true end.

End PyDict.

Import PyDict.

(* ================================================================= *)
(** ** cost_estimator.py *)

Module CostEstimator.

(** [self.rates]: element type -> (material key or "default" -> rate),
    both levels in the order the JSON file declares them. *)
Definition rate_table : Type := dict (dict float).

(** The body of the [for mat_key, rate in type_rates.items()] loop of
    [get_rate]: the first entry that passes the test returns. *)
Fixpoint scan_rates (material_lower : string) (items : dict float)
  : option float :=
  match items with
  | [] => None
  | (mat_key, rate) :: rest =>
      if PyStr.contains (PyStr.lower mat_key) material_lower
         && negb (String.eqb mat_key "default")
      then Some rate
      else scan_rates material_lower rest
  end.

Definition get_rate (rates : rate_table) (element_type : string)
           (material : option string) : float :=
  let type_rates := get rates element_type [] in
  if negb (truthy type_rates) then 0%float
  else
    let found :=
      match material with
      | Some m =>
          if PyStr.truthy m then scan_rates (PyStr.lower m) type_rates
          else None
      | None => None
      end in
    match found with
    | Some rate => rate
    | None => get type_rates "default" 0%float
    end.

End CostEstimator.

(* ================================================================= *)
(** ** Exceptions and the Python runtime *)

Inductive exn : Set :=
| RuntimeError | ValueError | TypeError | IndexError | OverflowError.

Inductive result (A : Type) : Type :=
| Ok (a : A)
| Raise (e : exn).

Arguments Ok {A} a.
Arguments Raise {A} e.

Definition bind {A B} (r : result A) (k : A -> result B) : result B :=
  match r with
  | Ok a => k a
  | Raise e => Raise e
  end.

Notation "x <- c1 ;; c2" := (bind c1 (fun x => c2))
  (at level 61, c1 at next level, right associativity).

(** The built-ins the code calls on floats and whose result is fixed by the
    C library or by CPython rather than by this repository. *)
Class PyRuntime : Type := {
  (** [float(s)] for a [str]; [None] is [ValueError]. *)
  float_of_str : string -> option float;
  (** [x ** n] for a float [x] and a literal [n]; [OverflowError] when the
      result is out of range. *)
  float_pow : float -> Z -> result float;
  (** [round(x, ndigits)] for a float [x]. *)
  float_round : float -> Z -> float
}.

(** [sum(xs)] over floats, starting from the integer 0 (kept as the float 0,
    which compares and rounds alike).  CPython from 3.12 on compensates the
    rounding error of the running total; no statement below depends on the
    last bits of a total. *)
Definition float_sum (xs : list float) : float :=
  fold_left PrimFloat.add xs 0%float.

Definition Z_sum (xs : list Z) : Z := fold_left Z.add xs 0%Z.

(** [x > 0] and [bool(x)] for a float. *)
Definition gt0 (x : float) : bool := PrimFloat.ltb 0%float x.
Definition float_truthy (x : float) : bool := negb (PrimFloat.eqb x 0%float).

(** [o or default] for an optional string. *)
Definition str_or (o : option string) (default : string) : string :=
  match o with
  | Some s => if PyStr.truthy s then s else default
  | None => default
  end.

(** [for x in xs: ... return r ...]: the first turn of the loop that
    returns decides; [None] when the loop runs to its end. *)
Fixpoint first_return {A B} (body : A -> option B) (xs : list A)
  : option B :=
  match xs with
  | [] => None
  | x :: rest =>
      match body x with
      | Some r => Some r
      | None => first_return body rest
      end
  end.

(* ================================================================= *)
(** ** ifc_reader.py: the unit scale factor *)

Module IFCReader.

(** The entity classes that occur in [IfcUnitAssignment.Units]. *)
Inductive unit_class : Set :=
| IfcSIUnit | IfcConversionBasedUnit | IfcContextDependentUnit
| IfcDerivedUnit | IfcMonetaryUnit.

(** [unit.is_a(name)]: the class itself or one of its supertypes. *)
Definition class_is_a (c : unit_class) (name : string) : bool :=
  match c with
  | IfcSIUnit =>
      String.eqb name "IfcSIUnit" || String.eqb name "IfcNamedUnit"
  | IfcConversionBasedUnit =>
      String.eqb name "IfcConversionBasedUnit"
      || String.eqb name "IfcNamedUnit"
  | IfcContextDependentUnit =>
      String.eqb name "IfcContextDependentUnit"
      || String.eqb name "IfcNamedUnit"
  | IfcDerivedUnit => String.eqb name "IfcDerivedUnit"
  | IfcMonetaryUnit => String.eqb name "IfcMonetaryUnit"
  end.

(** A unit entity.  An attribute the entity does not have is [None]
    ([hasattr] is false); an attribute that is there may hold [None]. *)
Record ifc_unit : Type := {
  unit_class_of : unit_class;
  UnitType : option string;
  has_Dimensions : bool;
  Name : option (option string);
  Prefix : option (option string)
}.

Definition is_a (u : ifc_unit) (name : string) : bool :=
  class_is_a (unit_class_of u) name.

Record unit_assignment : Type := {
  Units : option (list ifc_unit)
}.

Record ifc_project : Type := {
  UnitsInContext : option (option unit_assignment)
}.

(** The loaded model, as far as [get_unit_scale_factor] reads it:
    [by_type('IfcProject')], [None] when the call raises. *)
Record ifc_model : Type := {
  projects : option (list ifc_project)
}.

Definition is_length_unit (u : ifc_unit) : bool :=
  match UnitType u with
  | Some t => String.eqb t "LENGTHUNIT"
  | None => false
  end.

Definition hasattr {A} (a : option A) : bool :=
  match a with Some _ => true | None => false end.

(** [str(x)] of an attribute value that is a string or [None]. *)
Definition str_of (v : option string) : string :=
  match v with Some s => s | None => "None" end.

(** One turn of the first loop: [Some f] is [return f]. *)
Definition named_unit_scale (u : ifc_unit) : option float :=
  if is_a u "IfcNamedUnit" then
    if is_length_unit u then
      if has_Dimensions u || hasattr (Name u) then
        match Name u with
        | Some (Some n) =>
            if PyStr.truthy n then
              let name := PyStr.upper n in
              if PyStr.contains "METER" name || PyStr.contains "METRE" name
              then
                if PyStr.contains "MILLI" name then Some 0.001%float
                else if PyStr.contains "CENTI" name then Some 0.01%float
                else Some 1%float
              else None
            else None
        | _ => None
        end
      else None
    else None
  else None.

(** One turn of the second loop. *)
Definition si_unit_scale (u : ifc_unit) : option float :=
  if is_a u "IfcSIUnit" then
    if is_length_unit u then
      match Prefix u with
      | Some p =>
          let prefix := PyStr.upper (str_of p) in
          if String.eqb prefix "MILLI" then Some 0.001%float
          else if String.eqb prefix "CENTI" then Some 0.01%float
          else Some 1%float
      | None => None
      end
    else None
  else None.

Definition get_unit_scale_factor (ifc_file : option ifc_model)
  : result float :=
  match ifc_file with
  | None => Raise RuntimeError
  | Some file =>
      match projects file with
      | None => Ok 0.001%float            (* except Exception *)
      | Some [] => Ok 0.001%float         (* no project found *)
      | Some (project :: _) =>
          match UnitsInContext project with
          | Some (Some units_context) =>
              match Units units_context with
              | Some units =>
                  match first_return named_unit_scale units with
                  | Some f => Ok f
                  | None =>
                      match first_return si_unit_scale units with
                      | Some f => Ok f
                      | None => Ok 0.001%float
                      end
                  end
              | None => Ok 0.001%float
              end
          | _ => Ok 0.001%float
          end
      end
  end.

End IFCReader.

(* ================================================================= *)
(** ** quantity_extractor.py *)

Module QuantityExtractor.

(** A value found in a quantity set or a property set. *)
Inductive pyval : Type :=
| PyFloat (x : float)
| PyStr (s : string)
| PyNone
| PyObject.          (* anything [float()] rejects with [TypeError] *)

(** [float(v)] under [except (ValueError, TypeError)]: [None] is the
    [continue] of the handler. *)
Definition to_float `{PyRuntime} (v : pyval) : option float :=
  match v with
  | PyFloat x => Some x
  | PyStr s => float_of_str s
  | PyNone => None
  | PyObject => None
  end.

(** The three measures a tier can resolve. *)
Inductive field : Set := Volume | Area | Length.

(** A dictionary whose keys are among ['volume'], ['area'], ['length'];
    a key that is missing or holds [None] is [None]. *)
Record measures : Type := {
  m_volume : option float;
  m_area : option float;
  m_length : option float
}.

Definition no_measures : measures :=
  {| m_volume := None; m_area := None; m_length := None |}.

Definition m_get (t : field) (q : measures) : option float :=
  match t with
  | Volume => m_volume q
  | Area => m_area q
  | Length => m_length q
  end.

Definition m_set (t : field) (v : float) (q : measures) : measures :=
  match t with
  | Volume => {| m_volume := Some v; m_area := m_area q;
                 m_length := m_length q |}
  | Area => {| m_volume := m_volume q; m_area := Some v;
               m_length := m_length q |}
  | Length => {| m_volume := m_volume q; m_area := m_area q;
                 m_length := Some v |}
  end.

(** [if quantities.get(t) is None: quantities[t] = value]. *)
Definition store (t : field) (v : float) (q : measures) : measures :=
  match m_get t q with
  | None => m_set t v q
  | Some _ => q
  end.

(** [not quantities] for a tier's result, and
    [all(quantities.get(qty) is None for qty in ['volume','area','length'])]. *)
Definition all_none (q : measures) : bool :=
  match m_volume q, m_area q, m_length q with
  | None, None, None => true
  | _, _, _ => false
  end.

Definition quantity_mappings : dict field :=
  [ ("NetVolume", Volume); ("GrossVolume", Volume); ("Volume", Volume);
    ("NetArea", Area); ("GrossArea", Area); ("Area", Area);
    ("NetSideArea", Area); ("TotalSurfaceArea", Area);
    ("Length", Length); ("NetLength", Length); ("GrossLength", Length);
    ("Perimeter", Length); ("Width", Length); ("Height", Length);
    ("Depth", Length) ].

(** [for qty_name, qty_value in quantities_dict.items(): ...]. *)
Fixpoint scan_props `{PyRuntime} (props : dict pyval) (q : measures)
  : measures :=
  match props with
  | [] => q
  | (qty_name, qty_value) :: rest =>
      match lookup quantity_mappings qty_name with
      | Some quantity_type =>
          match to_float qty_value with
          | Some value => scan_props rest (store quantity_type value q)
          | None => scan_props rest q
          end
      | None => scan_props rest q
      end
  end.

(** [for qto_set_name, quantities_dict in qto_sets.items(): ...]. *)
Fixpoint scan_sets `{PyRuntime} (sets : dict (dict pyval)) (q : measures)
  : measures :=
  match sets with
  | [] => q
  | (_, quantities_dict) :: rest => scan_sets rest (scan_props quantities_dict q)
  end.

(** An [IfcPhysicalQuantity]; the argument is the value attribute, [None]
    when the entity has no such attribute. *)
Inductive physical_quantity : Type :=
| IfcQuantityVolume (VolumeValue : option pyval)
| IfcQuantityArea (AreaValue : option pyval)
| IfcQuantityLength (LengthValue : option pyval)
| IfcQuantityOther.

Record property_definition : Type := {
  is_IfcElementQuantity : bool;
  Quantities : option (list physical_quantity)
}.

Record relation : Type := {
  is_IfcRelDefinesByProperties : bool;
  RelatingPropertyDefinition : option property_definition
}.

(** [qty_value] and [qty_type_key] of one physical quantity. *)
Definition quantity_entry (qty : physical_quantity)
  : option (pyval * field) :=
  match qty with
  | IfcQuantityVolume (Some v) => Some (v, Volume)
  | IfcQuantityArea (Some v) => Some (v, Area)
  | IfcQuantityLength (Some v) => Some (v, Length)
  | _ => None
  end.

Definition is_None (v : pyval) : bool :=
  match v with PyNone => true | _ => false end.

Fixpoint scan_physical `{PyRuntime} (qs : list physical_quantity)
         (q : measures) : measures :=
  match qs with
  | [] => q
  | qty :: rest =>
      match quantity_entry qty with
      | Some (qty_value, qty_type_key) =>
          if is_None qty_value then scan_physical rest q
          else match to_float qty_value with
               | Some value =>
                   scan_physical rest (store qty_type_key value q)
               | None => scan_physical rest q
               end
      | None => scan_physical rest q
      end
  end.

Fixpoint scan_relations `{PyRuntime} (rels : list relation) (q : measures)
  : measures :=
  match rels with
  | [] => q
  | rel :: rest =>
      let q' :=
        if is_IfcRelDefinesByProperties rel then
          match RelatingPropertyDefinition rel with
          | Some prop_def =>
              if is_IfcElementQuantity prop_def then
                match Quantities prop_def with
                | Some qs => scan_physical qs q
                | None => q
                end
              else q
          | None => q
          end
        else q in
      scan_relations rest q'
  end.

(** What the calls [geometry.volume()], [geometry.area()] and
    [geometry.bbox()] give for a shape: a value, or [None] when the call
    raised or returned [None].  The geometry that [create_shape] returns
    has none of the three methods, so that each call raises
    ([Library.shape_without_measures]). *)
Record geometry : Type := {
  geom_volume : option float;
  geom_area : option float;
  geom_bbox : option (list float)
}.

(** An entry of [get_materials(element)]. *)
Inductive material_entry : Type :=
| HasName (Name : option string)
| HasMaterialSelect (SelectName : option (option string))
| NoName.

(** An element of the model, as far as the extractor reads it. *)
Record element : Type := {
  id : Z;
  GlobalId : option string;
  is_a : string;
  Name : option string;
  Tag : option string;
  PredefinedType : option string;
  (** [get_qtos(element)], [None] when it raises, as it does in every run:
      the library has no such function ([Library.get_qtos_raises]) *)
  qtos : option (dict (dict pyval));
  (** [element.IsDefinedBy], [None] without the attribute *)
  IsDefinedBy : option (list relation);
  (** [get_psets(element)], [None] when it raises *)
  psets : option (dict (dict pyval));
  (** [create_shape(settings, element).geometry], [None] when the call
      raises or the shape is falsy *)
  shape : option geometry;
  (** [get_materials(element)], [None] when it raises *)
  materials : option (list material_entry)
}.

Definition _extract_ifc_element_quantities `{PyRuntime} (e : element)
  : measures :=
  match qtos e with
  | None => no_measures                       (* except Exception *)
  | Some qto_sets =>
      (* Method 1 *)
      let quantities :=
        if truthy qto_sets then scan_sets qto_sets no_measures
        else no_measures in
      (* Method 2 *)
      if all_none quantities then
        match IsDefinedBy e with
        | Some rels => scan_relations rels quantities
        | None => quantities
        end
      else quantities
  end.

(** ['Qto' in pset_name or 'Quantities' in pset_name]. *)
Definition signals_quantities (pset_name : string) : bool :=
  PyStr.contains "Qto" pset_name || PyStr.contains "Quantities" pset_name.

Fixpoint scan_psets `{PyRuntime} (sets : dict (dict pyval)) (q : measures)
  : measures :=
  match sets with
  | [] => q
  | (pset_name, props) :: rest =>
      if signals_quantities pset_name
      then scan_psets rest (scan_props props q)
      else scan_psets rest q
  end.

Definition _extract_qto_properties `{PyRuntime} (e : element) : measures :=
  match psets e with
  | None => no_measures                       (* except Exception *)
  | Some sets => scan_psets sets no_measures
  end.

(** [max(dims)]: a later item replaces the running maximum only when
    it compares greater. *)
Definition py_max (xs : list float) : option float :=
  match xs with
  | [] => None
  | x :: rest =>
      Some (fold_left (fun m y => if PrimFloat.ltb m y then y else m) rest x)
  end.

(** The bounding-box branch; [None] when nothing is stored (also when an
    index is out of range and the bare [except] swallows the error). *)
Definition bbox_length (bbox : list float) : option float :=
  match bbox with
  | [] => None
  | _ =>
      match nth_error bbox 0, nth_error bbox 1, nth_error bbox 2,
            nth_error bbox 3, nth_error bbox 4, nth_error bbox 5 with
      | Some b0, Some b1, Some b2, Some b3, Some b4, Some b5 =>
          let dims := [PrimFloat.sub b3 b0; PrimFloat.sub b4 b1;
                       PrimFloat.sub b5 b2] in
          match py_max dims with
          | Some length => if gt0 length then Some length else None
          | None => None
          end
      | _, _, _, _, _, _ => None
      end
  end.

(** [if volume and volume > 0: quantities[...] = volume]. *)
Definition positive (x : option float) : option float :=
  match x with
  | Some v => if float_truthy v && gt0 v then Some v else None
  | None => None
  end.

Definition _calculate_geometric_quantities (e : element) : measures :=
  match shape e with
  | None => no_measures
  | Some geometry =>
      {| m_volume := positive (geom_volume geometry);
         m_area := positive (geom_area geometry);
         m_length :=
           if String.eqb (is_a e) "IfcBeam" || String.eqb (is_a e) "IfcColumn"
           then match geom_bbox geometry with
                | Some bbox => bbox_length bbox
                | None => None
                end
           else None |}
  end.

Definition _get_category (e : element) : string :=
  match PredefinedType e with
  | Some predefined_type =>
      if PyStr.truthy predefined_type
      then is_a e ++ "_" ++ predefined_type
      else is_a e
  | None => is_a e
  end.

Definition _extract_material (e : element) : option string :=
  match materials e with
  | None => None
  | Some ms =>
      match first_return
              (fun m => match m with
                        | HasName n => Some n
                        | HasMaterialSelect (Some n) => Some n
                        | HasMaterialSelect None => None
                        | NoName => None
                        end) ms with
      | Some n => n
      | None => None
      end
  end.

(** The dictionary [extract_quantities] returns.  [q_type] and [q_count]
    are optional because the aggregator reads them with a default. *)
Record quantity_record : Type := {
  q_element_id : Z;
  q_global_id : option string;
  q_type : option string;
  q_name : option string;
  q_tag : option string;
  q_volume : option float;
  q_area : option float;
  q_length : option float;
  q_count : option Z;
  q_material : option string;
  q_storey : option string;
  q_category : string
}.

(** [quantities.update(qto_quantities)]. *)
Definition update (q new : measures) : measures :=
  {| m_volume := match m_volume new with Some v => Some v | None => m_volume q end;
     m_area := match m_area new with Some v => Some v | None => m_area q end;
     m_length := match m_length new with Some v => Some v | None => m_length q end |}.

(** [for key, value in d.items():
       if quantities.get(key) is None and value is not None:
           quantities[key] = value]. *)
Definition fill_absent (q d : measures) : measures :=
  {| m_volume := match m_volume q with Some v => Some v | None => m_volume d end;
     m_area := match m_area q with Some v => Some v | None => m_area d end;
     m_length := match m_length q with Some v => Some v | None => m_length d end |}.

(** Steps 1 to 3 of [extract_quantities]: the measures before the unit
    conversion, in the units of the model. *)
Definition after_tier1 `{PyRuntime} (e : element) : measures :=
  let qto_quantities := _extract_ifc_element_quantities e in
  if all_none qto_quantities then no_measures
  else update no_measures qto_quantities.

Definition after_tier2 `{PyRuntime} (e : element) : measures :=
  let qto_quantities := _extract_ifc_element_quantities e in
  let quantities := after_tier1 e in
  if all_none qto_quantities || all_none quantities then
    let qto_properties := _extract_qto_properties e in
    if all_none qto_properties then quantities
    else fill_absent quantities qto_properties
  else quantities.

Definition after_tier3 `{PyRuntime} (e : element) : measures :=
  let quantities := after_tier2 e in
  if all_none quantities
  then fill_absent quantities (_calculate_geometric_quantities e)
  else quantities.

(** The unit conversion: volume, then area, then length. *)
Definition convert_units `{PyRuntime} (unit_scale_factor : float)
           (q : measures) : result measures :=
  v <- match m_volume q with
       | Some v => s3 <- float_pow unit_scale_factor 3 ;;
                   Ok (Some (PrimFloat.mul v s3))
       | None => Ok None
       end ;;
  a <- match m_area q with
       | Some a => s2 <- float_pow unit_scale_factor 2 ;;
                   Ok (Some (PrimFloat.mul a s2))
       | None => Ok None
       end ;;
  Ok {| m_volume := v; m_area := a;
        m_length := option_map (fun l => PrimFloat.mul l unit_scale_factor)
                               (m_length q) |}.

Definition extract_quantities `{PyRuntime} (unit_scale_factor : float)
           (e : element) (storey : option string) : result quantity_record :=
  let category := _get_category e in
  q <- convert_units unit_scale_factor (after_tier3 e) ;;
  Ok {| q_element_id := id e;
        q_global_id := GlobalId e;
        q_type := Some (is_a e);
        q_name := Name e;
        q_tag := Tag e;
        q_volume := m_volume q;
        q_area := m_area q;
        q_length := m_length q;
        q_count := Some 1%Z;
        q_material := _extract_material e;
        q_storey := storey;
        q_category := category |}.

(** What [extract_all_quantities] writes to the log. *)
Inductive log_record : Type :=
| Warning_failed (element_id : Z) (e : exn)
| Info_extracted (n : nat).

(** [get_storey_fn(element)] under its bare [except]. *)
Definition storey_of (get_storey_fn : option (element -> result (option string)))
           (e : element) : option string :=
  match get_storey_fn with
  | Some f => match f e with Ok s => s | Raise _ => None end
  | None => None
  end.

(** The loop of [extract_all_quantities].  The handler formats its warning
    with [element.id()], which returns for every entity of a model. *)
Fixpoint extract_loop `{PyRuntime} (unit_scale_factor : float)
         (get_storey_fn : option (element -> result (option string)))
         (elements : list element)
         (all_quantities : list quantity_record) (log : list log_record)
  : list quantity_record * list log_record :=
  match elements with
  | [] => (all_quantities, log)
  | e :: rest =>
      match extract_quantities unit_scale_factor e (storey_of get_storey_fn e) with
      | Ok quantities =>
          extract_loop unit_scale_factor get_storey_fn rest
                       (all_quantities ++ [quantities]) log
      | Raise err =>
          extract_loop unit_scale_factor get_storey_fn rest
                       all_quantities (log ++ [Warning_failed (id e) err])
      end
  end.

Definition extract_all_quantities `{PyRuntime} (unit_scale_factor : float)
           (elements : list element)
           (get_storey_fn : option (element -> result (option string)))
  : list quantity_record * list log_record :=
  let '(all_quantities, log) :=
    extract_loop unit_scale_factor get_storey_fn elements [] [] in
  (all_quantities, log ++ [Info_extracted (List.length all_quantities)]).

End QuantityExtractor.

(* ================================================================= *)
(** ** The library the extractor runs on *)

Module Library.

Import QuantityExtractor.

(** [ifcopenshell.util.element] offers [get_psets], [get_materials] and
    [get_container], and no function [get_qtos].  The call that opens the
    [try] block of [_extract_ifc_element_quantities] therefore raises
    [AttributeError]; the handler of the block swallows it, and the
    element quantities reached through [IsDefinedBy] are never looked at. *)
Definition get_qtos_raises (e : element) : bool :=
  match qtos e with
  | None => true
  | Some _ => false
  end.

(** The geometry of a shape holds vertices and faces; it has no methods
    [volume], [area] and [bbox], so that each of the three calls raises
    under its bare [except]. *)
Definition shape_without_measures (e : element) : bool :=
  match shape e with
  | Some geometry =>
      match geom_volume geometry, geom_area geometry, geom_bbox geometry with
      | None, None, None => true
      | _, _, _ => false
      end
  | None => true
  end.

(** An element as a run of the program reads it. *)
Definition read_in_a_run (e : element) : bool :=
  get_qtos_raises e && shape_without_measures e.

End Library.

(* ================================================================= *)
(** ** A table of rows under named columns, as the code uses pandas *)

Module Frame.

Inductive cell : Type :=
| CNone
| CStr (s : string)
| CFloat (x : float)
| CInt (n : Z).

Record DataFrame : Type := {
  columns : list string;
  rows : list (list cell)
}.

(** [pd.DataFrame()]. *)
Definition empty_frame : DataFrame := {| columns := []; rows := [] |}.

(** [df.empty]: no column or no row.  [len(df)]: the number of rows. *)
Definition empty (df : DataFrame) : bool :=
  match columns df, rows df with
  | [], _ => true
  | _, [] => true
  | _, _ => false
  end.

Definition len (df : DataFrame) : nat := List.length (rows df).

(** [col in df.columns]. *)
Definition has_column (df : DataFrame) (col : string) : bool :=
  existsb (String.eqb col) (columns df).

(** The cell of [row] under [col]. *)
Fixpoint cell_at (header : list string) (row : list cell) (col : string)
  : cell :=
  match header, row with
  | h :: header', c :: row' =>
      if String.eqb h col then c else cell_at header' row' col
  | _, _ => CNone
  end.

(** [df[col]]: the column as a list. *)
Definition column (df : DataFrame) (col : string) : list cell :=
  map (fun row => cell_at (columns df) row col) (rows df).

(** [df[cols]]: the columns [cols], in that order. *)
Definition select (df : DataFrame) (cols : list string) : DataFrame :=
  {| columns := cols;
     rows := map (fun row => map (cell_at (columns df) row) cols) (rows df) |}.

(** [range(start, start + n)]. *)
Fixpoint range (start : Z) (n : nat) : list Z :=
  match n with
  | O => []
  | S n' => start :: range (start + 1) n'
  end.

(** [df.insert(0, col, values)]: pandas refuses a column that is already
    there ([ValueError: cannot insert ..., already exists]) and values
    of another length than the frame. *)
Definition insert0 (df : DataFrame) (col : string) (values : list cell)
  : result DataFrame :=
  if has_column df col then Raise ValueError
  else if negb (Nat.eqb (List.length values) (len df)) then Raise ValueError
  else Ok {| columns := col :: columns df;
             rows := map (fun p => fst p :: snd p)
                         (combine values (rows df)) |}.

(** [df.drop(columns=[col])] for a column that is there. *)
Fixpoint drop_cell (header : list string) (row : list cell) (col : string)
  : list cell :=
  match header, row with
  | h :: header', c :: row' =>
      if String.eqb h col then drop_cell header' row' col
      else c :: drop_cell header' row' col
  | _, _ => []
  end.

Definition drop_column (df : DataFrame) (col : string) : DataFrame :=
  {| columns := filter (fun h => negb (String.eqb h col)) (columns df);
     rows := map (fun row => drop_cell (columns df) row col) (rows df) |}.

(** The order of two cells of a sort key.  The keys the code sorts by
    hold strings; a missing value sorts last. *)
Definition cell_compare (a b : cell) : comparison :=
  match a, b with
  | CStr s, CStr t => String.compare s t
  | CNone, CNone => Eq
  | CNone, _ => Gt
  | _, CNone => Lt
  | _, _ => Eq
  end.

Fixpoint key_leb (k1 k2 : list cell) : bool :=
  match k1, k2 with
  | a :: k1', b :: k2' =>
      match cell_compare a b with
      | Lt => true
      | Gt => false
      | Eq => key_leb k1' k2'
      end
  | _, _ => true
  end.

Fixpoint insert_sorted (key : list cell -> list cell) (r : list cell)
         (sorted : list (list cell)) : list (list cell) :=
  match sorted with
  | [] => [r]
  | x :: rest =>
      if key_leb (key r) (key x) then r :: x :: rest
      else x :: insert_sorted key r rest
  end.

(** [df.sort_values(by=cols, ignore_index=True)]: ascending, rows with
    equal keys keep their order. *)
Definition sort_values (df : DataFrame) (by_ : list string) : DataFrame :=
  let key := fun row => map (cell_at (columns df) row) by_ in
  {| columns := columns df;
     rows := fold_right (insert_sorted key) [] (rows df) |}.

(** [df[col].unique().tolist()]. *)
Definition cell_eqb (a b : cell) : bool :=
  match a, b with
  | CNone, CNone => true
  | CStr s, CStr t => String.eqb s t
  | CFloat x, CFloat y => PrimFloat.eqb x y
  | CInt n, CInt m => Z.eqb n m
  | _, _ => false
  end.

Fixpoint unique_from (seen : list cell) (xs : list cell) : list cell :=
  match xs with
  | [] => []
  | x :: rest =>
      if existsb (cell_eqb x) seen then unique_from seen rest
      else x :: unique_from (x :: seen) rest
  end.

Definition unique (xs : list cell) : list cell := unique_from [] xs.

(** [df[col].sum()]: missing values are skipped. *)
Definition floats_of (xs : list cell) : list float :=
  flat_map (fun c => match c with CFloat x => [x] | _ => [] end) xs.

Definition ints_of (xs : list cell) : list Z :=
  flat_map (fun c => match c with CInt n => [n] | _ => [] end) xs.

End Frame.

(* ================================================================= *)
(** ** boq_generator.py *)

Module BOQGenerator.

Import QuantityExtractor Frame.

(** A quantity of a BOQ line: a float total or the integer count. *)
Inductive number : Type :=
| PyF (x : float)
| PyI (n : Z).

(** [qty.get('type', 'Unknown')]. *)
Definition type_of (qty : quantity_record) : string :=
  match q_type qty with Some t => t | None => "Unknown" end.

(** The key [_group_quantities] files a record under. *)
Definition group_key (grouping_level : string) (qty : quantity_record)
  : string :=
  if String.eqb grouping_level "type" then type_of qty
  else if String.eqb grouping_level "storey" then
    str_or (q_storey qty) "Unknown"
  else if String.eqb grouping_level "material" then
    str_or (q_material qty) "Unknown"
  else if String.eqb grouping_level "all" then
    let typ := type_of qty in
    let storey := str_or (q_storey qty) "Unknown" in
    let mat := str_or (q_material qty) "Unknown" in
    typ ++ "|" ++ storey ++ "|" ++ mat
  else type_of qty.

(** [grouped[key].append(qty)] on a [defaultdict(list)]. *)
Fixpoint append_to {A} (grouped : dict (list A)) (key : string) (x : A)
  : dict (list A) :=
  match grouped with
  | [] => [(key, [x])]
  | (k, l) :: rest =>
      if String.eqb k key then (k, l ++ [x]) :: rest
      else (k, l) :: append_to rest key x
  end.

Definition _group_quantities (quantities : list quantity_record)
           (grouping_level : string) : dict (list quantity_record) :=
  fold_left (fun grouped qty =>
               append_to grouped (group_key grouping_level qty) qty)
            quantities [].

Definition _create_description (element_type material : string) : string :=
  let type_name :=
    if PyStr.startswith element_type "Ifc"
    then PyStr.remove_all "Ifc" element_type
    else element_type in
  if PyStr.truthy material
     && negb (String.eqb material "Unknown"
              || String.eqb material "Not Specified")
  then type_name ++ " - " ++ material
  else type_name.

Definition volume_elements : list string :=
  ["IfcWall"; "IfcSlab"; "IfcFooting"; "IfcColumn"; "IfcBeam"].
Definition area_elements : list string :=
  ["IfcRoof"; "IfcCurtainWall"; "IfcRailing"].
Definition length_elements : list string := ["IfcBeam"; "IfcPile"].

(** [x in xs] for a list of strings. *)
Definition str_in (x : string) (xs : list string) : bool :=
  existsb (String.eqb x) xs.

(** [element_type.split('_')[0]]. *)
Definition element_base (element_type : string) : string :=
  hd "" (PyStr.split "_" element_type).

Definition _determine_primary_quantity
           (volume area length : float) (count : Z) (element_type : string)
  : string * number :=
  let element_base := element_base element_type in
  if str_in element_base volume_elements && gt0 volume then
    ("m³", PyF volume)
  else if str_in element_base area_elements && gt0 area then
    ("m²", PyF area)
  else if str_in element_base length_elements && gt0 length then
    ("m", PyF length)
  else if gt0 volume then ("m³", PyF volume)
  else if gt0 area then ("m²", PyF area)
  else if gt0 length then ("m", PyF length)
  else ("No.", PyI count).

(** A BOQ line, the dictionary [_create_boq_item] builds. *)
Record boq_item : Type := {
  item_no : option Z;
  element_type : string;
  description : string;
  unit : string;
  quantity : number;
  storey : string;
  material : string;
  volume_m3 : option float;
  area_m2 : option float;
  length_m : option float;
  count : Z
}.

(** [item.get(key, 0) or 0]. *)
Definition or_zero (x : option float) : float :=
  match x with
  | Some v => if float_truthy v then v else 0%float
  | None => 0%float
  end.

(** [item.get('count', 1)]. *)
Definition count_of (item : quantity_record) : Z :=
  match q_count item with Some c => c | None => 1%Z end.

(** [round(quantity, 3)]: an integer is its own rounding. *)
Definition round3 `{PyRuntime} (q : number) : number :=
  match q with
  | PyF x => PyF (float_round x 3)
  | PyI n => PyI n
  end.

(** [round(total, 3) if total > 0 else None]. *)
Definition rounded_if_positive `{PyRuntime} (total : float) : option float :=
  if gt0 total then Some (float_round total 3) else None.

(** [parts[i] if len(parts) > i else 'Unknown']. *)
Definition part (parts : list string) (i : nat) : string :=
  nth i parts "Unknown".

Definition _create_boq_item `{PyRuntime} (group_key : string)
           (items : list quantity_record) (grouping_level : string)
  : result boq_item :=
  head <-
    (if PyStr.contains "|" group_key then
       let parts := PyStr.split "|" group_key in
       Ok (part parts 0, part parts 1, part parts 2)
     else
       match items with
       | [] => Raise IndexError
       | first_item :: _ =>
           let element_type := type_of first_item in
           let storey := str_or (q_storey first_item) "Not Specified" in
           let material := str_or (q_material first_item) "Not Specified" in
           let storey :=
             if String.eqb grouping_level "storey" then
               if negb (String.eqb group_key "Unknown") then group_key
               else "Not Specified"
             else storey in
           Ok (element_type, storey, material)
       end) ;;
  let '(element_type, storey, material) := head in
  let total_volume := float_sum (map (fun item => or_zero (q_volume item)) items) in
  let total_area := float_sum (map (fun item => or_zero (q_area item)) items) in
  let total_length := float_sum (map (fun item => or_zero (q_length item)) items) in
  let total_count := Z_sum (map count_of items) in
  let description := _create_description element_type material in
  let '(unit, quantity) :=
    _determine_primary_quantity total_volume total_area total_length
                                total_count element_type in
  Ok {| item_no := None;
        element_type := element_type;
        description := description;
        unit := unit;
        quantity := round3 quantity;
        storey := storey;
        material := material;
        volume_m3 := rounded_if_positive total_volume;
        area_m2 := rounded_if_positive total_area;
        length_m := rounded_if_positive total_length;
        count := total_count |}.

(** [for group_key, items in grouped.items(): self.boq_items.append(...)]. *)
Fixpoint create_items `{PyRuntime} (grouped : dict (list quantity_record))
         (grouping_level : string) : result (list boq_item) :=
  match grouped with
  | [] => Ok []
  | (group_key, items) :: rest =>
      boq_item <- _create_boq_item group_key items grouping_level ;;
      boq_items <- create_items rest grouping_level ;;
      Ok (boq_item :: boq_items)
  end.

(** [pd.DataFrame(self.boq_items)]: one column per key of the
    dictionaries, in the order of the keys. *)
Definition item_columns : list string :=
  ["item_no"; "element_type"; "description"; "unit"; "quantity"; "storey";
   "material"; "volume_m3"; "area_m2"; "length_m"; "count"].

Definition cell_of_Z (o : option Z) : cell :=
  match o with Some n => CInt n | None => CNone end.
Definition cell_of_float (o : option float) : cell :=
  match o with Some x => CFloat x | None => CNone end.
Definition cell_of_number (q : number) : cell :=
  match q with PyF x => CFloat x | PyI n => CInt n end.

Definition row_of_item (i : boq_item) : list cell :=
  [cell_of_Z (item_no i); CStr (element_type i); CStr (description i);
   CStr (unit i); cell_of_number (quantity i); CStr (storey i);
   CStr (material i); cell_of_float (volume_m3 i);
   cell_of_float (area_m2 i); cell_of_float (length_m i);
   CInt (count i)].

Definition frame_of_items (boq_items : list boq_item) : DataFrame :=
  match boq_items with
  | [] => empty_frame
  | _ => {| columns := item_columns; rows := map row_of_item boq_items |}
  end.

Definition column_order : list string :=
  ["item_no"; "element_type"; "description"; "unit"; "quantity"; "storey";
   "material"].

Definition generate_boq `{PyRuntime} (quantities : list quantity_record)
           (grouping_level : string) : result DataFrame :=
  match quantities with
  | [] => Ok empty_frame
  | _ =>
      let grouped := _group_quantities quantities grouping_level in
      boq_items <- create_items grouped grouping_level ;;
      let df := frame_of_items boq_items in
      let available_columns := filter (has_column df) column_order in
      let remaining_columns :=
        filter (fun col => negb (str_in col available_columns)) (columns df) in
      let df := select df (available_columns ++ remaining_columns) in
      let sort_columns :=
        (if has_column df "element_type" then ["element_type"] else [])
        ++ (if has_column df "storey" then ["storey"] else []) in
      let df := match sort_columns with
                | [] => df
                | _ => sort_values df sort_columns
                end in
      Ok df
  end.

Definition add_item_numbers (df : DataFrame) : result DataFrame :=
  if empty df then Ok df
  else insert0 df "item_no" (map CInt (range 1 (len df))).

(** The values of the summary dictionary. *)
Inductive summary_value : Type :=
| SInt (n : Z)
| SFloat (x : float)
| SList (l : list cell).

Definition get_summary (df : DataFrame) : dict summary_value :=
  if empty df then []
  else
    [ ("total_items", SInt (Z.of_nat (len df)));
      ("total_volume_m3",
       if has_column df "volume_m3"
       then SFloat (float_sum (floats_of (column df "volume_m3")))
       else SInt 0);
      ("total_area_m2",
       if has_column df "area_m2"
       then SFloat (float_sum (floats_of (column df "area_m2")))
       else SInt 0);
      ("total_length_m",
       if has_column df "length_m"
       then SFloat (float_sum (floats_of (column df "length_m")))
       else SInt 0);
      ("total_count",
       if has_column df "count"
       then SInt (Z_sum (ints_of (column df "count")))
       else SInt 0);
      ("element_types",
       if has_column df "element_type"
       then SList (unique (column df "element_type"))
       else SList []) ].

End BOQGenerator.

(* ================================================================= *)
(** ** excel_exporter.py: the numbering of a sheet *)

Module ExcelExporter.

Import Frame.

(** [if 'item_no' in df.columns: df = df.drop(columns=['item_no'])]
    followed by [df.insert(0, 'item_no', range(1, len(df) + 1))]. *)
Definition number_sheet (df : DataFrame) : result DataFrame :=
  let df := if has_column df "item_no" then drop_column df "item_no"
            else df in
  insert0 df "item_no" (map CInt (range 1 (len df))).

End ExcelExporter.

(* ================================================================= *)
(** ** ifc_reader.py: the elements of a model *)

Module IFCElements.

(** A spatial structure an element can be contained in. *)
Record structure : Type := {
  is_IfcBuildingStorey : bool;
  structure_Name : option string;
  structure_LongName : option string
}.

(** An [IfcRelContainedInSpatialStructure]; [None] without the attribute
    [RelatingStructure]. *)
Record containment : Type := {
  RelatingStructure : option structure
}.

(** An entity of the model, as the reader looks at it: what the extractor
    reads of it, and the attributes the reader tests.  An attribute the
    entity does not have is [None]. *)
Record entity : Type := {
  core : QuantityExtractor.element;
  (** the relations to the openings that void the element *)
  HasOpenings : option (list Z);
  ContainedInStructure : option (list containment);
  (** [get_container(element, 'IfcBuildingStorey')], [None] when the call
      raises or finds nothing *)
  container : option structure
}.

(** The loaded file: [by_type(t)], [None] when the call raises. *)
Record ifc_file : Type := {
  by_type : string -> option (list entity)
}.

Definition get_file (file : option ifc_file) : result ifc_file :=
  match file with
  | None => Raise RuntimeError
  | Some f => Ok f
  end.

Definition get_elements_by_type (file : option ifc_file)
           (element_type : string) : result (list entity) :=
  match file with
  | None => Raise RuntimeError
  | Some f =>
      match by_type f element_type with
      | Some elements => Ok elements
      | None => Ok []                           (* except Exception *)
      end
  end.

Definition excluded_types : list string :=
  ["IfcOpeningElement"; "IfcSpace"; "IfcAnnotation"; "IfcGrid";
   "IfcOpeningStandardCase"].

Definition keywords : list string := ["opening"; "void"; "annotation"].

(** [x and any(keyword in str(x).lower() for keyword in keywords)] for a
    name or a tag. *)
Definition mentions_keyword (x : option string) : bool :=
  match x with
  | Some s =>
      PyStr.truthy s
      && existsb (fun keyword => PyStr.contains keyword (PyStr.lower s))
                 keywords
  | None => false
  end.

(** [hasattr(element, 'HasOpenings') and element.HasOpenings]. *)
Definition has_openings (e : entity) : bool :=
  match HasOpenings e with
  | Some (_ :: _) => true
  | _ => false
  end.

(** The loop of [_filter_physical_elements]: each test that holds is a
    [continue]. *)
Fixpoint _filter_physical_elements (elements : list entity) : list entity :=
  match elements with
  | [] => []
  | element :: rest =>
      if existsb (String.eqb (QuantityExtractor.is_a (core element)))
                 excluded_types
      then _filter_physical_elements rest
      else if has_openings element then _filter_physical_elements rest
      else if mentions_keyword (QuantityExtractor.Name (core element))
      then _filter_physical_elements rest
      else if mentions_keyword (QuantityExtractor.Tag (core element))
      then _filter_physical_elements rest
      else element :: _filter_physical_elements rest
  end.

Definition element_types : list string :=
  ["IfcBeam"; "IfcColumn"; "IfcSlab"; "IfcWall"; "IfcFooting"].

(** [for elem_type in element_types: all_elements.extend(...)]. *)
Fixpoint collect (file : option ifc_file) (types : list string)
         (all_elements : list entity) : result (list entity) :=
  match types with
  | [] => Ok all_elements
  | elem_type :: rest =>
      elements <- get_elements_by_type file elem_type ;;
      collect file rest (all_elements ++ _filter_physical_elements elements)
  end.

Definition get_civil_engineering_elements (file : option ifc_file)
  : result (list entity) :=
  collect file element_types [].

Definition get_all_building_elements (file : option ifc_file)
  : result (list entity) :=
  get_civil_engineering_elements file.

(** [getattr(s, 'Name', None) or getattr(s, 'LongName', None)]. *)
Definition storey_name (s : structure) : option string :=
  match structure_Name s with
  | Some n => if PyStr.truthy n then Some n else structure_LongName s
  | None => structure_LongName s
  end.

(** [get_element_storey]: the first containing structure that is a storey
    returns its name, be it [None]; without one the container lookup is
    tried. *)
Definition get_element_storey (e : entity) : option string :=
  let contained :=
    match ContainedInStructure e with
    | Some relations =>
        first_return
          (fun relation =>
             match RelatingStructure relation with
             | Some s =>
                 if is_IfcBuildingStorey s then Some (storey_name s) else None
             | None => None
             end) relations
    | None => None
    end in
  match contained with
  | Some name => name
  | None =>
      match container e with
      | Some storey => storey_name storey
      | None => None
      end
  end.

End IFCElements.

(* ================================================================= *)
(** ** excel_exporter.py: the sheets of the workbook *)

Module ExcelSheets.

Import Frame.

(** [s.replace(old, new)] for two characters. *)
Definition replace_char (old new : ascii) (s : string) : string :=
  PyStr.smap (fun c => if Ascii.eqb c old then new else c) s.

(** [s[:n]]. *)
Fixpoint take (n : nat) (s : string) : string :=
  match n, s with
  | O, _ => EmptyString
  | S n', String c s' => String c (take n' s')
  | S _, EmptyString => EmptyString
  end.

(** ['/', '\\', '?', '*', '[', ']'], by their codes. *)
Definition invalid_chars : list ascii :=
  map ascii_of_nat [47; 92; 63; 42; 91; 93]%nat.

(** [_clean_sheet_name]; lengths count the characters of an ASCII name. *)
Definition _clean_sheet_name (name : string) : string :=
  let clean_name :=
    if PyStr.startswith name "Ifc" then PyStr.remove_all "Ifc" name
    else name in
  let clean_name :=
    fold_left (fun clean_name char => replace_char char "_" clean_name)
              invalid_chars clean_name in
  let clean_name :=
    if (31 <? String.length clean_name)%nat then take 31 clean_name
    else clean_name in
  if negb (PyStr.truthy clean_name) then "Sheet1" else clean_name.

(** [boq_df[boq_df['element_type'] == elem_type]]. *)
Definition rows_of_type (df : DataFrame) (elem_type : cell) : DataFrame :=
  {| columns := columns df;
     rows := filter (fun row =>
                       cell_eqb (cell_at (columns df) row "element_type")
                                elem_type)
                    (rows df) |}.

(** The name of the sheet of an element type; [None] when the type is not
    a string and [_clean_sheet_name] raises. *)
Definition sheet_name_of (elem_type : cell) : option string :=
  match elem_type with
  | CStr s => Some (_clean_sheet_name s)
  | _ => None
  end.

(** The loop over the element types in [export_boq]: the sheet name and
    the numbered table of each call of [to_excel], in the order of the
    calls. *)
Fixpoint type_sheets (df : DataFrame) (element_types : list cell)
  : option (list (string * DataFrame)) :=
  match element_types with
  | [] => Some []
  | elem_type :: rest =>
      match sheet_name_of elem_type,
            ExcelExporter.number_sheet (rows_of_type df elem_type) with
      | Some sheet_name, Ok type_df =>
          option_map (cons (sheet_name, type_df)) (type_sheets df rest)
      | _, _ => None
      end
  end.

Definition fallback_columns : list string :=
  ["item_no"; "element_type"; "description"; "unit"; "quantity"; "storey";
   "material"].

(** The calls of [to_excel] by which [export_boq] writes the bill: one per
    element type, or the single one for the sheet "Bill of Quantities".
    Each call makes a sheet of its own when the names differ; a name that
    comes a second time is written onto the sheet that has it. *)
Definition boq_sheets (boq_df : DataFrame)
  : option (list (string * DataFrame)) :=
  let per_type :=
    if negb (empty boq_df) && has_column boq_df "element_type" then
      type_sheets boq_df (unique (column boq_df "element_type"))
    else Some [] in
  match per_type with
  | None => None
  | Some [] =>
      let boq_df :=
        if empty boq_df
        then {| columns := fallback_columns; rows := [] |}
        else boq_df in
      if negb (empty boq_df) then
        match ExcelExporter.number_sheet boq_df with
        | Ok df => Some [("Bill of Quantities", df)]
        | Raise _ => None
        end
      else Some [("Bill of Quantities", boq_df)]
  | Some sheets => Some sheets
  end.

End ExcelSheets.

(* ================================================================= *)
(** ** A runtime to run the model on examples *)

Module Reference.

(** [x ** n] by repeated multiplication, with CPython's
    [OverflowError] when a finite base gives an infinite result.  The C
    library's [pow] may differ from it in the last bit; it is exact on
    the base [1.0], where both give [1.0]. *)
Definition pow (x : float) (n : Z) : result float :=
  let r := Nat.iter (Z.to_nat n) (fun acc => PrimFloat.mul acc x) 1%float in
  if PrimFloat.is_infinity r && negb (PrimFloat.is_infinity x)
  then Raise OverflowError
  else Ok r.

(** Rounding to [ndigits] decimals through the nearest integer of
    [x * 10^ndigits] (ties to even), for magnitudes below [2^51]. *)
Definition two52 : float := 4503599627370496%float.

Definition round (x : float) (ndigits : Z) : float :=
  let p := Nat.iter (Z.to_nat ndigits) (fun acc => PrimFloat.mul acc 10%float)
                    1%float in
  let y := PrimFloat.mul x p in
  if PrimFloat.ltb (PrimFloat.abs y) 2251799813685248%float then
    let r := if PrimFloat.ltb y 0%float
             then PrimFloat.add (PrimFloat.sub y two52) two52
             else PrimFloat.sub (PrimFloat.add y two52) two52 in
    PrimFloat.div r p
  else x.

(** Decimal literals [-ddd.ddd] of at most 15 digits, the only strings
    the examples convert; the other spellings [float()] accepts
    (exponents, [inf], [nan], blanks) are outside this stand-in. *)
Definition digit (c : ascii) : option Z :=
  let n := nat_of_ascii c in
  if (48 <=? n)%nat && (n <=? 57)%nat then Some (Z.of_nat (n - 48))
  else None.

(** [(mantissa, digits, fractional digits)] of the text read so far. *)
Fixpoint digits (s : string) (seen_dot : bool) (acc : Z * nat * nat)
  : option (Z * nat * nat) :=
  match s with
  | EmptyString => Some acc
  | String c s' =>
      let '(m, n, k) := acc in
      if Ascii.eqb c "." then
        if seen_dot then None else digits s' true acc
      else
        match digit c with
        | Some d =>
            digits s' seen_dot
                   (10 * m + d, S n, if seen_dot then S k else k)%Z
        | None => None
        end
  end.

Fixpoint float_of_pos (p : positive) : float :=
  match p with
  | xH => 1%float
  | xO p' => PrimFloat.mul 2%float (float_of_pos p')
  | xI p' => PrimFloat.add (PrimFloat.mul 2%float (float_of_pos p')) 1%float
  end.

Definition float_of_Z (z : Z) : float :=
  match z with
  | Z0 => 0%float
  | Zpos p => float_of_pos p
  | Zneg p => PrimFloat.opp (float_of_pos p)
  end.

Definition unsigned_of_str (s : string) : option float :=
  match digits s false (0%Z, O, O) with
  | Some (m, n, k) =>
      if (1 <=? n)%nat && (n <=? 15)%nat
      then Some (PrimFloat.div (float_of_Z m) (float_of_Z (10 ^ Z.of_nat k)))
      else None
  | None => None
  end.

Definition of_str (s : string) : option float :=
  match s with
  | String "-" s' => option_map PrimFloat.opp (unsigned_of_str s')
  | _ => unsigned_of_str s
  end.

Definition runtime : PyRuntime :=
  {| float_of_str := of_str; float_pow := pow; float_round := round |}.

End Reference.

(* ================================================================= *)
(** ** What the specification says, in its own words *)

Module Spec.

Import QuantityExtractor.

(** A rate key matches a material when its lower-case form occurs in the
    lower-case material and the key is not the literal ["default"]. *)
Definition key_matches (mat_key material : string) : Prop :=
  (exists before after,
      PyStr.lower material
      = (before ++ PyStr.lower mat_key ++ after)%string)
  /\ mat_key <> "default".

(** [o], or else the first of [l]. *)
Definition first_or (o : option float) (l : list float) : option float :=
  match o with
  | Some v => Some v
  | None => hd_error l
  end.

(** The three factors [get_unit_scale_factor] can answer. *)
Definition is_scale (f : float) : Prop :=
  f = 0.001%float \/ f = 0.01%float \/ f = 1%float.


Definition field_eqb (a b : field) : bool :=
  match a, b with
  | Volume, Volume | Area, Area | Length, Length => true
  | _, _ => false
  end.

(** The valid numeric values a set holds for the field [t], in the order
    of the set: the entries whose name the fixed table maps to [t] and
    whose value converts to a float. *)
Definition valid_values `{PyRuntime} (t : field) (props : dict pyval)
  : list float :=
  flat_map (fun kv =>
              match lookup quantity_mappings (fst kv) with
              | Some t' =>
                  if field_eqb t' t then
                    match to_float (snd kv) with
                    | Some v => [v]
                    | None => []
                    end
                  else []
              | None => []
              end) props.

(** ... over all quantity sets, set after set. *)
Definition set_values `{PyRuntime} (t : field) (sets : dict (dict pyval))
  : list float :=
  flat_map (fun kv => valid_values t (snd kv)) sets.

(** ... over the property sets whose name signals quantities. *)
Definition pset_values `{PyRuntime} (t : field) (sets : dict (dict pyval))
  : list float :=
  flat_map (fun kv => if signals_quantities (fst kv)
                      then valid_values t (snd kv) else []) sets.

(** ... over the physical quantities of the element quantities reached
    through [IsDefinedBy]. *)
Definition physical_values `{PyRuntime} (t : field)
           (qs : list physical_quantity) : list float :=
  flat_map (fun qty =>
              match quantity_entry qty with
              | Some (v, t') =>
                  if field_eqb t' t then
                    match to_float v with
                    | Some x => [x]
                    | None => []
                    end
                  else []
              | None => []
              end) qs.

Definition relation_values `{PyRuntime} (t : field) (rels : list relation)
  : list float :=
  flat_map (fun rel =>
              if is_IfcRelDefinesByProperties rel then
                match RelatingPropertyDefinition rel with
                | Some prop_def =>
                    if is_IfcElementQuantity prop_def then
                      match Quantities prop_def with
                      | Some qs => physical_values t qs
                      | None => []
                      end
                    else []
                | None => []
                end
              else []) rels.

(** The authoritative (tier 1) values of an element for the field [t]: those
    of its quantity sets, and when these hold no valid value for any field,
    those of the element quantities reached through [IsDefinedBy]. *)
Definition authoritative_values `{PyRuntime} (t : field) (e : element)
  : list float :=
  match qtos e with
  | None => []
  | Some sets =>
      match set_values Volume sets, set_values Area sets,
            set_values Length sets with
      | [], [], [] =>
          match IsDefinedBy e with
          | Some rels => relation_values t rels
          | None => []
          end
      | _, _, _ => set_values t sets
      end
  end.

(** The generic (tier 2) values of an element for the field [t]. *)
Definition property_values `{PyRuntime} (t : field) (e : element)
  : list float :=
  match psets e with
  | None => []
  | Some sets => pset_values t sets
  end.

(** Tier 1 resolved nothing. *)
Definition tier1_empty `{PyRuntime} (e : element) : Prop :=
  forall t, authoritative_values t e = [].

(** The power of the scale factor a field is converted by. *)
Definition scale_power `{PyRuntime} (unit_scale_factor : float) (t : field)
  : result float :=
  match t with
  | Volume => float_pow unit_scale_factor 3
  | Area => float_pow unit_scale_factor 2
  | Length => Ok unit_scale_factor
  end.

(** The field [t] of a quantity record. *)
Definition q_get (t : field) (r : quantity_record) : option float :=
  match t with
  | Volume => q_volume r
  | Area => q_area r
  | Length => q_length r
  end.


(** Tier 2 resolved nothing. *)
Definition tier2_empty `{PyRuntime} (e : element) : Prop :=
  forall t, property_values t e = [].

(** Where a resolved value comes from: the first authoritative value; or,
    tier 1 having resolved no field, the first generic value; or, tiers 1
    and 2 having resolved no field, the geometry, which only yields
    values above zero. *)
Definition source_of `{PyRuntime} (t : field) (e : element) (raw : float)
  : Prop :=
  hd_error (authoritative_values t e) = Some raw
  \/ (tier1_empty e /\ hd_error (property_values t e) = Some raw)
  \/ (tier1_empty e /\ tier2_empty e
      /\ m_get t (_calculate_geometric_quantities e) = Some raw
      /\ gt0 raw = true).

(** The invariant the specification states for a measure: absent, or a
    finite number that is not negative (so not NaN). *)
Definition finite_nonneg (x : float) : bool :=
  PrimFloat.leb 0%float x && PrimFloat.ltb x PrimFloat.infinity.

Definition measure_invariant (o : option float) : bool :=
  match o with
  | None => true
  | Some x => finite_nonneg x
  end.

Definition record_invariant (r : quantity_record) : bool :=
  measure_invariant (q_volume r) && measure_invariant (q_area r)
  && measure_invariant (q_length r).

(** The outcome of one element of a batch. *)
Definition extracted `{PyRuntime} (unit_scale_factor : float)
           (get_storey_fn : option (element -> result (option string)))
           (e : element) : result quantity_record :=
  extract_quantities unit_scale_factor e (storey_of get_storey_fn e).

Definition succeeds {A} (r : result A) : bool :=
  match r with Ok _ => true | Raise _ => false end.

Definition records_of {A} (r : result A) : list A :=
  match r with Ok a => [a] | Raise _ => [] end.

Definition warnings_of {A} (element_id : Z) (r : result A)
  : list log_record :=
  match r with Ok _ => [] | Raise err => [Warning_failed element_id err] end.


(** The summed measure of a group, as [_create_boq_item] computes it. *)
Definition group_total (measure : quantity_record -> option float)
           (items : list quantity_record) : float :=
  float_sum (map (fun item => BOQGenerator.or_zero (measure item)) items).

(** The unit and the quantity the priority rule gives a group whose line
    carries the element type [element_type]. *)
Definition primary_of_group `{PyRuntime} (element_type : string)
           (items : list quantity_record) : string * BOQGenerator.number :=
  let r := BOQGenerator._determine_primary_quantity
             (group_total q_volume items) (group_total q_area items)
             (group_total q_length items)
             (Z_sum (map BOQGenerator.count_of items)) element_type in
  (fst r, BOQGenerator.round3 (snd r)).



(** The invariant of the specification, for the records of an element. *)
Definition measures_always_valid `{PyRuntime} (unit_scale_factor : float)
           (e : element) : Prop :=
  forall storey r,
    extract_quantities unit_scale_factor e storey = Ok r ->
    record_invariant r = true.


(** Rows in ascending order of their sort key. *)
Definition ascending (key : list Frame.cell -> list Frame.cell)
           (rows : list (list Frame.cell)) : Prop :=
  forall i a b,
    nth_error rows i = Some a ->
    nth_error rows (S i) = Some b ->
    Frame.key_leb (key a) (key b) = true.

End Spec.

(* ================================================================= *)
(** ** Inputs the examples run on *)

Module Examples.

Import QuantityExtractor.

Definition example_rates : CostEstimator.rate_table :=
  [("IfcWall", [("Concrete", 50%float); ("default", 10%float)])].


(** The length unit of a model drawn in millimetres:
    an [IfcSIUnit] of type LENGTHUNIT with prefix MILLI and name METRE. *)
Definition si_millimetre : IFCReader.ifc_unit :=
  {| IFCReader.unit_class_of := IFCReader.IfcSIUnit;
     IFCReader.UnitType := Some "LENGTHUNIT";
     IFCReader.has_Dimensions := true;
     IFCReader.Name := Some (Some "METRE");
     IFCReader.Prefix := Some (Some "MILLI") |}.

Definition model_of_units (units : list IFCReader.ifc_unit)
  : IFCReader.ifc_model :=
  {| IFCReader.projects :=
       Some [ {| IFCReader.UnitsInContext :=
                   Some (Some {| IFCReader.Units := Some units |}) |} ] |}.

Definition model_mm : IFCReader.ifc_model := model_of_units [si_millimetre].


Definition mk_element (ifc_id : Z) (ifc_class : string)
           (qto_sets property_sets : option (dict (dict pyval)))
           (geom : option geometry) : element :=
  {| id := ifc_id; GlobalId := None; is_a := ifc_class; Name := None;
     Tag := None; PredefinedType := None;
     qtos := qto_sets; IsDefinedBy := None; psets := property_sets;
     shape := geom; materials := Some [HasName (Some "Concrete C30")] |}.

(** The measures of a cube, as a geometry that had the methods [volume],
    [area] and [bbox] would give them. *)
Definition cube (side : float) : geometry :=
  {| geom_volume := Some (PrimFloat.mul side (PrimFloat.mul side side));
     geom_area := Some (PrimFloat.mul 6%float (PrimFloat.mul side side));
     geom_bbox := Some [0%float; 0%float; 0%float; side; side; side] |}.

(** A wall with a property set and a quantity set, as [get_psets] lists
    them. *)
Definition wall : element :=
  mk_element 1 "IfcWall" None
    (Some [("Qto_Custom",
            [("NetVolume", PyFloat 7%float); ("Length", PyFloat 4%float)]);
           ("Qto_WallBaseQuantities",
            [("NetVolume", PyStr "2.5"); ("GrossVolume", PyFloat 3%float);
             ("NetSideArea", PyFloat 12.5%float); ("Length", PyNone)])])
    None.

(** A slab whose quantity set, which [get_psets] lists, holds a negative
    volume. *)
Definition negative_slab : element :=
  mk_element 3 "IfcSlab" None
    (Some [("Qto_SlabBaseQuantities", [("NetVolume", PyFloat (-5)%float)])])
    None.

(** A column with nothing but its shape, and a footing with nothing at
    all. *)
Definition shape_column : element :=
  mk_element 5 "IfcColumn" None (Some []) (Some (cube 2%float)).

Definition bare_footing : element :=
  mk_element 6 "IfcFooting" None None None.


(** Three walls with the volumes 2.0, 3.5 and 1.5 m³ on one storey, as the
    extractor would return them for a model in metres. *)
Definition wall_record (ifc_id : Z) (volume : float) : quantity_record :=
  {| q_element_id := ifc_id; q_global_id := None; q_type := Some "IfcWall";
     q_name := None; q_tag := None;
     q_volume := Some volume; q_area := Some 20%float; q_length := None;
     q_count := Some 1%Z; q_material := Some "Concrete C30";
     q_storey := Some "Level 1"; q_category := "IfcWall" |}.

Definition three_walls : list quantity_record :=
  [wall_record 11 2%float; wall_record 12 3.5%float; wall_record 13 1.5%float].

End Examples.

(* ================================================================= *)
(** ** Notions the further properties are stated with *)

Module Notions.

(** The character [c] does not occur in [s]. *)
Definition lacks (c : ascii) (s : string) : Prop :=
  PyStr.contains (String c EmptyString) s = false.

(** The units [get_unit_scale_factor] iterates over: those of the units in
    context of the first project. *)
Definition units_in_context (file : IFCReader.ifc_model)
  : option (list IFCReader.ifc_unit) :=
  match IFCReader.projects file with
  | Some (project :: _) =>
      match IFCReader.UnitsInContext project with
      | Some (Some units_context) => IFCReader.Units units_context
      | _ => None
      end
  | _ => None
  end.

Definition named_length_unit (u : IFCReader.ifc_unit) : bool :=
  IFCReader.is_a u "IfcNamedUnit" && IFCReader.is_length_unit u.

(** The keys of a list, each once, in the order of their first
    appearance. *)
Definition keys_in_order (keys : list string) : list string :=
  fold_left (fun seen k => if existsb (String.eqb k) seen then seen
                           else seen ++ [k])
            keys [].

(** The records filed under [key]. *)
Definition members (level key : string)
           (quantities : list QuantityExtractor.quantity_record)
  : list QuantityExtractor.quantity_record :=
  filter (fun qty => String.eqb (BOQGenerator.group_key level qty) key)
         quantities.

(** One of the four grouping levels the code names. *)
Definition known_level (level : string) : bool :=
  existsb (String.eqb level) ["type"; "storey"; "material"; "all"].

(** What the replacements make of one character. *)
Definition cleaned (chars : list ascii) (c : ascii) : ascii :=
  fold_left (fun c char => if Ascii.eqb c char then "_"%char else c) chars c.

(** An element [_filter_physical_elements] keeps. *)
Definition is_physical (e : IFCElements.entity) : bool :=
  negb (existsb (String.eqb (QuantityExtractor.is_a (IFCElements.core e)))
                IFCElements.excluded_types)
  && negb (IFCElements.has_openings e)
  && negb (IFCElements.mentions_keyword
             (QuantityExtractor.Name (IFCElements.core e)))
  && negb (IFCElements.mentions_keyword
             (QuantityExtractor.Tag (IFCElements.core e))).

(** A containment that does not lead to a storey. *)
Definition not_in_storey (relation : IFCElements.containment) : Prop :=
  match IFCElements.RelatingStructure relation with
  | Some s => IFCElements.is_IfcBuildingStorey s = false
  | None => True
  end.

(** A material that is named in a description. *)
Definition real_material (material : string) : bool :=
  PyStr.truthy material
  && negb (String.eqb material "Unknown"
           || String.eqb material "Not Specified").

(** A cell that holds a string. *)
Definition is_str (c : Frame.cell) : Prop :=
  match c with Frame.CStr _ => True | _ => False end.

(** How often the cell [u] occurs in [xs]. *)
Definition occurrences (u : Frame.cell) (xs : list Frame.cell) : nat :=
  List.length (filter (fun c => Frame.cell_eqb c u) xs).

(** The sheet the exporter writes for the element type [t] of the table
    [df]: named after the type, holding the lines of that type and no
    other, numbered from 1. *)
Definition sheet_of_type (df : Frame.DataFrame) (t : string)
           (sheet : string * Frame.DataFrame) : Prop :=
  fst sheet = ExcelSheets._clean_sheet_name t
  /\ (0 < Frame.len (snd sheet))%nat
  /\ Frame.len (snd sheet)
     = occurrences (Frame.CStr t) (Frame.column df "element_type")
  /\ Frame.column (snd sheet) "element_type"
     = repeat (Frame.CStr t) (Frame.len (snd sheet))
  /\ Frame.column (snd sheet) "item_no"
     = map Frame.CInt (Frame.range 1 (Frame.len (snd sheet))).

(** Text written in ASCII, on which the model's strings and Python's
    agree character by character. *)
Fixpoint is_ascii (s : string) : bool :=
  match s with
  | EmptyString => true
  | String c s' => (nat_of_ascii c <? 128)%nat && is_ascii s'
  end.

(** Text of ASCII letters and digits, as the names of the IFC classes
    are. *)
Definition is_alnum_char (c : ascii) : bool :=
  let n := nat_of_ascii c in
  ((48 <=? n) && (n <=? 57) || (65 <=? n) && (n <=? 90)
   || (97 <=? n) && (n <=? 122))%nat.

Fixpoint is_alnum (s : string) : bool :=
  match s with
  | EmptyString => true
  | String c s' => is_alnum_char c && is_alnum s'
  end.

Fixpoint all_distinct (l : list string) : bool :=
  match l with
  | [] => true
  | x :: rest => negb (existsb (String.eqb x) rest) && all_distinct rest
  end.

(** The sheet name of an element type of a table. *)
Definition sheet_title (elem_type : Frame.cell) : string :=
  match ExcelSheets.sheet_name_of elem_type with
  | Some sheet_name => sheet_name
  | None => ""
  end.

(** The element types of the table consist of ASCII letters and digits
    and their sheet names differ from one another, also when case is
    ignored: every call of [to_excel] then makes a sheet of its own, by
    the name it is given. *)
Definition sheets_of_their_own (df : Frame.DataFrame) : bool :=
  let element_types := Frame.unique (Frame.column df "element_type") in
  forallb (fun c => match c with
                    | Frame.CStr t => is_alnum t
                    | _ => false
                    end) element_types
  && all_distinct (map (fun c => PyStr.lower (sheet_title c)) element_types).

End Notions.

(* ================================================================== *)
(** * Further example data *)

Module Samples.

Import Frame.

(** An area unit: named, but not a length unit. *)
Definition si_square_metre : IFCReader.ifc_unit :=
  {| IFCReader.unit_class_of := IFCReader.IfcSIUnit;
     IFCReader.UnitType := Some "AREAUNIT";
     IFCReader.has_Dimensions := true;
     IFCReader.Name := Some (Some "SQUARE_METRE");
     IFCReader.Prefix := Some None |}.

(** A site and a storey, and a wall contained in both, the site first. *)
Definition site : IFCElements.structure :=
  {| IFCElements.is_IfcBuildingStorey := false;
     IFCElements.structure_Name := Some "Site";
     IFCElements.structure_LongName := None |}.

Definition level_1 : IFCElements.structure :=
  {| IFCElements.is_IfcBuildingStorey := true;
     IFCElements.structure_Name := Some "Level 1";
     IFCElements.structure_LongName := Some "Ground floor" |}.

Definition in_site : IFCElements.containment :=
  {| IFCElements.RelatingStructure := Some site |}.

Definition in_level_1 : IFCElements.containment :=
  {| IFCElements.RelatingStructure := Some level_1 |}.

Definition housed_wall : IFCElements.entity :=
  {| IFCElements.core := Examples.wall;
     IFCElements.HasOpenings := Some [];
     IFCElements.ContainedInStructure := Some [in_site; in_level_1];
     IFCElements.container := None |}.

(** A table of two lines that has no column of item numbers, and a table
    with columns of its own and no line. *)
Definition unnumbered_table : DataFrame :=
  {| columns := ["element_type"; "quantity"];
     rows := [[CStr "IfcWall"; CFloat 7%float];
              [CStr "IfcSlab"; CFloat 3%float]] |}.

Definition table_without_lines : DataFrame :=
  {| columns := ["code"; "remark"]; rows := [] |}.

(** Elements as a run reads them: [get_qtos] raises and a shape has no
    measures. *)
Definition shape_of_a_run : QuantityExtractor.geometry :=
  {| QuantityExtractor.geom_volume := None;
     QuantityExtractor.geom_area := None;
     QuantityExtractor.geom_bbox := None |}.

Definition element_of_a_run (ifc_id : Z) (ifc_class : string)
           (quantities : option (list QuantityExtractor.relation))
           (property_sets : dict (dict QuantityExtractor.pyval))
  : QuantityExtractor.element :=
  {| QuantityExtractor.id := ifc_id;
     QuantityExtractor.GlobalId := None;
     QuantityExtractor.is_a := ifc_class;
     QuantityExtractor.Name := None;
     QuantityExtractor.Tag := None;
     QuantityExtractor.PredefinedType := None;
     QuantityExtractor.qtos := None;
     QuantityExtractor.IsDefinedBy := quantities;
     QuantityExtractor.psets := Some property_sets;
     QuantityExtractor.shape := Some shape_of_a_run;
     QuantityExtractor.materials :=
       Some [QuantityExtractor.HasName (Some "Concrete C30")] |}.

(** An element quantity with the one volume [v]. *)
Definition quantity_set (v : float) : QuantityExtractor.relation :=
  {| QuantityExtractor.is_IfcRelDefinesByProperties := true;
     QuantityExtractor.RelatingPropertyDefinition :=
       Some {| QuantityExtractor.is_IfcElementQuantity := true;
               QuantityExtractor.Quantities :=
                 Some [QuantityExtractor.IfcQuantityVolume
                         (Some (QuantityExtractor.PyFloat v))] |} |}.

(** A wall whose element quantity holds the volume 2.5; [get_psets] lists
    a property set with another volume before the quantity set. *)
Definition surveyed_wall : QuantityExtractor.element :=
  element_of_a_run 21 "IfcWall" (Some [quantity_set 2.5%float])
    [("Qto_Custom",
      [("NetVolume", QuantityExtractor.PyFloat 7%float);
       ("Length", QuantityExtractor.PyFloat 4%float)]);
     ("Qto_WallBaseQuantities",
      [("NetVolume", QuantityExtractor.PyFloat 2.5%float);
       ("NetSideArea", QuantityExtractor.PyFloat 12.5%float)])].

(** A wall with a volume in one set and an area in another. *)
Definition two_set_wall : QuantityExtractor.element :=
  element_of_a_run 22 "IfcWall" (Some [quantity_set 2%float])
    [("Qto_WallBaseQuantities",
      [("NetVolume", QuantityExtractor.PyFloat 2%float)]);
     ("Qto_Custom",
      [("NetSideArea", QuantityExtractor.PyFloat 10%float)])].

(** A column of 2 by 2 by 2 whose property sets hold no quantity. *)
Definition unmeasured_column : QuantityExtractor.element :=
  element_of_a_run 23 "IfcColumn" None
    [("Pset_ColumnCommon",
      [("Length", QuantityExtractor.PyFloat 99%float)])].

(** A storey lookup that knows the wall 21 and fails on other
    elements. *)
Definition storey_of_wall_21 (e : QuantityExtractor.element)
  : result (option string) :=
  if Z.eqb (QuantityExtractor.id e) 21 then Ok (Some "Level 1")
  else Raise RuntimeError.

(** Three walls and a slab. *)
Definition slab_record : QuantityExtractor.quantity_record :=
  {| QuantityExtractor.q_element_id := 14;
     QuantityExtractor.q_global_id := None;
     QuantityExtractor.q_type := Some "IfcSlab";
     QuantityExtractor.q_name := None;
     QuantityExtractor.q_tag := None;
     QuantityExtractor.q_volume := Some 4%float;
     QuantityExtractor.q_area := Some 16%float;
     QuantityExtractor.q_length := None;
     QuantityExtractor.q_count := Some 1%Z;
     QuantityExtractor.q_material := Some "Concrete C30";
     QuantityExtractor.q_storey := Some "Level 1";
     QuantityExtractor.q_category := "IfcSlab" |}.

Definition walls_and_slab : list QuantityExtractor.quantity_record :=
  Examples.three_walls ++ [slab_record].

End Samples.

(* ================================================================= *)
(** * Properties *)

(** ** Strings and dictionaries *)

Lemma prefix_iff (p s : string) :
  String.prefix p s = true <-> exists rest, s = (p ++ rest)%string.
Proof.
  revert s; induction p as [|c p IH]; intros s.
  - split; [intros _; now exists s | intros _; now destruct s].
  - destruct s as [|d s]; simpl.
    + split; [discriminate | intros [rest H]; discriminate].
    + destruct (ascii_dec c d) as [->|Hne].
      * rewrite IH. split; intros [rest H]; exists rest.
        -- now rewrite H.
        -- now inversion H.
      * split; [discriminate|].
        intros [rest H]. inversion H. congruence.
Qed.

Lemma contains_unfold (needle hay : string) :
  PyStr.contains needle hay =
    String.prefix needle hay
    || match hay with
       | EmptyString => false
       | String _ hay' => PyStr.contains needle hay'
       end.
Proof.
  destruct hay as [|c hay]; simpl.
  - now destruct (String.prefix needle "").
  - now destruct (String.prefix needle (String c hay)).
Qed.

(** [needle in hay] holds exactly when [hay] is [before ++ needle ++ after]. *)
Lemma contains_iff (needle hay : string) :
  PyStr.contains needle hay = true <->
  exists before after, hay = (before ++ needle ++ after)%string.
Proof.
  induction hay as [|c hay IH];
    rewrite contains_unfold, orb_true_iff, prefix_iff.
  - split.
    + intros [[rest H] | H]; [now exists "", rest | discriminate].
    + intros [before [after H]]. left.
      destruct before; simpl in H; [eauto | discriminate].
  - rewrite IH. split.
    + intros [[rest H] | [before [after H]]].
      * now exists "", rest.
      * exists (String c before), after. simpl. now rewrite H.
    + intros [before [after H]].
      destruct before as [|d before]; simpl in H.
      * left. eauto.
      * right. inversion H. eauto.
Qed.

(** The fuel of [split] and [remove_all], the length of the string, is
    enough: more fuel gives the same result. *)
Lemma break_at_shorter (sep : ascii) (s h t : string) :
  PyStr.break_at sep s = (h, Some t) ->
  (String.length t < String.length s)%nat.
Proof.
  revert h t; induction s as [|c s IH]; intros h t; cbn; [discriminate|].
  destruct (Ascii.eqb c sep).
  - intros [= _ <-]. lia.
  - destruct (PyStr.break_at sep s) as [h' [t'|]]; intros [= _ <-].
    specialize (IH h' t' eq_refl). lia.
Qed.

Lemma split_fuel_enough (sep : ascii) (fuel fuel' : nat) (s : string) :
  (String.length s <= fuel)%nat ->
  (String.length s <= fuel')%nat ->
  PyStr.split_fuel fuel sep s = PyStr.split_fuel fuel' sep s.
Proof.
  revert fuel' s; induction fuel as [|fuel IH]; intros fuel' s Hf Hf'.
  - destruct s; cbn in Hf; [|lia]. now destruct fuel'.
  - destruct fuel' as [|fuel'].
    + destruct s; cbn in Hf'; [|lia]. reflexivity.
    + cbn [PyStr.split_fuel].
      destruct (PyStr.break_at sep s) as [h [t|]] eqn:Hb; [|reflexivity].
      apply break_at_shorter in Hb. f_equal. apply IH; lia.
Qed.

Lemma drop_length_le (n : nat) (s : string) :
  (String.length (PyStr.drop n s) <= String.length s)%nat.
Proof.
  revert s; induction n as [|n IH]; intros s; cbn; [lia|].
  destruct s as [|c s]; cbn; [lia|]. specialize (IH s). lia.
Qed.

Lemma remove_all_fuel_enough (old : string) (fuel fuel' : nat) (s : string) :
  old <> "" ->
  (String.length s <= fuel)%nat ->
  (String.length s <= fuel')%nat ->
  PyStr.remove_all_fuel fuel old s = PyStr.remove_all_fuel fuel' old s.
Proof.
  intros Hold. revert fuel' s; induction fuel as [|fuel IH];
    intros fuel' s Hf Hf'.
  - destruct s; cbn in Hf; [|lia]. now destruct fuel'.
  - destruct fuel' as [|fuel'].
    + destruct s; cbn in Hf'; [|lia]. reflexivity.
    + cbn [PyStr.remove_all_fuel]. destruct s as [|c s]; [reflexivity|].
      cbn [String.length] in Hf, Hf'.
      destruct (String.prefix old (String c s)).
      * destruct old as [|d old]; [congruence|]. cbn [String.length PyStr.drop].
        pose proof (drop_length_le (String.length old) s).
        apply IH; lia.
      * f_equal. apply IH; lia.
Qed.

Lemma str_in_iff (x : string) (xs : list string) :
  BOQGenerator.str_in x xs = true <-> In x xs.
Proof.
  unfold BOQGenerator.str_in. rewrite existsb_exists. split.
  - intros [y [Hin Heq]]. apply String.eqb_eq in Heq. now subst.
  - intros Hin. exists x. split; [assumption | apply String.eqb_refl].
Qed.

(* ----------------------------------------------------------------- *)
(** ** Rate lookup *)

Section RateLookup.

Import CostEstimator Spec Examples.

Lemma key_matches_test (mat_key material : string) :
  PyStr.contains (PyStr.lower mat_key) (PyStr.lower material)
  && negb (String.eqb mat_key "default") = true
  <-> key_matches mat_key material.
Proof.
  unfold key_matches.
  rewrite andb_true_iff, negb_true_iff, contains_iff, String.eqb_neq.
  reflexivity.
Qed.

(** The loop returns the rate of the first matching entry. *)
Lemma scan_rates_first (m : string) (before : dict float) (k : string)
      (r : float) (after : dict float) :
  Forall (fun kv => ~ key_matches (fst kv) m) before ->
  key_matches k m ->
  scan_rates (PyStr.lower m) (before ++ (k, r) :: after) = Some r.
Proof.
  intros Hbefore Hk. induction Hbefore as [|[k' r'] before Hk' _ IH]; simpl.
  - apply key_matches_test in Hk. now rewrite Hk.
  - destruct (PyStr.contains (PyStr.lower k') (PyStr.lower m)
              && negb (String.eqb k' "default")) eqn:Ht.
    + apply key_matches_test in Ht. contradiction.
    + exact IH.
Qed.

Lemma scan_rates_none (m : string) (items : dict float) :
  Forall (fun kv => ~ key_matches (fst kv) m) items ->
  scan_rates (PyStr.lower m) items = None.
Proof.
  induction 1 as [|[k r] items Hk _ IH]; simpl; [reflexivity|].
  destruct (PyStr.contains (PyStr.lower k) (PyStr.lower m)
            && negb (String.eqb k "default")) eqn:Ht.
  - apply key_matches_test in Ht. contradiction.
  - exact IH.
Qed.

(** C3.  [get_rate] returns the rate of the first entry of the type's
    mapping, in declared order, whose key is (case-insensitively) a
    substring of the given material and is not the literal "default";
    failing that (no material, an empty material, or no matching entry)
    the type's "default" entry, and 0.0 without one; a type that is
    absent from the table (or has no entry at all) yields 0.0 whatever
    the material.  With entries {"Concrete": 50, "default": 10}:
    "Ready Mix Concrete Grade 30" gives 50, "Steel" gives 10, and an
    absent type gives 0.0. *)
Theorem get_rate_priority :
  forall (rates : rate_table) (T : string) (M : option string),
    (* a type without entries *)
    ((lookup rates T = None \/ lookup rates T = Some []) ->
     get_rate rates T M = 0%float)
    /\
    (forall type_rates, lookup rates T = Some type_rates ->
                        type_rates <> [] ->
       (* first match, in declared order *)
       (forall m before k r after,
           M = Some m -> m <> "" ->
           type_rates = before ++ (k, r) :: after ->
           Forall (fun kv => ~ key_matches (fst kv) m) before ->
           key_matches k m ->
           get_rate rates T M = r)
       /\
       (* no match: the default entry, else 0.0 *)
       ((M = None \/ M = Some "" \/
         exists m, M = Some m /\
                   Forall (fun kv => ~ key_matches (fst kv) m) type_rates) ->
        get_rate rates T M =
          match lookup type_rates "default" with
          | Some r => r
          | None => 0%float
          end))
    /\
    get_rate example_rates "IfcWall" (Some "Ready Mix Concrete Grade 30")
      = 50%float
    /\ get_rate example_rates "IfcWall" (Some "Steel") = 10%float
    /\ get_rate example_rates "IfcDoor" M = 0%float.
Proof.
  intros rates T M. split; [|split; [|split; [|split]]].
  - unfold get_rate, get. intros [-> | ->]; reflexivity.
  - intros type_rates Hl Hne. unfold get_rate, get. rewrite Hl.
    destruct type_rates as [|e type_rates]; [congruence|].
    cbn [truthy negb]. split.
    + intros m before k r after -> Hm Heq Hbefore Hk.
      destruct m as [|c m]; [congruence|]. cbn [PyStr.truthy].
      rewrite Heq. now rewrite scan_rates_first by assumption.
    + intros [-> | [-> | [m [-> Hnone]]]]; cbn [PyStr.truthy]; try reflexivity.
      destruct (PyStr.truthy m); [|reflexivity].
      now rewrite scan_rates_none by assumption.
  - reflexivity.
  - reflexivity.
  - reflexivity.
Qed.

End RateLookup.

(* ----------------------------------------------------------------- *)
(** ** The unit scale factor *)

Section UnitScale.

Import IFCReader Spec Examples.

Lemma is_scale_positive (f : float) : is_scale f -> gt0 f = true.
Proof. intros [-> | [-> | ->]]; reflexivity. Qed.

Lemma named_unit_scale_values (u : ifc_unit) (f : float) :
  named_unit_scale u = Some f -> is_scale f.
Proof.
  unfold named_unit_scale, is_scale.
  repeat match goal with
         | |- context [if ?b then _ else _] => destruct b
         | |- context [match ?x with Some _ => _ | None => _ end] => destruct x
         end;
    intros [= <-]; auto.
Qed.

Lemma si_unit_scale_values (u : ifc_unit) (f : float) :
  si_unit_scale u = Some f -> is_scale f.
Proof.
  unfold si_unit_scale, is_scale.
  repeat match goal with
         | |- context [if ?b then _ else _] => destruct b
         | |- context [match ?x with Some _ => _ | None => _ end] => destruct x
         end;
    intros [= <-]; auto.
Qed.

Lemma first_return_some {A B} (body : A -> option B) (xs : list A) (r : B) :
  first_return body xs = Some r -> exists x, In x xs /\ body x = Some r.
Proof.
  induction xs as [|x xs IH]; simpl; [discriminate|].
  destruct (body x) eqn:Hx.
  - intros [= <-]. eauto.
  - intros H. destruct (IH H) as [y [Hy Hb]]. eauto.
Qed.

(** For a loaded file the function returns, and what it returns is one of
    0.001, 0.01 and 1.0: a positive factor. *)
Lemma get_unit_scale_factor_total (file : ifc_model) :
  exists f, get_unit_scale_factor (Some file) = Ok f
            /\ is_scale f /\ gt0 f = true.
Proof.
  assert (Hd : exists f, Ok 0.001%float = Ok f /\ is_scale f /\ gt0 f = true).
  { exists 0.001%float. repeat split. now left. }
  unfold get_unit_scale_factor.
  destruct (projects file) as [[|project ?]|]; try exact Hd.
  destruct (UnitsInContext project) as [[units_context|]|]; try exact Hd.
  destruct (Units units_context) as [units|]; try exact Hd.
  destruct (first_return named_unit_scale units) as [f|] eqn:H1.
  - apply first_return_some in H1. destruct H1 as [u [_ Hu]].
    apply named_unit_scale_values in Hu.
    exists f. auto using is_scale_positive.
  - destruct (first_return si_unit_scale units) as [f|] eqn:H2; try exact Hd.
    apply first_return_some in H2. destruct H2 as [u [_ Hu]].
    apply si_unit_scale_values in Hu.
    exists f. auto using is_scale_positive.
Qed.

(** The name loop runs over every unit before the prefix loop starts, and an
    [IfcSIUnit] is an [IfcNamedUnit]: an SI length unit named METRE is
    settled by its name, whatever its prefix. *)
Lemma si_unit_settled_by_name (u : ifc_unit) (rest : list ifc_unit)
      (prefix : option (option string)) :
  u = {| unit_class_of := IfcSIUnit; UnitType := Some "LENGTHUNIT";
         has_Dimensions := true; Name := Some (Some "METRE");
         Prefix := prefix |} ->
  get_unit_scale_factor (Some (model_of_units (u :: rest))) = Ok 1%float.
Proof. intros ->. reflexivity. Qed.

(** C5.  On the length unit of a millimetre model, an SI unit with the
    prefix MILLI, the prefix loop alone would answer 0.001, the factor the
    specification gives for that prefix; the function answers 1.0, because
    the name loop ran first and found METRE without MILLI in the name. *)
Theorem get_unit_scale_factor_si_millimetre :
  si_unit_scale si_millimetre = Some 0.001%float
  /\ named_unit_scale si_millimetre = Some 1%float
  /\ get_unit_scale_factor (Some model_mm) = Ok 1%float.
Proof. repeat split. Qed.

End UnitScale.

(* ----------------------------------------------------------------- *)
(** ** The fallback chain of [extract_quantities] *)

Section FallbackChain.

Import QuantityExtractor Spec.

Context {RT : PyRuntime}.

Lemma first_or_app (o : option float) (l1 l2 : list float) :
  first_or (first_or o l1) l2 = first_or o (l1 ++ l2).
Proof. destruct o; [reflexivity|]. now destruct l1. Qed.

Lemma m_get_store (t t' : field) (v : float) (q : measures) :
  m_get t (store t' v q) =
    if field_eqb t' t then first_or (m_get t q) [v] else m_get t q.
Proof.
  unfold store.
  destruct t, t'; simpl; destruct q as [[?|] [?|] [?|]]; reflexivity.
Qed.

Lemma scan_props_get (t : field) (props : dict pyval) (q : measures) :
  m_get t (scan_props props q) = first_or (m_get t q) (valid_values t props).
Proof.
  revert q; induction props as [|[name value] props IH]; intros q.
  - simpl. now destruct (m_get t q).
  - cbn [scan_props]. unfold valid_values. cbn [flat_map fst snd].
    fold (valid_values t props).
    destruct (lookup quantity_mappings name) as [t'|]; [|apply IH].
    destruct (to_float value) as [v|].
    + rewrite IH, m_get_store.
      destruct (field_eqb t' t); [apply first_or_app | reflexivity].
    + rewrite IH. now destruct (field_eqb t' t).
Qed.

Lemma scan_sets_get (t : field) (sets : dict (dict pyval)) (q : measures) :
  m_get t (scan_sets sets q) = first_or (m_get t q) (set_values t sets).
Proof.
  revert q; induction sets as [|[name props] sets IH]; intros q.
  - simpl. now destruct (m_get t q).
  - cbn [scan_sets]. unfold set_values. cbn [flat_map snd].
    fold (set_values t sets).
    now rewrite IH, scan_props_get, first_or_app.
Qed.

Lemma scan_psets_get (t : field) (sets : dict (dict pyval)) (q : measures) :
  m_get t (scan_psets sets q) = first_or (m_get t q) (pset_values t sets).
Proof.
  revert q; induction sets as [|[name props] sets IH]; intros q.
  - simpl. now destruct (m_get t q).
  - cbn [scan_psets]. unfold pset_values. cbn [flat_map fst snd].
    fold (pset_values t sets).
    destruct (signals_quantities name).
    + now rewrite IH, scan_props_get, first_or_app.
    + apply IH.
Qed.

Lemma scan_physical_get (t : field) (qs : list physical_quantity)
      (q : measures) :
  m_get t (scan_physical qs q) = first_or (m_get t q) (physical_values t qs).
Proof.
  revert q; induction qs as [|qty qs IH]; intros q.
  - simpl. now destruct (m_get t q).
  - cbn [scan_physical]. unfold physical_values. cbn [flat_map].
    fold (physical_values t qs).
    destruct (quantity_entry qty) as [[value t']|]; [|apply IH].
    destruct value; cbn [is_None to_float];
      try (rewrite IH; now destruct (field_eqb t' t)).
    + rewrite IH, m_get_store.
      destruct (field_eqb t' t); [apply first_or_app | reflexivity].
    + destruct (float_of_str s) as [v|].
      * rewrite IH, m_get_store.
        destruct (field_eqb t' t); [apply first_or_app | reflexivity].
      * rewrite IH. now destruct (field_eqb t' t).
Qed.

Lemma scan_relations_get (t : field) (rels : list relation) (q : measures) :
  m_get t (scan_relations rels q)
  = first_or (m_get t q) (relation_values t rels).
Proof.
  revert q; induction rels as [|rel rels IH]; intros q.
  - simpl. now destruct (m_get t q).
  - cbn [scan_relations]. unfold relation_values. cbn [flat_map].
    fold (relation_values t rels). rewrite IH.
    destruct (is_IfcRelDefinesByProperties rel); [|reflexivity].
    destruct (RelatingPropertyDefinition rel) as [prop_def|]; [|reflexivity].
    destruct (is_IfcElementQuantity prop_def); [|reflexivity].
    destruct (Quantities prop_def) as [qs|]; [|reflexivity].
    now rewrite scan_physical_get, first_or_app.
Qed.

Lemma all_none_iff (q : measures) :
  all_none q = true <-> forall t, m_get t q = None.
Proof.
  unfold all_none. split.
  - destruct q as [[?|] [?|] [?|]]; simpl; try discriminate.
    intros _ []; reflexivity.
  - intros H. pose proof (H Volume) as Hv. pose proof (H Area) as Ha.
    pose proof (H Length) as Hl. simpl in Hv, Ha, Hl.
    now rewrite Hv, Ha, Hl.
Qed.

Lemma measures_ext (q q' : measures) :
  (forall t, m_get t q = m_get t q') -> q = q'.
Proof.
  intros H. pose proof (H Volume) as Hv. pose proof (H Area) as Ha.
  pose proof (H Length) as Hl. destruct q, q'. simpl in *. congruence.
Qed.

(** Tier 1 resolves each field to the first of its authoritative values. *)
Lemma tier1_get (t : field) (e : element) :
  m_get t (_extract_ifc_element_quantities e)
  = hd_error (authoritative_values t e).
Proof.
  unfold _extract_ifc_element_quantities, authoritative_values.
  destruct (qtos e) as [sets|]; [|now destruct t].
  assert (Hs : forall t', m_get t' (if truthy sets
                                    then scan_sets sets no_measures
                                    else no_measures)
                          = hd_error (set_values t' sets)).
  { intros t'. destruct sets as [|s sets]; [now destruct t'|].
    cbn [truthy]. rewrite scan_sets_get. now destruct t'. }
  destruct (all_none _) eqn:Hall.
  - rewrite all_none_iff in Hall.
    pose proof (Hall Volume) as Hv. pose proof (Hall Area) as Ha.
    pose proof (Hall Length) as Hl. rewrite Hs in Hv, Ha, Hl.
    destruct (set_values Volume sets); [|discriminate].
    destruct (set_values Area sets); [|discriminate].
    destruct (set_values Length sets); [|discriminate].
    destruct (IsDefinedBy e) as [rels|].
    + rewrite scan_relations_get, Hall. reflexivity.
    + apply Hall.
  - rewrite Hs.
    destruct (set_values Volume sets) eqn:Hv;
      destruct (set_values Area sets) eqn:Ha;
      destruct (set_values Length sets) eqn:Hl; try reflexivity.
    exfalso. rewrite <- not_true_iff_false in Hall. apply Hall.
    apply all_none_iff. intros t'. rewrite Hs.
    destruct t'; now rewrite ?Hv, ?Ha, ?Hl.
Qed.

Lemma tier1_empty_iff (e : element) :
  all_none (_extract_ifc_element_quantities e) = true <-> tier1_empty e.
Proof.
  rewrite all_none_iff. unfold tier1_empty. split; intros H t.
  - specialize (H t). rewrite tier1_get in H.
    now destruct (authoritative_values t e).
  - now rewrite tier1_get, H.
Qed.

Lemma tier2_source_get (t : field) (e : element) :
  m_get t (_extract_qto_properties e) = hd_error (property_values t e).
Proof.
  unfold _extract_qto_properties, property_values.
  destruct (psets e) as [sets|]; [|now destruct t].
  rewrite scan_psets_get. now destruct t.
Qed.

Lemma update_no_measures (q : measures) : update no_measures q = q.
Proof. destruct q as [[?|] [?|] [?|]]; reflexivity. Qed.

Lemma fill_absent_no_measures (q : measures) : fill_absent no_measures q = q.
Proof. destruct q as [[?|] [?|] [?|]]; reflexivity. Qed.

Lemma after_tier1_eq (e : element) :
  after_tier1 e = _extract_ifc_element_quantities e.
Proof.
  unfold after_tier1.
  destruct (all_none _) eqn:Hall; [|apply update_no_measures].
  apply measures_ext. intros t.
  rewrite all_none_iff in Hall. now rewrite Hall; destruct t.
Qed.

(** After tier 2: the tier-1 measures when tier 1 resolved a field, the
    tier-2 measures when it resolved none. *)
Lemma after_tier2_eq (e : element) :
  after_tier2 e =
    if all_none (_extract_ifc_element_quantities e)
    then _extract_qto_properties e
    else _extract_ifc_element_quantities e.
Proof.
  unfold after_tier2. rewrite after_tier1_eq.
  destruct (all_none (_extract_ifc_element_quantities e)) eqn:Hall;
    cbn [orb]; [|reflexivity].
  assert (H1 : _extract_ifc_element_quantities e = no_measures).
  { apply measures_ext. intros t. rewrite all_none_iff in Hall.
    rewrite Hall. now destruct t. }
  rewrite H1.
  destruct (all_none (_extract_qto_properties e)) eqn:Hp.
  - apply measures_ext. intros t. rewrite all_none_iff in Hp.
    rewrite Hp. now destruct t.
  - apply fill_absent_no_measures.
Qed.

Lemma after_tier3_eq (e : element) :
  after_tier3 e =
    if all_none (after_tier2 e)
    then _calculate_geometric_quantities e
    else after_tier2 e.
Proof.
  unfold after_tier3.
  destruct (all_none (after_tier2 e)) eqn:Hall; [|reflexivity].
  assert (H2 : after_tier2 e = no_measures).
  { apply measures_ext. intros t. rewrite all_none_iff in Hall.
    rewrite Hall. now destruct t. }
  rewrite H2. apply fill_absent_no_measures.
Qed.

End FallbackChain.

(* ----------------------------------------------------------------- *)
(** ** The record [extract_quantities] returns *)

Section Extraction.

Import QuantityExtractor Spec Examples.

Context {RT : PyRuntime}.

Lemma convert_units_ok {scale s3 s2 : float} (q : measures) :
  float_pow scale 3 = Ok s3 ->
  float_pow scale 2 = Ok s2 ->
  convert_units scale q =
    Ok {| m_volume := option_map (fun v => PrimFloat.mul v s3) (m_volume q);
          m_area := option_map (fun a => PrimFloat.mul a s2) (m_area q);
          m_length := option_map (fun l => PrimFloat.mul l scale)
                                 (m_length q) |}.
Proof.
  intros H3 H2. unfold convert_units.
  destruct (m_volume q), (m_area q); cbn; rewrite ?H3, ?H2; reflexivity.
Qed.

(** When both powers of the scale factor are in range the extraction
    returns, and each measure of the record is the measure the chain
    resolved times the power of the scale factor for its field. *)
Lemma extract_quantities_ok {scale s3 s2 : float} (e : element)
      (storey : option string) :
  float_pow scale 3 = Ok s3 ->
  float_pow scale 2 = Ok s2 ->
  exists r, extract_quantities scale e storey = Ok r
    /\ q_element_id r = id e
    /\ q_count r = Some 1%Z
    /\ q_storey r = storey
    /\ q_volume r = option_map (fun v => PrimFloat.mul v s3)
                               (m_volume (after_tier3 e))
    /\ q_area r = option_map (fun a => PrimFloat.mul a s2)
                             (m_area (after_tier3 e))
    /\ q_length r = option_map (fun l => PrimFloat.mul l scale)
                               (m_length (after_tier3 e)).
Proof.
  intros H3 H2. unfold extract_quantities.
  rewrite (convert_units_ok (after_tier3 e) H3 H2). cbn.
  eexists. split; [reflexivity|]. cbn. repeat split.
Qed.

(** Whatever [extract_quantities] returns carries the identifier of its
    element and the count 1. *)
Lemma extract_quantities_count (scale : float) (e : element)
      (storey : option string) (r : quantity_record) :
  extract_quantities scale e storey = Ok r ->
  q_element_id r = id e /\ q_count r = Some 1%Z /\ q_type r = Some (is_a e).
Proof.
  unfold extract_quantities.
  destruct (convert_units scale (after_tier3 e)); cbn; [|discriminate].
  intros [= <-]. repeat split.
Qed.

(** With [get_qtos] raising, tier 1 returns its empty dictionary. *)
Lemma tier1_in_a_run (e : element) :
  Library.get_qtos_raises e = true ->
  _extract_ifc_element_quantities e = no_measures.
Proof.
  unfold Library.get_qtos_raises, _extract_ifc_element_quantities.
  now destruct (qtos e).
Qed.

(** The measures then are those of the property sets, or, these holding
    none, those of the geometry. *)
Lemma after_tier3_in_a_run (e : element) :
  Library.get_qtos_raises e = true ->
  after_tier3 e = if all_none (_extract_qto_properties e)
                  then _calculate_geometric_quantities e
                  else _extract_qto_properties e.
Proof.
  intros Hrun. rewrite after_tier3_eq, after_tier2_eq.
  rewrite (tier1_in_a_run e Hrun). cbn [all_none no_measures m_volume m_area
                                        m_length].
  now destruct (all_none (_extract_qto_properties e)).
Qed.

Lemma all_none_no_measures (q : measures) :
  all_none q = true -> q = no_measures.
Proof.
  intros Hall. apply measures_ext. intros t.
  rewrite all_none_iff in Hall. rewrite Hall. now destruct t.
Qed.

(** C1, as the code has it.  The library has no function [get_qtos]: the
    call that opens tier 1 raises, the handler swallows the error, and
    tier 1 resolves nothing for any element, whatever element quantities
    the element is defined by.  The measures of the record are the first
    valid values of the property sets whose name signals quantities,
    times the powers of the scale factor; when these sets hold no valid
    value, they are those of the geometry.  Elements with the same
    property sets, shape and class get the same measures: an
    authoritative volume entry has no part in them. *)
Theorem authoritative_quantities_are_never_read :
  forall (scale : float) (e : element) (storey : option string)
         (s3 s2 : float),
    Library.get_qtos_raises e = true ->
    float_pow scale 3 = Ok s3 ->
    float_pow scale 2 = Ok s2 ->
    _extract_ifc_element_quantities e = no_measures
    /\ exists r,
        extract_quantities scale e storey = Ok r
        /\ (forall v, hd_error (property_values Volume e) = Some v ->
              q_volume r = Some (PrimFloat.mul v s3))
        /\ (~ tier2_empty e ->
            q_volume r = option_map (fun v => PrimFloat.mul v s3)
                                    (hd_error (property_values Volume e))
            /\ q_area r = option_map (fun a => PrimFloat.mul a s2)
                                     (hd_error (property_values Area e))
            /\ q_length r = option_map (fun l => PrimFloat.mul l scale)
                                       (hd_error (property_values Length e)))
        /\ (tier2_empty e ->
            q_volume r
            = option_map (fun v => PrimFloat.mul v s3)
                         (m_volume (_calculate_geometric_quantities e))
            /\ q_area r
               = option_map (fun a => PrimFloat.mul a s2)
                            (m_area (_calculate_geometric_quantities e))
            /\ q_length r
               = option_map (fun l => PrimFloat.mul l scale)
                            (m_length (_calculate_geometric_quantities e)))
        /\ forall e' : element,
            Library.get_qtos_raises e' = true ->
            psets e' = psets e ->
            shape e' = shape e ->
            is_a e' = is_a e ->
            exists r',
              extract_quantities scale e' storey = Ok r'
              /\ q_volume r' = q_volume r
              /\ q_area r' = q_area r
              /\ q_length r' = q_length r.
Proof.
  intros scale e storey s3 s2 Hrun H3 H2. unfold tier2_empty.
  split; [now apply tier1_in_a_run|].
  destruct (extract_quantities_ok e storey H3 H2)
    as [r [Hr [_ [_ [_ [Hvol [Harea Hlen]]]]]]].
  exists r. split; [exact Hr|].
  rewrite (after_tier3_in_a_run e Hrun) in Hvol, Harea, Hlen.
  assert (Hsets : all_none (_extract_qto_properties e) = false ->
                  q_volume r = option_map (fun v => PrimFloat.mul v s3)
                                 (hd_error (property_values Volume e))
                  /\ q_area r = option_map (fun a => PrimFloat.mul a s2)
                                  (hd_error (property_values Area e))
                  /\ q_length r = option_map (fun l => PrimFloat.mul l scale)
                                    (hd_error (property_values Length e))).
  { intros Hall. rewrite Hall in Hvol, Harea, Hlen.
    rewrite Hvol, Harea, Hlen.
    change (m_volume ?q) with (m_get Volume q).
    change (m_area ?q) with (m_get Area q).
    change (m_length ?q) with (m_get Length q).
    now rewrite !tier2_source_get. }
  split; [|split; [|split]].
  - intros v Hv.
    destruct (all_none (_extract_qto_properties e)) eqn:Hall.
    + rewrite all_none_iff in Hall. specialize (Hall Volume).
      rewrite tier2_source_get, Hv in Hall. discriminate.
    + destruct (Hsets eq_refl) as [Hq _]. now rewrite Hq, Hv.
  - intros Hne. apply Hsets. apply not_true_iff_false. intros Hall.
    apply Hne. intros t. rewrite all_none_iff in Hall. specialize (Hall t).
    rewrite tier2_source_get in Hall.
    now destruct (property_values t e).
  - intros Hempty.
    assert (Hall : all_none (_extract_qto_properties e) = true).
    { apply all_none_iff. intros t. now rewrite tier2_source_get, Hempty. }
    rewrite Hall in Hvol, Harea, Hlen. auto.
  - intros e' Hrun' Hp Hs Hc.
    destruct (extract_quantities_ok e' storey H3 H2)
      as [r' [Hr' [_ [_ [_ [Hvol' [Harea' Hlen']]]]]]].
    exists r'. split; [exact Hr'|].
    rewrite (after_tier3_in_a_run e' Hrun') in Hvol', Harea', Hlen'.
    assert (Hq : _extract_qto_properties e' = _extract_qto_properties e).
    { unfold _extract_qto_properties. now rewrite Hp. }
    assert (Hg : _calculate_geometric_quantities e'
                 = _calculate_geometric_quantities e).
    { unfold _calculate_geometric_quantities. now rewrite Hs, Hc. }
    rewrite Hq, Hg in Hvol', Harea', Hlen'.
    now rewrite Hvol', Harea', Hlen', Hvol, Harea, Hlen.
Qed.

End Extraction.

(* ----------------------------------------------------------------- *)
(** ** Tier 2 and the provenance of a measure *)

Section Provenance.

Import QuantityExtractor Spec Examples.

Context {RT : PyRuntime}.

Lemma tier2_empty_iff (e : element) :
  all_none (_extract_qto_properties e) = true <-> tier2_empty e.
Proof.
  rewrite all_none_iff. unfold tier2_empty. split; intros H t.
  - specialize (H t). rewrite tier2_source_get in H.
    now destruct (property_values t e).
  - now rewrite tier2_source_get, H.
Qed.



Lemma positive_gt0 (x : option float) (raw : float) :
  positive x = Some raw -> gt0 raw = true.
Proof.
  unfold positive. destruct x as [v|]; [|discriminate].
  destruct (float_truthy v); cbn [andb]; [|discriminate].
  destruct (gt0 v) eqn:Hv; [|discriminate].
  now intros [= <-].
Qed.

Lemma bbox_length_gt0 (bbox : list float) (raw : float) :
  bbox_length bbox = Some raw -> gt0 raw = true.
Proof.
  unfold bbox_length. destruct bbox as [|b bbox]; [discriminate|].
  repeat match goal with
         | |- context [match nth_error ?l ?n with _ => _ end] =>
             destruct (nth_error l n)
         end; try discriminate.
  destruct (py_max _) as [length|]; [|discriminate].
  destruct (gt0 length) eqn:Hl; [|discriminate].
  now intros [= <-].
Qed.

(** The geometry only yields values above zero. *)
Lemma geometric_gt0 (t : field) (e : element) (raw : float) :
  m_get t (_calculate_geometric_quantities e) = Some raw -> gt0 raw = true.
Proof.
  unfold _calculate_geometric_quantities.
  destruct (shape e) as [geometry|]; [|now destruct t].
  destruct t; cbn [m_get m_volume m_area m_length].
  - apply positive_gt0.
  - apply positive_gt0.
  - destruct (_ || _); [|discriminate].
    destruct (geom_bbox geometry) as [bbox|]; [|discriminate].
    apply bbox_length_gt0.
Qed.

(** What the chain resolves for a field, and where it comes from. *)
Lemma after_tier3_source (t : field) (e : element) (raw : float) :
  m_get t (after_tier3 e) = Some raw <-> source_of t e raw.
Proof.
  unfold source_of. rewrite after_tier3_eq, after_tier2_eq.
  destruct (all_none (_extract_ifc_element_quantities e)) eqn:H1.
  - pose proof (proj1 (tier1_empty_iff e) H1) as He1.
    destruct (all_none (_extract_qto_properties e)) eqn:H2.
    + pose proof (proj1 (tier2_empty_iff e) H2) as He2. split.
      * intros Hg. right; right. eauto using geometric_gt0.
      * intros [Ha | [[_ Hp] | [_ [_ [Hg _]]]]]; [| |exact Hg].
        -- rewrite He1 in Ha. discriminate.
        -- rewrite He2 in Hp. discriminate.
    + rewrite tier2_source_get. split.
      * intros Hp. right; left. auto.
      * intros [Ha | [[_ Hp] | [_ [He2 _]]]]; [|exact Hp|].
        -- rewrite He1 in Ha. discriminate.
        -- apply tier2_empty_iff in He2. congruence.
  - rewrite H1, tier1_get. split.
    + intros Ha. now left.
    + intros [Ha | [[He1 _] | [He1 _]]]; [exact Ha| |];
        apply tier1_empty_iff in He1; congruence.
Qed.

(** C8, as the code has it.  When the powers of the scale factor are in
    range, the record's volume, area and length are each either absent,
    and then no tier resolved the field, or the resolved value times the
    power of the scale factor for the field; the resolved value is the
    first authoritative or generic value as [float()] gave it, unchecked,
    or a value of the geometry, which is above zero. *)
Theorem measures_are_scaled_sources :
  forall (scale : float) (e : element) (storey : option string)
         (s3 s2 : float),
    float_pow scale 3 = Ok s3 ->
    float_pow scale 2 = Ok s2 ->
    exists r,
      extract_quantities scale e storey = Ok r
      /\ forall t,
          match q_get t r with
          | None => forall raw, ~ source_of t e raw
          | Some x =>
              exists raw s, source_of t e raw
                            /\ scale_power scale t = Ok s
                            /\ x = PrimFloat.mul raw s
          end.
Proof.
  intros scale e storey s3 s2 H3 H2.
  destruct (extract_quantities_ok e storey H3 H2)
    as [r [Hr [_ [_ [_ [Hvol [Harea Hlen]]]]]]].
  exists r. split; [exact Hr|].
  assert (Hs : forall t s, scale_power scale t = Ok s ->
                 q_get t r = option_map (fun x => PrimFloat.mul x s)
                                        (m_get t (after_tier3 e))).
  { intros [] s Hp; cbn in Hp |- *.
    - rewrite H3 in Hp. injection Hp as <-. exact Hvol.
    - rewrite H2 in Hp. injection Hp as <-. exact Harea.
    - injection Hp as <-. exact Hlen. }
  intros t.
  assert (Hp : exists s, scale_power scale t = Ok s)
    by (destruct t; cbn; eauto).
  destruct Hp as [s Hp]. rewrite (Hs t s Hp).
  destruct (m_get t (after_tier3 e)) as [raw|] eqn:Hraw; cbn.
  - exists raw, s. rewrite <- after_tier3_source. auto.
  - intros raw Hsrc. apply after_tier3_source in Hsrc. congruence.
Qed.

(* ----------------------------------------------------------------- *)
(** ** The batch *)

Lemma extract_loop_spec (scale : float)
      (get_storey_fn : option (element -> result (option string)))
      (elements : list element) (acc : list quantity_record)
      (log : list log_record) :
  extract_loop scale get_storey_fn elements acc log =
    (acc ++ flat_map (fun e => records_of (extracted scale get_storey_fn e))
                     elements,
     log ++ flat_map (fun e => warnings_of (id e)
                                 (extracted scale get_storey_fn e))
                     elements).
Proof.
  revert acc log; induction elements as [|e elements IH]; intros acc log.
  - cbn. now rewrite !app_nil_r.
  - cbn [extract_loop flat_map].
    change (extract_quantities scale e (storey_of get_storey_fn e))
      with (extracted scale get_storey_fn e).
    destruct (extracted scale get_storey_fn e);
      rewrite IH; cbn; now rewrite <- ?app_assoc.
Qed.

Lemma records_ids (scale : float)
      (get_storey_fn : option (element -> result (option string)))
      (elements : list element) :
  map q_element_id
      (flat_map (fun e => records_of (extracted scale get_storey_fn e))
                elements)
  = map id (filter (fun e => succeeds (extracted scale get_storey_fn e))
                   elements).
Proof.
  induction elements as [|e elements IH]; [reflexivity|].
  cbn [flat_map filter]. rewrite map_app, IH.
  destruct (extracted scale get_storey_fn e) as [r|err] eqn:He; cbn.
  - apply extract_quantities_count in He. now destruct He as [-> _].
  - reflexivity.
Qed.

(** The records and the log of a batch, element by element. *)
Lemma extract_all_quantities_eq (scale : float) (elements : list element)
      (get_storey_fn : option (element -> result (option string))) :
  extract_all_quantities scale elements get_storey_fn =
    (flat_map (fun e => records_of (extracted scale get_storey_fn e)) elements,
     flat_map (fun e => warnings_of (id e) (extracted scale get_storey_fn e))
              elements
     ++ [Info_extracted
           (List.length
              (flat_map (fun e => records_of (extracted scale get_storey_fn e))
                        elements))]).
Proof.
  unfold extract_all_quantities. now rewrite extract_loop_spec.
Qed.

(** C6.  [extract_all_quantities] returns for every list of elements.
    Its records are those of the elements whose extraction returned, each
    once and in the order of the input; an element whose extraction
    raised contributes no record and one warning that names it. *)
Theorem extract_all_quantities_isolates_failures :
  forall (scale : float) (elements : list element)
         (get_storey_fn : option (element -> result (option string))),
    let out := extract_all_quantities scale elements get_storey_fn in
    fst out = flat_map (fun e => records_of (extracted scale get_storey_fn e))
                       elements
    /\ snd out = flat_map (fun e => warnings_of (id e)
                                      (extracted scale get_storey_fn e))
                          elements
                 ++ [Info_extracted (List.length (fst out))]
    /\ map q_element_id (fst out)
       = map id (filter (fun e => succeeds (extracted scale get_storey_fn e))
                        elements).
Proof.
  intros scale elements get_storey_fn out. subst out.
  rewrite extract_all_quantities_eq. cbn [fst snd].
  repeat split. apply records_ids.
Qed.

End Provenance.

(* ----------------------------------------------------------------- *)
(** ** Groups and lines of the BOQ *)

Section Aggregation.

Import QuantityExtractor Frame BOQGenerator Spec.

Context {RT : PyRuntime}.

Lemma append_to_nonempty {A} (grouped : dict (list A)) (key : string) (x : A) :
  append_to grouped key x <> [].
Proof.
  destruct grouped as [|[k l] rest]; cbn; [discriminate|].
  destruct (String.eqb k key); discriminate.
Qed.

(** Every group holds at least one record, and only records that were
    filed. *)
Lemma append_to_Forall {A} (Q : A -> Prop) (grouped : dict (list A))
      (key : string) (x : A) :
  Forall (fun kv => snd kv <> [] /\ Forall Q (snd kv)) grouped ->
  Q x ->
  Forall (fun kv => snd kv <> [] /\ Forall Q (snd kv))
         (append_to grouped key x).
Proof.
  intros Hg Hx. induction Hg as [|[k l] rest [Hne Hl] Hrest IH]; cbn.
  - constructor; [|constructor]. cbn. split; [discriminate|]. auto.
  - destruct (String.eqb k key).
    + constructor; [|exact Hrest]. cbn in *. split.
      * destruct l; discriminate.
      * apply Forall_app. auto.
    + constructor; [|exact IH]. cbn in *. auto.
Qed.

Lemma group_fold_Forall (Q : quantity_record -> Prop) (level : string)
      (quantities : list quantity_record)
      (grouped : dict (list quantity_record)) :
  Forall Q quantities ->
  Forall (fun kv => snd kv <> [] /\ Forall Q (snd kv)) grouped ->
  Forall (fun kv => snd kv <> [] /\ Forall Q (snd kv))
         (fold_left (fun grouped qty =>
                       append_to grouped (group_key level qty) qty)
                    quantities grouped).
Proof.
  intros Hq. revert grouped.
  induction Hq as [|qty quantities Hqty _ IH]; intros grouped Hg; cbn.
  - exact Hg.
  - apply IH. now apply append_to_Forall.
Qed.

Lemma group_quantities_Forall (Q : quantity_record -> Prop) (level : string)
      (quantities : list quantity_record) :
  Forall Q quantities ->
  Forall (fun kv => snd kv <> [] /\ Forall Q (snd kv))
         (_group_quantities quantities level).
Proof.
  intros Hq. unfold _group_quantities. now apply group_fold_Forall.
Qed.

Lemma group_fold_nonempty (level : string)
      (quantities : list quantity_record)
      (grouped : dict (list quantity_record)) :
  grouped <> [] ->
  fold_left (fun grouped qty => append_to grouped (group_key level qty) qty)
            quantities grouped <> [].
Proof.
  revert grouped; induction quantities as [|qty quantities IH];
    intros grouped Hg; cbn; [exact Hg|].
  apply IH, append_to_nonempty.
Qed.

Lemma group_quantities_nonempty (level : string)
      (quantities : list quantity_record) :
  quantities <> [] -> _group_quantities quantities level <> [].
Proof.
  destruct quantities as [|qty quantities]; [congruence|]. intros _.
  unfold _group_quantities. cbn. apply group_fold_nonempty.
  discriminate.
Qed.

(** A group that is not empty yields a line: its count is the sum of
    the counts of its records, its unit and quantity are those the
    priority rule gives for its totals and its element type, and it has
    no item number yet. *)
Lemma create_boq_item_ok (group_key : string)
      (items : list quantity_record) (level : string) :
  items <> [] ->
  exists line,
    _create_boq_item group_key items level = Ok line
    /\ item_no line = None
    /\ count line = Z_sum (map count_of items)
    /\ (unit line, quantity line) = primary_of_group (element_type line) items.
Proof.
  intros Hne. unfold _create_boq_item, primary_of_group, group_total.
  destruct (PyStr.contains "|" group_key);
    [|destruct items as [|first_item rest]; [congruence|]];
    cbn [bind];
    match goal with
    | |- context [_determine_primary_quantity ?v ?a ?l ?c ?t] =>
        destruct (_determine_primary_quantity v a l c t) as [u q] eqn:Hd
    end;
    (eexists; split; [reflexivity|];
     cbn [item_no count unit quantity element_type]; rewrite Hd;
     repeat split).
Qed.

Lemma create_items_ok (grouped : dict (list quantity_record))
      (level : string) :
  Forall (fun kv => snd kv <> []) grouped ->
  exists boq_items,
    create_items grouped level = Ok boq_items
    /\ List.length boq_items = List.length grouped
    /\ Forall (fun line => item_no line = None) boq_items.
Proof.
  induction 1 as [|[key items] grouped Hne _ IH]; cbn [create_items].
  - exists []. repeat split. constructor.
  - destruct (create_boq_item_ok key items level Hne)
      as [line [Hline [Hno _]]].
    destruct IH as [rest [Hrest [Hlen Hnone]]].
    rewrite Hline, Hrest. cbn.
    exists (line :: rest). repeat split; cbn; auto.
Qed.

Lemma Z_sum_from (xs : list Z) (a : Z) :
  fold_left Z.add xs a = (a + Z_sum xs)%Z.
Proof.
  unfold Z_sum. revert a; induction xs as [|x xs IH]; intros a; cbn.
  - lia.
  - rewrite IH, (IH x). lia.
Qed.

(** Counts of 1 sum to the number of records. *)
Lemma Z_sum_ones (items : list quantity_record) :
  Forall (fun item => count_of item = 1%Z) items ->
  Z_sum (map count_of items) = Z.of_nat (List.length items).
Proof.
  induction 1 as [|item items Hone _ IH].
  - reflexivity.
  - unfold Z_sum in *. cbn [map fold_left List.length].
    rewrite Z_sum_from. unfold Z_sum. rewrite IH, Hone. lia.
Qed.

End Aggregation.

(* ----------------------------------------------------------------- *)
(** ** The primary unit and the count of a line *)

Section Lines.

Import QuantityExtractor Frame BOQGenerator Spec.

Context {RT : PyRuntime}.

(** C2.  The unit and quantity of a line follow the fixed priority on the
    base element type (the text before the first underscore) and the
    group's totals: a type of the volume set with volume above zero is
    measured in m³ by its volume, whatever its area and length; else a
    type of the area set with area above zero in m² by its area; else a
    type of the length set with length above zero in m by its length;
    else the first of volume, area, length that is above zero, in m³, m²,
    m; else the count, in "No.".  One of the four units is always chosen,
    and every group of [_group_quantities] yields a line whose unit and
    quantity are chosen this way from the group's totals. *)
Theorem primary_quantity_priority :
  forall (volume area length : float) (count : Z) (element_type : string),
    let base := element_base element_type in
    let r := _determine_primary_quantity volume area length count
                                         element_type in
    let by_volume := In base volume_elements /\ gt0 volume = true in
    let by_area := In base area_elements /\ gt0 area = true in
    let by_length := In base length_elements /\ gt0 length = true in
    (by_volume -> r = ("m³", PyF volume))
    /\ (~ by_volume -> by_area -> r = ("m²", PyF area))
    /\ (~ by_volume -> ~ by_area -> by_length -> r = ("m", PyF length))
    /\ (~ by_volume -> ~ by_area -> ~ by_length ->
        (gt0 volume = true -> r = ("m³", PyF volume))
        /\ (gt0 volume = false -> gt0 area = true -> r = ("m²", PyF area))
        /\ (gt0 volume = false -> gt0 area = false -> gt0 length = true ->
            r = ("m", PyF length))
        /\ (gt0 volume = false -> gt0 area = false -> gt0 length = false ->
            r = ("No.", PyI count)))
    /\ In (fst r) ["m³"; "m²"; "m"; "No."]
    /\ (forall (quantities : list quantity_record) (level : string),
           Forall (fun kv =>
                     exists line,
                       _create_boq_item (fst kv) (snd kv) level = Ok line
                       /\ (unit line, quantity line)
                          = primary_of_group (BOQGenerator.element_type line)
                                             (snd kv))
                  (_group_quantities quantities level)).
Proof.
  intros volume area length count element_type base r
         by_volume by_area by_length.
  subst r by_volume by_area by_length.
  unfold _determine_primary_quantity. fold base.
  rewrite <- !str_in_iff.
  repeat split.
  1-8: destruct (str_in base volume_elements), (str_in base area_elements),
         (str_in base length_elements), (gt0 volume), (gt0 area),
         (gt0 length); cbn; intuition (try discriminate; auto).
  intros quantities level.
  eapply Forall_impl;
    [|apply (group_quantities_Forall (fun _ => True)); now apply Forall_forall].
  intros [key items] [Hne _]. cbn [fst snd] in *.
  destruct (create_boq_item_ok key items level Hne)
    as [line [Hline [_ [_ Hprimary]]]].
  eauto.
Qed.

Lemma extracted_counts (scale : float)
      (get_storey_fn : option (element -> result (option string)))
      (elements : list element) :
  Forall (fun r => q_count r = Some 1%Z)
         (flat_map (fun e => records_of (extracted scale get_storey_fn e))
                   elements).
Proof.
  induction elements as [|e elements IH]; cbn [flat_map]; [constructor|].
  apply Forall_app. split; [|exact IH].
  destruct (extracted scale get_storey_fn e) as [r|err] eqn:He; cbn.
  - constructor; [|constructor].
    now apply extract_quantities_count in He.
  - constructor.
Qed.

(** C9.  Every record [extract_all_quantities] returns has the count 1,
    a record without a count would contribute 1 as well, and for every
    group of these records the line's count, the sum of the counts of the
    group's records, is the number of records in the group. *)
Theorem boq_count_is_group_size :
  forall (scale : float) (elements : list element)
         (get_storey_fn : option (element -> result (option string)))
         (level : string),
    let records := fst (extract_all_quantities scale elements get_storey_fn) in
    Forall (fun r => q_count r = Some 1%Z) records
    /\ (forall item, q_count item = None -> count_of item = 1%Z)
    /\ Forall (fun kv =>
                 exists line,
                   _create_boq_item (fst kv) (snd kv) level = Ok line
                   /\ BOQGenerator.count line = Z_sum (map count_of (snd kv))
                   /\ BOQGenerator.count line
                      = Z.of_nat (List.length (snd kv)))
              (_group_quantities records level).
Proof.
  intros scale elements get_storey_fn level records.
  assert (Hones : Forall (fun r => q_count r = Some 1%Z) records).
  { subst records.
    rewrite extract_all_quantities_eq. apply extracted_counts. }
  split; [exact Hones|]. split.
  - intros item Hnone. unfold count_of. now rewrite Hnone.
  - eapply Forall_impl; [|apply (group_quantities_Forall _ level records Hones)].
    intros [key items] [Hne Hitems]. cbn [fst snd] in *.
    destruct (create_boq_item_ok key items level Hne)
      as [line [Hline [_ [Hcount _]]]].
    exists line. repeat split; auto.
    rewrite Hcount. apply Z_sum_ones.
    eapply Forall_impl; [|exact Hitems].
    intros item Hitem. unfold count_of. now rewrite Hitem.
Qed.

End Lines.

(* ----------------------------------------------------------------- *)
(** ** The BOQ table and its item numbers *)

Section Table.

Import QuantityExtractor Frame BOQGenerator Spec.

Context {RT : PyRuntime}.

Lemma range_length (start : Z) (n : nat) : List.length (range start n) = n.
Proof. revert start; induction n; intros start; cbn; auto. Qed.

(** [range start n] is [start, start + 1, ..., start + n - 1]. *)
Lemma range_nth (start : Z) (n i : nat) :
  (i < n)%nat -> nth_error (range start n) i = Some (start + Z.of_nat i)%Z.
Proof.
  revert start i; induction n as [|n IH]; intros start i Hi; [lia|].
  destruct i as [|i]; cbn [range nth_error].
  - f_equal. lia.
  - rewrite IH by lia. f_equal. lia.
Qed.

Lemma insert_sorted_perm (key : list cell -> list cell) (r : list cell)
      (sorted : list (list cell)) :
  Permutation (insert_sorted key r sorted) (r :: sorted).
Proof.
  induction sorted as [|x sorted IH]; cbn; [reflexivity|].
  destruct (key_leb (key r) (key x)); [reflexivity|].
  rewrite IH. apply perm_swap.
Qed.

(** Sorting keeps the columns and permutes the rows. *)
Lemma sort_values_perm (df : DataFrame) (by_ : list string) :
  columns (sort_values df by_) = columns df
  /\ Permutation (rows (sort_values df by_)) (rows df).
Proof.
  split; [reflexivity|]. cbn [sort_values rows].
  induction (rows df) as [|r rs IH]; cbn [fold_right]; [reflexivity|].
  now rewrite insert_sorted_perm, IH.
Qed.

(** Inserting a column that is not there puts the values under it. *)
Lemma insert0_fresh (df : DataFrame) (col : string) (values : list cell) :
  has_column df col = false ->
  List.length values = len df ->
  exists df', insert0 df col values = Ok df'
              /\ columns df' = col :: columns df
              /\ len df' = len df
              /\ column df' col = values.
Proof.
  intros Hcol Hlen. unfold insert0. rewrite Hcol, Hlen, Nat.eqb_refl. cbn.
  eexists. split; [reflexivity|]. unfold len, column in *. cbn.
  repeat split.
  - rewrite length_map, length_combine. lia.
  - rewrite map_map.
    rewrite (map_ext _ fst)
      by (intros p; cbn; now rewrite String.eqb_refl).
    revert values Hlen; induction (rows df) as [|row rs IH];
      intros [|v values] Hlen; cbn in *; try congruence.
    f_equal. apply IH. congruence.
Qed.

Lemma insert0_existing (df : DataFrame) (col : string) (values : list cell) :
  has_column df col = true -> insert0 df col values = Raise ValueError.
Proof. intros Hcol. unfold insert0. now rewrite Hcol. Qed.

(** On a table without an [item_no] column, [add_item_numbers] numbers the
    rows 1, 2, ..., N from the top. *)
Lemma add_item_numbers_fresh (df : DataFrame) :
  has_column df "item_no" = false ->
  exists df', add_item_numbers df = Ok df'
              /\ len df' = len df
              /\ (empty df = false ->
                  column df' "item_no" = map CInt (range 1 (len df))).
Proof.
  intros Hcol. unfold add_item_numbers.
  destruct (empty df).
  - exists df. repeat split. discriminate.
  - destruct (insert0_fresh df "item_no" (map CInt (range 1 (len df))) Hcol)
      as [df' [Hins [_ [Hlen Hvals]]]].
    + now rewrite length_map, range_length.
    + exists df'. auto.
Qed.

Lemma drop_column_absent (df : DataFrame) (col : string) :
  has_column (drop_column df col) col = false
  /\ len (drop_column df col) = len df.
Proof.
  unfold has_column, drop_column, len. cbn. split.
  - induction (columns df) as [|h hs IH]; cbn; [reflexivity|].
    destruct (String.eqb h col) eqn:Hh; cbn; [exact IH|].
    rewrite String.eqb_sym, Hh. exact IH.
  - apply length_map.
Qed.

(** The exporter drops an [item_no] column before it inserts the numbers:
    its sheet is numbered 1, 2, ..., N whatever the table. *)
Lemma number_sheet_numbers (df : DataFrame) :
  exists df', ExcelExporter.number_sheet df = Ok df'
              /\ len df' = len df
              /\ column df' "item_no" = map CInt (range 1 (len df)).
Proof.
  unfold ExcelExporter.number_sheet.
  destruct (has_column df "item_no") eqn:Hcol.
  - destruct (drop_column_absent df "item_no") as [Habs Hlen].
    destruct (insert0_fresh (drop_column df "item_no") "item_no"
                (map CInt (range 1 (len (drop_column df "item_no")))) Habs)
      as [df' [Hins [_ [Hlen' Hvals]]]].
    + now rewrite length_map, range_length.
    + exists df'. rewrite Hlen in *. auto.
  - destruct (insert0_fresh df "item_no" (map CInt (range 1 (len df))) Hcol)
      as [df' [Hins [_ [Hlen Hvals]]]].
    + now rewrite length_map, range_length.
    + exists df'. auto.
Qed.

(** The table [generate_boq] builds from lines: the columns of the line
    dictionaries, and the rows of the lines sorted by type and storey. *)
Lemma arrange_lines (line : boq_item) (lines : list boq_item) :
  let df := frame_of_items (line :: lines) in
  let available_columns := filter (has_column df) column_order in
  let remaining_columns :=
    filter (fun col => negb (str_in col available_columns)) (columns df) in
  let df := select df (available_columns ++ remaining_columns) in
  let sort_columns :=
    (if has_column df "element_type" then ["element_type"] else [])
    ++ (if has_column df "storey" then ["storey"] else []) in
  match sort_columns with
  | [] => df
  | _ => sort_values df sort_columns
  end
  = sort_values {| columns := item_columns;
                   rows := map row_of_item (line :: lines) |}
                ["element_type"; "storey"].
Proof.
  cbv zeta.
  change (frame_of_items (line :: lines))
    with {| columns := item_columns; rows := map row_of_item (line :: lines) |}.
  set (df := {| columns := item_columns;
                rows := map row_of_item (line :: lines) |}).
  change (filter (has_column df) column_order) with column_order.
  change (column_order
          ++ filter (fun col => negb (str_in col column_order)) (columns df))
    with item_columns.
  assert (Hsel : select df item_columns = df).
  { unfold select, df. cbn [columns rows]. f_equal.
    rewrite map_map. apply map_ext. intros item. reflexivity. }
  rewrite Hsel. reflexivity.
Qed.

(** For a list of records that is not empty, [generate_boq] returns a table
    with the columns of a line, [item_no] among them, and one row per
    group; every row has [None] under [item_no]. *)
Lemma generate_boq_frame (quantities : list quantity_record)
      (level : string) :
  quantities <> [] ->
  exists df,
    generate_boq quantities level = Ok df
    /\ columns df = item_columns
    /\ len df = List.length (_group_quantities quantities level)
    /\ (0 < len df)%nat
    /\ Forall (fun row => cell_at item_columns row "item_no" = CNone)
              (rows df).
Proof.
  intros Hne.
  pose proof (group_quantities_nonempty level quantities Hne) as Hgroups.
  destruct (create_items_ok (_group_quantities quantities level) level)
    as [lines [Hlines [Hlen Hnone]]].
  { eapply Forall_impl;
      [|apply (group_quantities_Forall (fun _ => True));
        now apply Forall_forall].
    now intros kv [H _]. }
  destruct lines as [|line lines].
  { destruct (_group_quantities quantities level); cbn in Hlen; congruence. }
  unfold generate_boq. destruct quantities as [|qty quantities]; [congruence|].
  rewrite Hlines. cbn [bind].
  rewrite (arrange_lines line lines).
  eexists. split; [reflexivity|].
  destruct (sort_values_perm
              {| columns := item_columns;
                 rows := map row_of_item (line :: lines) |}
              ["element_type"; "storey"]) as [Hcols Hperm].
  cbn [columns rows] in Hcols, Hperm.
  split; [exact Hcols|]. unfold len.
  rewrite (Permutation_length Hperm), length_map, Hlen.
  split; [reflexivity|]. split.
  - destruct (_group_quantities (qty :: quantities) level);
      [congruence|cbn; lia].
  - eapply Permutation_Forall; [symmetry; exact Hperm|].
    apply Forall_map. eapply Forall_impl; [|exact Hnone].
    intros item Hitem. cbn. now rewrite Hitem.
Qed.

Lemma cell_compare_antisym (a b : cell) :
  cell_compare a b = CompOpp (cell_compare b a).
Proof.
  destruct a, b; cbn; try reflexivity. apply String.compare_antisym.
Qed.

Lemma key_leb_total (k1 k2 : list cell) :
  key_leb k1 k2 = false -> key_leb k2 k1 = true.
Proof.
  revert k2; induction k1 as [|a k1 IH]; intros [|b k2]; cbn;
    try discriminate.
  rewrite (cell_compare_antisym b a).
  destruct (cell_compare a b); cbn; auto.
Qed.

Lemma insert_sorted_ascending (key : list cell -> list cell) (r : list cell)
      (sorted : list (list cell)) :
  ascending key sorted -> ascending key (insert_sorted key r sorted).
Proof.
  induction sorted as [|x sorted IH]; intros Hs; cbn.
  - intros [|i] a b Ha Hb; cbn in *; [discriminate|].
    destruct i; discriminate.
  - destruct (key_leb (key r) (key x)) eqn:Hrx.
    + intros [|i] a b Ha Hb; cbn in *.
      * injection Ha as <-. injection Hb as <-. exact Hrx.
      * exact (Hs i a b Ha Hb).
    + assert (Htail : ascending key sorted).
      { intros i a b Ha Hb. exact (Hs (S i) a b Ha Hb). }
      specialize (IH Htail).
      intros [|i] a b Ha Hb; cbn in Ha, Hb.
      * injection Ha as <-.
        destruct sorted as [|y sorted]; cbn in Hb.
        -- injection Hb as <-. now apply key_leb_total.
        -- destruct (key_leb (key r) (key y)); cbn in Hb;
             injection Hb as <-.
           ++ now apply key_leb_total.
           ++ exact (Hs 0%nat x y eq_refl eq_refl).
      * exact (IH i a b Ha Hb).
Qed.

(** The rows of a sorted table are in ascending order of the sort key. *)
Lemma sort_values_ascending (df : DataFrame) (by_ : list string) :
  ascending (fun row => map (cell_at (columns df) row) by_)
            (rows (sort_values df by_)).
Proof.
  cbn [sort_values rows].
  induction (rows df) as [|r rs IH]; cbn [fold_right].
  - intros [|i] a b Ha; discriminate.
  - now apply insert_sorted_ascending.
Qed.

(** [generate_boq] returns a table for every list of records and every
    grouping level. *)
Lemma generate_boq_total (quantities : list quantity_record)
      (level : string) :
  exists df, generate_boq quantities level = Ok df.
Proof.
  destruct quantities as [|qty quantities].
  - now exists empty_frame.
  - destruct (generate_boq_frame (qty :: quantities) level) as [df [Hdf _]];
      [discriminate | eauto].
Qed.

End Table.

(* ----------------------------------------------------------------- *)
(** ** Numbering a generated BOQ, and the empty BOQ *)

Section Numbering.

Import QuantityExtractor Frame BOQGenerator Spec.

Context {RT : PyRuntime}.

Lemma map_constant {A B} (f : A -> B) (b : B) (xs : list A) :
  Forall (fun x => f x = b) xs -> map f xs = repeat b (List.length xs).
Proof.
  induction 1 as [|x xs Hx _ IH]; cbn; [reflexivity|]. now rewrite Hx, IH.
Qed.

(** C7.  For records that are not empty, whatever the grouping mode,
    [generate_boq] returns a table of N >= 1 lines that already has the
    column [item_no], holding [None] on every line, because every line
    dictionary is built with that key; [add_item_numbers] then raises
    [ValueError] on the insertion of a second [item_no] column instead of
    numbering the lines 1 to N. *)
Theorem add_item_numbers_rejects_generated_boq :
  forall (quantities : list quantity_record) (level : string),
    quantities <> [] ->
    exists df,
      generate_boq quantities level = Ok df
      /\ (0 < len df)%nat
      /\ column df "item_no" = repeat CNone (len df)
      /\ add_item_numbers df = Raise ValueError.
Proof.
  intros quantities level Hne.
  destruct (generate_boq_frame quantities level Hne)
    as [df [Hdf [Hcols [_ [Hpos Hnone]]]]].
  exists df. split; [exact Hdf|]. split; [exact Hpos|]. split.
  - unfold column, len. rewrite Hcols. now apply map_constant.
  - unfold add_item_numbers.
    assert (Hempty : empty df = false).
    { unfold empty, len in *. rewrite Hcols.
      destruct (rows df); [cbn in Hpos; lia | reflexivity]. }
    rewrite Hempty. apply insert0_existing.
    unfold has_column. now rewrite Hcols.
Qed.

(** C10.  Without records [generate_boq] returns the empty table, with no
    line and no column, for every grouping mode; the summary of an empty
    table is the empty mapping, which has no [total_items] entry, and so
    is the summary of any table without rows or without columns. *)
Theorem empty_quantities_empty_boq :
  forall level : string,
    generate_boq [] level = Ok empty_frame
    /\ len empty_frame = 0%nat
    /\ columns empty_frame = []
    /\ get_summary empty_frame = []
    /\ lookup (get_summary empty_frame) "total_items" = None
    /\ (forall df, empty df = true -> get_summary df = []).
Proof.
  intros level. repeat split.
  intros df Hdf. unfold get_summary. now rewrite Hdf.
Qed.

End Numbering.

(* ----------------------------------------------------------------- *)
(** ** The model on concrete inputs *)

Section OnExamples.

Import QuantityExtractor Frame BOQGenerator Spec Examples.

#[local] Existing Instance Reference.runtime.

Local Open Scope float_scope.

(** A wall in a millimetre model whose element quantity holds the volume
    2.5: the record carries the 7 of the property set that [get_psets]
    lists first, and the length of that set. *)
Lemma authoritative_quantities_are_never_read_witness :
  option_map (fun rels => hd_error (relation_values Volume rels))
             (IsDefinedBy Samples.surveyed_wall) = Some (Some 2.5)
  /\ exists r,
      extract_quantities 0.001 Samples.surveyed_wall None = Ok r
      /\ q_volume r = Some (7 * (1 * 0.001 * 0.001 * 0.001))
      /\ q_area r = Some (12.5 * (1 * 0.001 * 0.001))
      /\ q_length r = Some (4 * 0.001).
Proof.
  split; [reflexivity|].
  destruct (authoritative_quantities_are_never_read
              0.001 Samples.surveyed_wall None
              (1 * 0.001 * 0.001 * 0.001) (1 * 0.001 * 0.001)
              ltac:(reflexivity) ltac:(reflexivity) ltac:(reflexivity))
    as [_ [r [Hr [_ [Hsets _]]]]].
  exists r. split; [exact Hr|].
  destruct Hsets as [Hv [Ha Hl]].
  { intros Hempty. specialize (Hempty Volume). discriminate Hempty. }
  rewrite Hv, Ha, Hl. repeat split.
Defined.

(** The wall of the example is a wall, its total volume is above zero: m³. *)
Lemma primary_quantity_priority_witness :
  (In (element_base "IfcWall_STANDARD") volume_elements /\ gt0 7 = true)
  /\ _determine_primary_quantity 7 20 5 3 "IfcWall_STANDARD"
     = ("m³", PyF 7).
Proof.
  assert (H : In (element_base "IfcWall_STANDARD") volume_elements
              /\ gt0 7 = true) by (split; [cbn; auto | reflexivity]).
  split; [exact H|].
  exact (proj1 (primary_quantity_priority 7 20 5 3 "IfcWall_STANDARD") H).
Defined.

(** Overlapping keys: the first in declared order decides. *)
Lemma get_rate_priority_witness :
  CostEstimator.get_rate
    [("IfcBeam", [("Steel", 900); ("Stainless Steel", 2500); ("default", 100)])]
    "IfcBeam" (Some "STAINLESS STEEL S355") = 900.
Proof.
  destruct (get_rate_priority
              [("IfcBeam", [("Steel", 900); ("Stainless Steel", 2500);
                            ("default", 100)])]
              "IfcBeam" (Some "STAINLESS STEEL S355")) as [_ [H _]].
  destruct (H [("Steel", 900); ("Stainless Steel", 2500); ("default", 100)])
    as [Hfirst _]; [reflexivity | discriminate |].
  apply (Hfirst "STAINLESS STEEL S355"%string [] "Steel"%string 900
                [("Stainless Steel", 2500); ("default", 100)]).
  - reflexivity.
  - discriminate.
  - reflexivity.
  - constructor.
  - split; [|discriminate]. now exists "stainless "%string, " s355"%string.
Defined.


(** A negative volume in a quantity set reaches the record as it is. *)
Lemma negative_volume_counterexample :
  (exists r, extract_quantities 1 negative_slab None = Ok r
             /\ q_volume r = Some (-5)
             /\ record_invariant r = false)
  /\ ~ measures_always_valid 1 negative_slab.
Proof.
  split.
  - eexists. repeat split.
  - intros H. specialize (H None _ eq_refl). discriminate H.
Qed.

Lemma measures_are_scaled_sources_witness :
  float_pow 1 3 = Ok 1
  /\ float_pow 1 2 = Ok 1
  /\ exists r,
      extract_quantities 1 negative_slab None = Ok r
      /\ forall t,
          match q_get t r with
          | None => forall raw, ~ source_of t negative_slab raw
          | Some x =>
              exists raw s, source_of t negative_slab raw
                            /\ scale_power 1 t = Ok s
                            /\ x = raw * s
          end.
Proof.
  repeat (split; [reflexivity|]).
  apply (measures_are_scaled_sources 1 negative_slab None 1 1); reflexivity.
Defined.

(** Three walls, grouped by type: one line, and no numbering of it. *)
Lemma add_item_numbers_rejects_generated_boq_witness :
  three_walls <> []
  /\ exists df,
      generate_boq three_walls "type" = Ok df
      /\ (0 < len df)%nat
      /\ column df "item_no" = repeat CNone (len df)
      /\ add_item_numbers df = Raise ValueError.
Proof.
  assert (H : three_walls <> []) by discriminate.
  split; [exact H|].
  exact (add_item_numbers_rejects_generated_boq three_walls "type" H).
Defined.

(** The scenario of the specification: three walls of 2.0, 3.5 and 1.5 m³,
    grouped by type, give one line in m³ with the quantity 7.0 and the
    count 3; the line has no item number. *)
Example three_walls_one_line :
  generate_boq three_walls "type"
  = Ok {| columns := item_columns;
          rows := [[CNone; CStr "IfcWall"; CStr "Wall - Concrete C30";
                    CStr "m³"; CFloat 7; CStr "Level 1";
                    CStr "Concrete C30"; CFloat 7; CFloat 60; CNone;
                    CInt 3]] |}.
Proof. reflexivity. Qed.

(** The exporter numbers the same table. *)
Example exporter_numbers_three_walls :
  (df <- generate_boq three_walls "all" ;;
   df' <- ExcelExporter.number_sheet df ;;
   Ok (column df' "item_no")) = Ok [CInt 1].
Proof. reflexivity. Qed.

(** An element without any quantity data and without a shape gives a
    record with the three measures absent and the count 1; alone, it
    gives a line in "No." with the quantity 1. *)
Example bare_element_is_counted :
  let records := fst (extract_all_quantities 0.001 [bare_footing] None) in
  map (fun r => (q_volume r, q_area r, q_length r, q_count r)) records
  = [(None, None, None, Some 1%Z)]
  /\ (df <- generate_boq records "type" ;;
      Ok (column df "unit", column df "quantity"))
     = Ok ([CStr "No."], [CInt 1]).
Proof. split; reflexivity. Qed.

(** With a scale factor whose cube is out of range, the element that has
    a volume fails and is dropped with a warning; the elements without
    measures are extracted. *)
Example batch_drops_failures :
  let out := extract_all_quantities
               1e200 [bare_footing; Samples.surveyed_wall;
                      Samples.unmeasured_column] None in
  map q_element_id (fst out) = [6%Z; 23%Z]
  /\ snd out = [Warning_failed 21 OverflowError; Info_extracted 2].
Proof. split; reflexivity. Qed.

(** The measures of the example elements of a run, in the units of the
    model: those of the property sets for the walls, none for the column
    whose sets hold no quantity, though it has a shape. *)
Example measures_of_a_run :
  after_tier3 Samples.surveyed_wall
  = {| m_volume := Some 7; m_area := Some 12.5; m_length := Some 4 |}
  /\ after_tier3 Samples.two_set_wall
     = {| m_volume := Some 2; m_area := Some 10; m_length := None |}
  /\ after_tier3 Samples.unmeasured_column = no_measures.
Proof. repeat split. Qed.

End OnExamples.

(* ================================================================= *)
(** * Further properties of the code *)

(** ** Floats *)

(** A float above zero is truthy and is not NaN. *)
Lemma gt0_truthy (v : float) : gt0 v = true -> float_truthy v = true.
Proof.
  unfold gt0, float_truthy.
  rewrite FloatAxioms.ltb_spec, FloatAxioms.eqb_spec.
  change (FloatOps.Prim2SF 0%float) with (SpecFloat.S754_zero false).
  destruct (FloatOps.Prim2SF v) as [s|s| |s m e]; cbn;
    try discriminate; try reflexivity; destruct s; cbn;
    try discriminate; reflexivity.
Qed.

Lemma gt0_not_nan (v : float) : gt0 v = true -> PrimFloat.is_nan v = false.
Proof.
  unfold gt0, PrimFloat.is_nan.
  rewrite FloatAxioms.ltb_spec, FloatAxioms.eqb_spec.
  change (FloatOps.Prim2SF 0%float) with (SpecFloat.S754_zero false).
  destruct (FloatOps.Prim2SF v) as [s|s| |s m e]; cbn;
    try discriminate; try reflexivity; destruct s; cbn;
    try discriminate; try reflexivity.
  now rewrite Z.compare_refl, Pos.compare_cont_refl.
Qed.

(* ----------------------------------------------------------------- *)
(** ** The geometric fallback and the errors of the extraction *)

Section Fallback.

Import QuantityExtractor Spec.

Context {RT : PyRuntime}.

(** X1.  In a run the geometric fallback resolves nothing, because a
    shape has no measures: every measure of a record is the first valid
    value of the property sets whose name signals quantities, times the
    power of the scale factor for its field, and it is absent when those
    sets hold no valid value, whether the element has a shape or not. *)
Theorem measures_come_from_property_sets :
  forall (scale : float) (e : element) (storey : option string)
         (s3 s2 : float),
    Library.read_in_a_run e = true ->
    float_pow scale 3 = Ok s3 ->
    float_pow scale 2 = Ok s2 ->
    _calculate_geometric_quantities e = no_measures
    /\ exists r,
        extract_quantities scale e storey = Ok r
        /\ q_volume r = option_map (fun v => PrimFloat.mul v s3)
                                   (hd_error (property_values Volume e))
        /\ q_area r = option_map (fun a => PrimFloat.mul a s2)
                                 (hd_error (property_values Area e))
        /\ q_length r = option_map (fun l => PrimFloat.mul l scale)
                                   (hd_error (property_values Length e)).
Proof.
  intros scale e storey s3 s2 Hrun H3 H2.
  unfold Library.read_in_a_run in Hrun.
  apply andb_prop in Hrun. destruct Hrun as [Hqtos Hshape].
  assert (Hgeom : _calculate_geometric_quantities e = no_measures).
  { unfold _calculate_geometric_quantities.
    unfold Library.shape_without_measures in Hshape.
    destruct (shape e) as [g|]; [|reflexivity].
    destruct (geom_volume g); [discriminate|].
    destruct (geom_area g); [discriminate|].
    destruct (geom_bbox g); [discriminate|].
    cbn [positive].
    now destruct (String.eqb (is_a e) "IfcBeam"
                  || String.eqb (is_a e) "IfcColumn"). }
  split; [exact Hgeom|].
  destruct (extract_quantities_ok e storey H3 H2)
    as [r [Hr [_ [_ [_ [Hvol [Harea Hlen]]]]]]].
  exists r. split; [exact Hr|].
  assert (Hm : after_tier3 e = _extract_qto_properties e).
  { rewrite (after_tier3_in_a_run e Hqtos), Hgeom.
    destruct (all_none (_extract_qto_properties e)) eqn:Hall;
      [|reflexivity].
    symmetry. now apply all_none_no_measures. }
  rewrite Hm in Hvol, Harea, Hlen. rewrite Hvol, Hlen, Harea.
  change (m_volume ?q) with (m_get Volume q).
  change (m_area ?q) with (m_get Area q).
  change (m_length ?q) with (m_get Length q).
  now rewrite !tier2_source_get.
Qed.

(** X2.  The three measures of an element always come from one and the
    same tier: tier 1, or tier 2 when tier 1 resolved nothing, or the
    geometry when tiers 1 and 2 resolved nothing.  Values of different
    tiers are never mixed. *)
Theorem measures_from_one_tier :
  forall e : element,
    (~ tier1_empty e /\ after_tier3 e = _extract_ifc_element_quantities e)
    \/ (tier1_empty e /\ ~ tier2_empty e
        /\ after_tier3 e = _extract_qto_properties e)
    \/ (tier1_empty e /\ tier2_empty e
        /\ after_tier3 e = _calculate_geometric_quantities e).
Proof.
  intros e. rewrite after_tier3_eq, after_tier2_eq.
  destruct (all_none (_extract_ifc_element_quantities e)) eqn:H1.
  - pose proof (proj1 (tier1_empty_iff e) H1) as He1.
    destruct (all_none (_extract_qto_properties e)) eqn:H2.
    + right; right. split; [exact He1|]. split; [|reflexivity].
      now apply tier2_empty_iff.
    + right; left. split; [exact He1|]. split; [|reflexivity].
      rewrite <- tier2_empty_iff. congruence.
  - left. rewrite H1. split; [|reflexivity].
    rewrite <- tier1_empty_iff. congruence.
Qed.

(** X3.  The geometry gives a length to beams and columns only, and a
    length it gives is one of the three extents of the bounding box and
    is above zero. *)
Theorem geometric_length_of_linear_members :
  forall (e : element) (l : float),
    m_length (_calculate_geometric_quantities e) = Some l ->
    (is_a e = "IfcBeam" \/ is_a e = "IfcColumn")
    /\ gt0 l = true
    /\ exists g b0 b1 b2 b3 b4 b5 rest,
        shape e = Some g
        /\ geom_bbox g = Some (b0 :: b1 :: b2 :: b3 :: b4 :: b5 :: rest)
        /\ In l [PrimFloat.sub b3 b0; PrimFloat.sub b4 b1;
                 PrimFloat.sub b5 b2].
Proof.
  intros e l Hl.
  pose proof (geometric_gt0 Length e l Hl) as Hpos.
  unfold _calculate_geometric_quantities in Hl.
  destruct (shape e) as [g|] eqn:Hs; [|discriminate]. cbn in Hl.
  assert (Htype : is_a e = "IfcBeam" \/ is_a e = "IfcColumn").
  { destruct (String.eqb (is_a e) "IfcBeam") eqn:Hb.
    - left. now apply String.eqb_eq.
    - destruct (String.eqb (is_a e) "IfcColumn") eqn:Hc.
      + right. now apply String.eqb_eq.
      + discriminate. }
  split; [exact Htype|]. split; [exact Hpos|].
  assert (Hor : String.eqb (is_a e) "IfcBeam"
                || String.eqb (is_a e) "IfcColumn" = true).
  { destruct Htype as [-> | ->]; reflexivity. }
  rewrite Hor in Hl.
  destruct (geom_bbox g) as [bbox|] eqn:Hb; [|discriminate].
  unfold bbox_length in Hl.
  destruct bbox as [|b0 [|b1 [|b2 [|b3 [|b4 [|b5 rest]]]]]];
    try discriminate.
  cbn [nth_error] in Hl.
  exists g, b0, b1, b2, b3, b4, b5, rest. repeat split; auto.
  unfold py_max in Hl. cbn [fold_left] in Hl.
  destruct (gt0 _) in Hl; [|discriminate]. injection Hl as <-.
  repeat match goal with
         | |- context [if ?b then _ else _] => destruct b
         end; cbn; auto.
Qed.

(** X4.  [extract_quantities] raises exactly when the conversion of a
    resolved volume raises, or, the volume being absent or converted, the
    conversion of a resolved area raises; the error is that of the power.
    In particular an element without volume and area is extracted
    whatever the scale factor. *)
Theorem extract_quantities_raises_iff :
  forall (scale : float) (e : element) (storey : option string) (err : exn),
    extract_quantities scale e storey = Raise err <->
    (m_volume (after_tier3 e) <> None /\ float_pow scale 3 = Raise err)
    \/ ((m_volume (after_tier3 e) = None
         \/ exists s3, float_pow scale 3 = Ok s3)
        /\ m_area (after_tier3 e) <> None
        /\ float_pow scale 2 = Raise err).
Proof.
  intros scale e storey err. unfold extract_quantities, convert_units.
  destruct (m_volume (after_tier3 e)) as [v|];
    destruct (m_area (after_tier3 e)) as [a|];
    destruct (float_pow scale 3) as [s3|e3];
    destruct (float_pow scale 2) as [s2|e2]; cbn;
    split; intros H;
    try discriminate;
    try (injection H as <-);
    repeat match goal with
           | H : _ \/ _ |- _ => destruct H
           | H : _ /\ _ |- _ => destruct H
           | H : exists _, _ |- _ => destruct H
           end;
    try congruence;
    try (left; split; [discriminate | reflexivity]);
    try (right; split; [eauto | split; [discriminate | reflexivity]]).
Qed.

(** The storey handed to [extract_quantities] is stored in the record
    and decides nothing else. *)
Lemma extract_quantities_storey (scale : float) (e : element)
      (storey : option string) :
  match extract_quantities scale e storey with
  | Ok r => succeeds (extract_quantities scale e None) = true
            /\ q_storey r = storey
  | Raise _ => succeeds (extract_quantities scale e None) = false
  end.
Proof.
  unfold extract_quantities.
  destruct (convert_units scale (after_tier3 e)); cbn; auto.
Qed.

(** X5.  In a batch every element gives exactly one record or exactly one
    warning.  The records are those of the elements whose extraction
    returns, in the order of the input; without a storey function every
    record has no storey, and with one the storey of a record is what
    the function returned for its element, and no storey when the call
    raised. *)
Theorem batch_accounts_for_every_element :
  forall (scale : float) (elements : list element)
         (get_storey_fn : option (element -> result (option string))),
    let out := extract_all_quantities scale elements get_storey_fn in
    let returns := fun e => succeeds (extract_quantities scale e None) in
    List.length (fst out) + List.length (snd out)
    = S (List.length elements)
    /\ map q_element_id (fst out) = map id (filter returns elements)
    /\ map q_storey (fst out)
       = map (fun e =>
                match get_storey_fn with
                | Some f => match f e with
                            | Ok storey => storey
                            | Raise _ => None
                            end
                | None => None
                end)
             (filter returns elements).
Proof.
  intros scale elements get_storey_fn out returns. subst out returns.
  rewrite extract_all_quantities_eq. cbn [fst snd].
  rewrite length_app. cbn [List.length]. split; [|split].
  - induction elements as [|e elements IH]; [reflexivity|].
    cbn [flat_map]. rewrite !length_app.
    destruct (extracted scale get_storey_fn e); cbn in *; lia.
  - induction elements as [|e elements IH]; [reflexivity|].
    cbn [flat_map filter]. rewrite map_app, IH. unfold extracted.
    pose proof (extract_quantities_storey scale e (storey_of get_storey_fn e))
      as Hs.
    destruct (extract_quantities scale e (storey_of get_storey_fn e))
      as [r|err] eqn:He.
    + destruct Hs as [-> _]. cbn.
      now destruct (extract_quantities_count scale e _ r He) as [-> _].
    + rewrite Hs. reflexivity.
  - induction elements as [|e elements IH]; [reflexivity|].
    cbn [flat_map filter]. rewrite map_app, IH. unfold extracted.
    pose proof (extract_quantities_storey scale e (storey_of get_storey_fn e))
      as Hs.
    destruct (extract_quantities scale e (storey_of get_storey_fn e))
      as [r|err].
    + destruct Hs as [-> Hstorey]. cbn. now rewrite Hstorey.
    + rewrite Hs. reflexivity.
Qed.

End Fallback.

(* ----------------------------------------------------------------- *)
(** ** Splitting and case *)

Section Splitting.

Import Notions.

Lemma string_length_app (a b : string) :
  String.length (a ++ b) = (String.length a + String.length b)%nat.
Proof. induction a as [|c a IH]; cbn; auto. Qed.

Lemma lacks_cons (c d : ascii) (s : string) :
  lacks c (String d s) <-> c <> d /\ lacks c s.
Proof.
  unfold lacks. rewrite contains_unfold. cbn [String.prefix].
  destruct (ascii_dec c d) as [->|Hne].
  - replace (String.prefix "" s) with true by now destruct s.
    cbn. split; [discriminate | intros [H _]; congruence].
  - cbn. split; [now split | now intros [_ H]].
Qed.

Lemma break_at_lacking (c : ascii) (s : string) :
  lacks c s -> PyStr.break_at c s = (s, None).
Proof.
  induction s as [|d s IH]; intros H; [reflexivity|].
  apply lacks_cons in H. destruct H as [Hne H]. cbn.
  destruct (Ascii.eqb d c) eqn:Hd.
  - apply Ascii.eqb_eq in Hd. congruence.
  - now rewrite (IH H).
Qed.

Lemma break_at_first (c : ascii) (a b : string) :
  lacks c a -> PyStr.break_at c (a ++ String c b) = (a, Some b).
Proof.
  induction a as [|d a IH]; intros H; cbn.
  - now rewrite Ascii.eqb_refl.
  - apply lacks_cons in H. destruct H as [Hne H].
    destruct (Ascii.eqb d c) eqn:Hd.
    + apply Ascii.eqb_eq in Hd. congruence.
    + now rewrite (IH H).
Qed.

(** [split] of a string without the separator is the string alone. *)
Lemma split_lacking (c : ascii) (s : string) :
  lacks c s -> PyStr.split c s = [s].
Proof.
  intros H. unfold PyStr.split. destruct s as [|d s]; [reflexivity|].
  cbn [String.length PyStr.split_fuel]. now rewrite break_at_lacking.
Qed.

(** [split] cuts at the first separator and goes on with the rest. *)
Lemma split_first (c : ascii) (a b : string) :
  lacks c a -> PyStr.split c (a ++ String c b) = a :: PyStr.split c b.
Proof.
  intros H. unfold PyStr.split.
  rewrite string_length_app. cbn [String.length].
  rewrite Nat.add_succ_r. cbn [PyStr.split_fuel].
  rewrite break_at_first by assumption. f_equal.
  apply split_fuel_enough; lia.
Qed.

Lemma lower_char_idem (c : ascii) :
  PyStr.lower_char (PyStr.lower_char c) = PyStr.lower_char c.
Proof. destruct c as [[] [] [] [] [] [] [] []]; reflexivity. Qed.

Lemma lower_upper_char (c : ascii) :
  PyStr.lower_char (PyStr.upper_char c) = PyStr.lower_char c.
Proof. destruct c as [[] [] [] [] [] [] [] []]; reflexivity. Qed.

Lemma lower_idem (s : string) : PyStr.lower (PyStr.lower s) = PyStr.lower s.
Proof.
  induction s as [|c s IH]; cbn; [reflexivity|].
  fold (PyStr.lower s). fold (PyStr.lower (PyStr.lower s)).
  now rewrite lower_char_idem, IH.
Qed.

Lemma lower_upper (s : string) : PyStr.lower (PyStr.upper s) = PyStr.lower s.
Proof.
  induction s as [|c s IH]; cbn; [reflexivity|].
  fold (PyStr.lower s). fold (PyStr.upper s).
  fold (PyStr.lower (PyStr.upper s)).
  now rewrite lower_upper_char, IH.
Qed.

Lemma lower_truthy (s s' : string) :
  PyStr.lower s = PyStr.lower s' -> PyStr.truthy s = PyStr.truthy s'.
Proof. destruct s, s'; cbn; congruence. Qed.

End Splitting.

(* ----------------------------------------------------------------- *)
(** ** Categories, rates and units *)

Section CategoriesRatesUnits.

Import Notions.

(** X6.  The category of an element, its type followed by an underscore
    and the predefined type, leads back to the type: for a type without
    underscore, the base type the BOQ derives from the category, and from
    the type itself, is the type. *)
Theorem category_base_is_type :
  forall e : QuantityExtractor.element,
    lacks "_" (QuantityExtractor.is_a e) ->
    BOQGenerator.element_base (QuantityExtractor._get_category e)
    = QuantityExtractor.is_a e
    /\ BOQGenerator.element_base (QuantityExtractor.is_a e)
       = QuantityExtractor.is_a e.
Proof.
  intros e H. unfold BOQGenerator.element_base.
  assert (Hself : hd "" (PyStr.split "_" (QuantityExtractor.is_a e))
                  = QuantityExtractor.is_a e)
    by now rewrite split_lacking.
  split; [|exact Hself].
  unfold QuantityExtractor._get_category.
  destruct (QuantityExtractor.PredefinedType e) as [pt|]; [|exact Hself].
  destruct (PyStr.truthy pt); [|exact Hself].
  change (QuantityExtractor.is_a e ++ "_" ++ pt)%string
    with (QuantityExtractor.is_a e ++ String "_" pt)%string.
  now rewrite split_first.
Qed.

Import CostEstimator.

Lemma lookup_In {V} (d : dict V) (k : string) (v : V) :
  lookup d k = Some v -> In (k, v) d.
Proof.
  induction d as [|[k' v'] d IH]; cbn; [discriminate|].
  destruct (String.eqb k' k) eqn:Hk.
  - apply String.eqb_eq in Hk. intros [= ->]. subst. now left.
  - intros H. right. auto.
Qed.

Lemma scan_rates_In (m : string) (items : dict float) (r : float) :
  scan_rates m items = Some r -> exists k, In (k, r) items.
Proof.
  induction items as [|[k r'] items IH]; cbn; [discriminate|].
  destruct (_ && _).
  - intros [= ->]. eauto.
  - intros H. destruct (IH H) as [k' Hk']. eauto.
Qed.

(** X7.  A rate [get_rate] returns is 0.0 or a rate the table holds for
    that very element type: a rate of another type is never returned. *)
Theorem get_rate_from_own_type :
  forall (rates : rate_table) (T : string) (M : option string),
    get_rate rates T M = 0%float
    \/ exists type_rates k,
        lookup rates T = Some type_rates
        /\ In (k, get_rate rates T M) type_rates.
Proof.
  intros rates T M. unfold get_rate, get.
  destruct (lookup rates T) as [type_rates|]; [|now left].
  destruct type_rates as [|entry type_rates]; [now left|].
  cbn [truthy negb].
  set (tr := entry :: type_rates).
  destruct (match M with
            | Some m => if PyStr.truthy m then scan_rates (PyStr.lower m) tr
                        else None
            | None => None
            end) as [r|] eqn:Hscan.
  - right. exists tr.
    assert (Hs : exists m, scan_rates m tr = Some r).
    { destruct M as [m|]; [|discriminate].
      destruct (PyStr.truthy m); [eauto | discriminate]. }
    destruct Hs as [m Hs]. apply scan_rates_In in Hs.
    destruct Hs as [k Hk]. eauto.
  - destruct (lookup tr "default") as [r|] eqn:Hd; [|now left].
    right. exists tr, "default". split; [reflexivity|].
    now apply lookup_In.
Qed.

(** X8.  For materials written in ASCII the rate depends on the material
    through its lower-case form only: two such materials that differ in
    case get the same rate, and so does such a material written in
    capitals. *)
Theorem get_rate_ignores_case :
  forall (rates : rate_table) (T m m' : string),
    is_ascii m = true ->
    is_ascii m' = true ->
    PyStr.lower m = PyStr.lower m' ->
    get_rate rates T (Some m) = get_rate rates T (Some m')
    /\ get_rate rates T (Some (PyStr.upper m)) = get_rate rates T (Some m).
Proof.
  assert (H : forall rates T m m', PyStr.lower m = PyStr.lower m' ->
                get_rate rates T (Some m) = get_rate rates T (Some m')).
  { intros rates T m m' Hl. unfold get_rate.
    now rewrite (lower_truthy m m' Hl), Hl. }
  intros rates T m m' _ _ Hl. split; [now apply H|].
  apply H, lower_upper.
Qed.

Import IFCReader Spec.

(** X9.  [get_unit_scale_factor] raises [RuntimeError] without a loaded
    file, and for a loaded file it returns one of 0.001, 0.01 and 1.0,
    a factor above zero, whatever the file holds. *)
Theorem unit_scale_factor_range :
  get_unit_scale_factor None = Raise RuntimeError
  /\ forall file : ifc_model,
      exists f, get_unit_scale_factor (Some file) = Ok f
                /\ is_scale f /\ gt0 f = true.
Proof.
  split; [reflexivity|]. apply get_unit_scale_factor_total.
Qed.

Lemma first_return_none {A B} (body : A -> option B) (xs : list A) :
  Forall (fun x => body x = None) xs -> first_return body xs = None.
Proof.
  induction 1 as [|x xs Hx _ IH]; cbn; [reflexivity|]. now rewrite Hx.
Qed.

(** X10.  Millimetres are assumed, the factor being 0.001, whenever the
    units in context of the first project cannot be reached or hold no
    named unit of type LENGTHUNIT. *)
Theorem unit_scale_factor_default :
  forall file : ifc_model,
    match units_in_context file with
    | None => True
    | Some units => Forall (fun u => named_length_unit u = false) units
    end ->
    get_unit_scale_factor (Some file) = Ok 0.001%float.
Proof.
  intros file. unfold units_in_context, get_unit_scale_factor.
  destruct (projects file) as [[|project ?]|]; try reflexivity.
  destruct (UnitsInContext project) as [[units_context|]|]; try reflexivity.
  destruct (Units units_context) as [units|]; try reflexivity.
  intros Hunits.
  rewrite first_return_none, first_return_none; [reflexivity| |].
  - eapply Forall_impl; [|exact Hunits].
    intros u Hu. unfold named_length_unit in Hu. unfold si_unit_scale.
    destruct (is_a u "IfcSIUnit") eqn:Hsi; [|reflexivity].
    assert (Hn : is_a u "IfcNamedUnit" = true).
    { unfold is_a in *. destruct (unit_class_of u); cbn in *;
        try discriminate; reflexivity. }
    rewrite Hn in Hu. cbn in Hu. now rewrite Hu.
  - eapply Forall_impl; [|exact Hunits].
    intros u Hu. unfold named_length_unit in Hu. unfold named_unit_scale.
    destruct (is_a u "IfcNamedUnit"); [|reflexivity].
    cbn in Hu. now rewrite Hu.
Qed.

End CategoriesRatesUnits.

(* ----------------------------------------------------------------- *)
(** ** The partition into groups *)

Section Partition.

Import QuantityExtractor BOQGenerator Notions.

Context {RT : PyRuntime}.

Lemma existsb_eqb_In (k : string) (l : list string) :
  existsb (String.eqb k) l = true <-> In k l.
Proof.
  rewrite existsb_exists. split.
  - intros [x [Hx He]]. apply String.eqb_eq in He. now subst.
  - intros H. exists k. split; [exact H | apply String.eqb_refl].
Qed.

Lemma keys_fold_spec (keys seen : list string) :
  NoDup seen ->
  let out := fold_left (fun seen k => if existsb (String.eqb k) seen
                                      then seen else seen ++ [k])
                       keys seen in
  NoDup out /\ (forall k, In k out <-> In k seen \/ In k keys).
Proof.
  revert seen; induction keys as [|k keys IH]; intros seen Hnd; cbn.
  - split; [exact Hnd|]. intros k. tauto.
  - destruct (existsb (String.eqb k) seen) eqn:Hk.
    + destruct (IH seen Hnd) as [Hn Hin]. split; [exact Hn|].
      intros k'. rewrite Hin. apply existsb_eqb_In in Hk.
      split; [tauto|]. intros [H|[<-|H]]; auto.
    + assert (Hnd' : NoDup (seen ++ [k])).
      { apply NoDup_app; [exact Hnd | repeat constructor; auto |].
        intros x Hx [<-|[]]. apply existsb_eqb_In in Hx. congruence. }
      destruct (IH (seen ++ [k]) Hnd') as [Hn Hin]. split; [exact Hn|].
      intros k'. rewrite Hin, in_app_iff. cbn. tauto.
Qed.

Lemma keys_in_order_spec (keys : list string) :
  NoDup (keys_in_order keys)
  /\ (forall k, In k (keys_in_order keys) <-> In k keys).
Proof.
  destruct (keys_fold_spec keys [] (NoDup_nil _)) as [Hn Hin].
  split; [exact Hn|]. intros k. rewrite (Hin k). cbn. tauto.
Qed.

Lemma keys_in_order_snoc (keys : list string) (k : string) :
  keys_in_order (keys ++ [k]) =
    if existsb (String.eqb k) (keys_in_order keys)
    then keys_in_order keys
    else keys_in_order keys ++ [k].
Proof. unfold keys_in_order. now rewrite fold_left_app. Qed.

Lemma keys_in_order_length (keys : list string) :
  (List.length (keys_in_order keys) <= List.length keys)%nat.
Proof.
  induction keys as [|k keys IH] using rev_ind; [cbn; lia|].
  rewrite keys_in_order_snoc, length_app. cbn.
  destruct (existsb _ _); rewrite ?length_app; cbn; lia.
Qed.

(** Filing a record in groups with distinct keys: the group of its key
    gets it at the end, and a new group is opened at the end when there
    is none. *)
Lemma append_to_map {A} (F : string -> list A) (keys : list string)
      (key : string) (x : A) :
  NoDup keys ->
  append_to (map (fun k => (k, F k)) keys) key x =
    map (fun k => (k, F k ++ if String.eqb key k then [x] else [])) keys
    ++ (if existsb (String.eqb key) keys then [] else [(key, [x])]).
Proof.
  induction 1 as [|k keys Hk Hnd IH]; cbn; [reflexivity|].
  rewrite (String.eqb_sym key k).
  destruct (String.eqb k key) eqn:He; cbn.
  - apply String.eqb_eq in He. subst k. rewrite app_nil_r. f_equal.
    apply map_ext_in. intros k' Hk'.
    destruct (String.eqb key k') eqn:He'.
    + apply String.eqb_eq in He'. congruence.
    + now rewrite app_nil_r.
  - rewrite IH, app_nil_r. reflexivity.
Qed.

Lemma members_nil (level key : string) (quantities : list quantity_record) :
  ~ In key (map (group_key level) quantities) ->
  members level key quantities = [].
Proof.
  induction quantities as [|q qs IH]; cbn; [reflexivity|]. intros Hk.
  destruct (String.eqb (group_key level q) key) eqn:Hq.
  - apply String.eqb_eq in Hq. tauto.
  - apply IH. tauto.
Qed.

(** The groups are the distinct keys in the order of their first
    appearance, each with the records of that key in the order of the
    input. *)
Lemma group_quantities_eq (quantities : list quantity_record)
      (level : string) :
  _group_quantities quantities level =
    map (fun k => (k, members level k quantities))
        (keys_in_order (map (group_key level) quantities)).
Proof.
  induction quantities as [|qty quantities IH] using rev_ind;
    [reflexivity|].
  unfold _group_quantities in *. rewrite fold_left_app. cbn [fold_left].
  rewrite IH, map_app. cbn [map]. rewrite keys_in_order_snoc.
  set (keys := keys_in_order (map (group_key level) quantities)).
  destruct (keys_in_order_spec (map (group_key level) quantities))
    as [Hnd Hin]. fold keys in Hnd, Hin.
  rewrite append_to_map by exact Hnd.
  assert (Hm : forall k, members level k (quantities ++ [qty]) =
                 members level k quantities
                 ++ (if String.eqb (group_key level qty) k then [qty]
                     else [])).
  { intros k. unfold members. rewrite filter_app. cbn.
    now destruct (String.eqb (group_key level qty) k). }
  destruct (existsb (String.eqb (group_key level qty)) keys) eqn:He.
  - rewrite app_nil_r. apply map_ext. intros k. now rewrite Hm.
  - rewrite map_app. cbn [map]. f_equal.
    + apply map_ext. intros k. now rewrite Hm.
    + rewrite Hm, String.eqb_refl, members_nil; [reflexivity|].
      rewrite <- Hin, <- existsb_eqb_In. congruence.
Qed.

End Partition.

(* ----------------------------------------------------------------- *)
(** ** Groups, grouping levels and composite keys *)

Section Groups.

Import QuantityExtractor BOQGenerator Notions.

Context {RT : PyRuntime}.

Lemma append_to_sizes {A} (grouped : dict (list A)) (key : string) (x : A) :
  list_sum (map (fun kv => List.length (snd kv)) (append_to grouped key x))
  = S (list_sum (map (fun kv => List.length (snd kv)) grouped)).
Proof.
  unfold list_sum.
  induction grouped as [|[k l] rest IH]; [reflexivity|].
  cbn [append_to]. destruct (String.eqb k key); cbn [map fold_right snd].
  - rewrite length_app. cbn. lia.
  - rewrite IH. lia.
Qed.

Lemma group_sizes (level : string) (quantities : list quantity_record) :
  list_sum (map (fun kv => List.length (snd kv))
                (_group_quantities quantities level))
  = List.length quantities.
Proof.
  induction quantities as [|qty quantities IH] using rev_ind;
    [reflexivity|].
  unfold _group_quantities in *. rewrite fold_left_app. cbn [fold_left].
  rewrite append_to_sizes, IH, length_app. cbn. lia.
Qed.

(** X11.  Grouping is a stable partition: the groups are the distinct keys
    in the order of their first appearance, no key twice; the group of a
    key holds exactly the records of that key, in the order of the
    input, and is never empty; every record is in the group of its key;
    and the sizes of the groups add up to the number of records. *)
Theorem groups_partition_records :
  forall (quantities : list quantity_record) (level : string),
    let groups := _group_quantities quantities level in
    map fst groups = keys_in_order (map (group_key level) quantities)
    /\ NoDup (map fst groups)
    /\ Forall (fun kv => snd kv = members level (fst kv) quantities
                         /\ snd kv <> []) groups
    /\ (forall qty, In qty quantities ->
          exists items, In (group_key level qty, items) groups
                        /\ In qty items)
    /\ list_sum (map (fun kv => List.length (snd kv)) groups)
       = List.length quantities.
Proof.
  intros quantities level groups.
  assert (Hkeys : map fst groups
                  = keys_in_order (map (group_key level) quantities)).
  { subst groups. rewrite group_quantities_eq, map_map. cbn.
    apply map_id. }
  destruct (keys_in_order_spec (map (group_key level) quantities))
    as [Hnd Hin].
  split; [exact Hkeys|]. split; [now rewrite Hkeys|]. split; [|split].
  - assert (Hne : Forall (fun kv => snd kv <> []
                                    /\ Forall (fun _ => True) (snd kv))
                         groups).
    { apply group_quantities_Forall, Forall_forall. intros; exact I. }
    rewrite Forall_forall in Hne.
    apply Forall_forall. intros [k items] Hk. cbn [fst snd]. split.
    + subst groups. rewrite group_quantities_eq in Hk.
      apply in_map_iff in Hk. destruct Hk as [k' [[= <- <-] _]].
      reflexivity.
    + exact (proj1 (Hne (k, items) Hk)).
  - intros qty Hq. exists (members level (group_key level qty) quantities).
    split.
    + subst groups. rewrite group_quantities_eq.
      apply in_map_iff. exists (group_key level qty). split; [reflexivity|].
      apply Hin, in_map, Hq.
    + unfold members. apply filter_In. split; [exact Hq|].
      apply String.eqb_refl.
  - apply group_sizes.
Qed.

Lemma group_key_unknown (level : string) (qty : quantity_record) :
  known_level level = false -> group_key level qty = group_key "type" qty.
Proof.
  unfold known_level, group_key. cbn [existsb].
  destruct (String.eqb level "type"); [reflexivity|].
  destruct (String.eqb level "storey"); [discriminate|].
  destruct (String.eqb level "material"); [discriminate|].
  destruct (String.eqb level "all"); [discriminate|]. reflexivity.
Qed.

Lemma group_fold_ext (level level' : string)
      (quantities : list quantity_record)
      (grouped : dict (list quantity_record)) :
  (forall qty, group_key level qty = group_key level' qty) ->
  fold_left (fun grouped qty => append_to grouped (group_key level qty) qty)
            quantities grouped
  = fold_left (fun grouped qty =>
                 append_to grouped (group_key level' qty) qty)
              quantities grouped.
Proof.
  intros H. revert grouped.
  induction quantities as [|qty quantities IH]; intros grouped; cbn;
    [reflexivity|].
  now rewrite H, IH.
Qed.

Lemma create_items_ext (level level' : string)
      (grouped : dict (list quantity_record)) :
  String.eqb level "storey" = String.eqb level' "storey" ->
  create_items grouped level = create_items grouped level'.
Proof.
  intros H. induction grouped as [|[key items] grouped IH]; cbn;
    [reflexivity|].
  rewrite IH. unfold _create_boq_item. now rewrite H.
Qed.

(** X12.  A grouping level the code does not name, such as "category",
    gives the very table of the grouping by type. *)
Theorem unknown_level_groups_by_type :
  forall (quantities : list quantity_record) (level : string),
    known_level level = false ->
    generate_boq quantities level = generate_boq quantities "type".
Proof.
  intros quantities level Hlevel. unfold generate_boq, _group_quantities.
  rewrite (group_fold_ext level "type")
    by (intros qty; now apply group_key_unknown).
  rewrite (create_items_ext level "type"); [reflexivity|].
  unfold known_level in Hlevel. cbn [existsb] in Hlevel.
  destruct (String.eqb level "type"); [discriminate|].
  now destruct (String.eqb level "storey").
Qed.

(** X13.  The composite key of the grouping by type, storey and material
    leads back to its parts: when none of them holds a bar, the line built
    from the key carries the record's type, its storey and its material,
    "Unknown" standing for a storey or material that is absent. *)
Theorem composite_key_round_trip :
  forall (qty : quantity_record) (items : list quantity_record),
    lacks "|" (type_of qty) ->
    lacks "|" (str_or (q_storey qty) "Unknown") ->
    lacks "|" (str_or (q_material qty) "Unknown") ->
    exists line,
      _create_boq_item (group_key "all" qty) items "all" = Ok line
      /\ element_type line = type_of qty
      /\ storey line = str_or (q_storey qty) "Unknown"
      /\ material line = str_or (q_material qty) "Unknown".
Proof.
  intros qty items Ht Hs Hm.
  set (t := type_of qty) in *.
  set (s := str_or (q_storey qty) "Unknown") in *.
  set (m := str_or (q_material qty) "Unknown") in *.
  change (group_key "all" qty) with (t ++ String "|" (s ++ String "|" m))%string.
  unfold _create_boq_item.
  assert (Hc : PyStr.contains "|" (t ++ String "|" (s ++ String "|" m)) = true).
  { apply contains_iff. now exists t, (s ++ String "|" m)%string. }
  rewrite Hc.
  rewrite (split_first "|" t _ Ht), (split_first "|" s _ Hs),
    (split_lacking "|" m Hm).
  cbn [bind part nth].
  match goal with
  | |- context [_determine_primary_quantity ?v ?a ?l ?c ?ty] =>
      destruct (_determine_primary_quantity v a l c ty) as [u q]
  end.
  eexists. split; [reflexivity|]. repeat split.
Qed.

End Groups.

(* ----------------------------------------------------------------- *)
(** ** The generated table, its order and its summary *)

Section GeneratedTable.

Import QuantityExtractor Frame BOQGenerator Spec Notions.

Context {RT : PyRuntime}.

(** For records that are not empty the table is the lines of the groups,
    sorted by element type and storey. *)
Lemma generate_boq_lines (quantities : list quantity_record)
      (level : string) :
  quantities <> [] ->
  exists lines,
    create_items (_group_quantities quantities level) level = Ok lines
    /\ List.length lines
       = List.length (_group_quantities quantities level)
    /\ generate_boq quantities level
       = Ok (sort_values {| columns := item_columns;
                            rows := map row_of_item lines |}
                         ["element_type"; "storey"]).
Proof.
  intros Hne.
  pose proof (group_quantities_nonempty level quantities Hne) as Hgroups.
  destruct (create_items_ok (_group_quantities quantities level) level)
    as [lines [Hlines [Hlen _]]].
  { eapply Forall_impl;
      [|apply (group_quantities_Forall (fun _ => True));
        now apply Forall_forall].
    now intros kv [H _]. }
  exists lines. split; [exact Hlines|]. split; [exact Hlen|].
  destruct lines as [|line lines].
  { destruct (_group_quantities quantities level); cbn in Hlen; congruence. }
  unfold generate_boq. destruct quantities as [|qty quantities]; [congruence|].
  rewrite Hlines. cbn [bind]. now rewrite (arrange_lines line lines).
Qed.

Lemma create_boq_item_count (key : string) (items : list quantity_record)
      (level : string) (line : boq_item) :
  _create_boq_item key items level = Ok line ->
  BOQGenerator.count line = Z_sum (map count_of items).
Proof.
  unfold _create_boq_item.
  destruct (PyStr.contains "|" key);
    [|destruct items as [|first_item rest]; [discriminate|]];
    cbn [bind];
    match goal with
    | |- context [_determine_primary_quantity ?v ?a ?l ?c ?t] =>
        destruct (_determine_primary_quantity v a l c t) as [u q]
    end;
    intros [= <-]; reflexivity.
Qed.

Lemma create_items_counts (grouped : dict (list quantity_record))
      (level : string) (lines : list boq_item) :
  create_items grouped level = Ok lines ->
  map BOQGenerator.count lines
  = map (fun kv => Z_sum (map count_of (snd kv))) grouped.
Proof.
  revert lines; induction grouped as [|[key items] grouped IH];
    intros lines; cbn [create_items].
  - now intros [= <-].
  - destruct (_create_boq_item key items level) as [line|] eqn:Hline;
      cbn [bind]; [|discriminate].
    destruct (create_items grouped level) as [rest|]; cbn [bind];
      [|discriminate].
    intros [= <-]. cbn [map snd]. f_equal; [|now apply IH].
    now apply create_boq_item_count in Hline.
Qed.

Lemma Z_sum_cons (x : Z) (xs : list Z) : Z_sum (x :: xs) = (x + Z_sum xs)%Z.
Proof. unfold Z_sum at 1. cbn [fold_left]. now rewrite Z_sum_from. Qed.

Lemma Z_sum_perm (xs ys : list Z) : Permutation xs ys -> Z_sum xs = Z_sum ys.
Proof.
  induction 1; rewrite ?Z_sum_cons; try lia; congruence.
Qed.

Lemma append_to_counts (grouped : dict (list quantity_record))
      (key : string) (qty : quantity_record) :
  Z_sum (map (fun kv => Z_sum (map count_of (snd kv)))
             (append_to grouped key qty))
  = (Z_sum (map (fun kv => Z_sum (map count_of (snd kv))) grouped)
     + count_of qty)%Z.
Proof.
  induction grouped as [|[k l] rest IH]; [reflexivity|].
  cbn [append_to]. destruct (String.eqb k key); cbn [map snd];
    rewrite !Z_sum_cons.
  - rewrite map_app. cbn [map].
    assert (H : forall a b, Z_sum (a ++ [b]) = (Z_sum a + b)%Z).
    { intros a b. rewrite (Z_sum_perm (a ++ [b]) (b :: a)).
      - rewrite Z_sum_cons. lia.
      - rewrite Permutation_app_comm. reflexivity. }
    rewrite H. lia.
  - rewrite IH. lia.
Qed.

Lemma group_counts (level : string) (quantities : list quantity_record) :
  Z_sum (map (fun kv => Z_sum (map count_of (snd kv)))
             (_group_quantities quantities level))
  = Z_sum (map count_of quantities).
Proof.
  induction quantities as [|qty quantities IH] using rev_ind;
    [reflexivity|].
  unfold _group_quantities in *. rewrite fold_left_app. cbn [fold_left].
  rewrite append_to_counts, IH, map_app. cbn [map].
  rewrite (Z_sum_perm (map count_of quantities ++ [count_of qty])
                      (count_of qty :: map count_of quantities)).
  - rewrite Z_sum_cons. lia.
  - rewrite Permutation_app_comm. reflexivity.
Qed.

(** X14.  For records that are not empty the generated table has the
    columns of a line and one line per distinct group key, at least one
    and at most as many as there are records, in ascending order of
    element type and, within a type, of storey. *)
Theorem generated_boq_is_sorted :
  forall (quantities : list quantity_record) (level : string),
    quantities <> [] ->
    exists df,
      generate_boq quantities level = Ok df
      /\ columns df = item_columns
      /\ len df
         = List.length (keys_in_order (map (group_key level) quantities))
      /\ (1 <= len df <= List.length quantities)%nat
      /\ ascending (fun row => [cell_at item_columns row "element_type";
                               cell_at item_columns row "storey"])
                   (rows df).
Proof.
  intros quantities level Hne.
  destruct (generate_boq_lines quantities level Hne)
    as [lines [Hlines [Hlen Hdf]]].
  eexists. split; [exact Hdf|].
  set (df0 := {| columns := item_columns; rows := map row_of_item lines |}).
  destruct (sort_values_perm df0 ["element_type"; "storey"])
    as [Hcols Hperm].
  split; [exact Hcols|].
  assert (Hn : len (sort_values df0 ["element_type"; "storey"])
               = List.length
                   (keys_in_order (map (group_key level) quantities))).
  { unfold len. rewrite (Permutation_length Hperm). cbn [df0 rows].
    rewrite length_map, Hlen, group_quantities_eq. apply length_map. }
  split; [exact Hn|]. split.
  - rewrite Hn. split.
    + pose proof (group_quantities_nonempty level quantities Hne) as Hg.
      rewrite group_quantities_eq in Hg.
      destruct (keys_in_order _); [now cbn in Hg | cbn; lia].
    + pose proof (keys_in_order_length (map (group_key level) quantities)).
      now rewrite length_map in *.
  - exact (sort_values_ascending df0 ["element_type"; "storey"]).
Qed.

Lemma ints_of_counts (lines : list boq_item) :
  ints_of (map (fun row => cell_at item_columns row "count")
               (map row_of_item lines))
  = map BOQGenerator.count lines.
Proof.
  induction lines as [|line lines IH]; [reflexivity|].
  cbn [map]. unfold ints_of in *. cbn [flat_map]. rewrite IH. reflexivity.
Qed.

(** X15.  The summary of a generated table counts its lines, one per
    group, and its total count is the sum of the counts of all records,
    each record counted once whatever the grouping level. *)
Theorem summary_counts_every_record :
  forall (quantities : list quantity_record) (level : string),
    quantities <> [] ->
    exists df,
      generate_boq quantities level = Ok df
      /\ lookup (get_summary df) "total_items"
         = Some (SInt (Z.of_nat
                         (List.length (_group_quantities quantities level))))
      /\ lookup (get_summary df) "total_count"
         = Some (SInt (Z_sum (map count_of quantities))).
Proof.
  intros quantities level Hne.
  destruct (generate_boq_lines quantities level Hne)
    as [lines [Hlines [Hlen Hdf]]].
  eexists. split; [exact Hdf|].
  set (df0 := {| columns := item_columns; rows := map row_of_item lines |}).
  set (df := sort_values df0 ["element_type"; "storey"]).
  destruct (sort_values_perm df0 ["element_type"; "storey"])
    as [Hcols Hperm]. fold df in Hcols, Hperm.
  cbn [df0 columns rows] in Hcols, Hperm. clearbody df. clear df0.
  assert (Hrows : List.length (rows df)
                  = List.length (_group_quantities quantities level)).
  { now rewrite (Permutation_length Hperm), length_map. }
  assert (Hempty : empty df = false).
  { unfold empty. rewrite Hcols. cbn [item_columns].
    pose proof (group_quantities_nonempty level quantities Hne) as Hg.
    destruct (rows df); [|reflexivity].
    destruct (_group_quantities quantities level); cbn in *; congruence. }
  unfold get_summary. rewrite Hempty. unfold has_column. rewrite Hcols.
  cbn [lookup String.eqb Ascii.eqb Bool.eqb existsb item_columns orb].
  split.
  - unfold len. now rewrite Hrows.
  - do 2 f_equal. unfold column. rewrite Hcols.
    rewrite (Z_sum_perm _ (map BOQGenerator.count lines)).
    + rewrite (create_items_counts _ level lines Hlines).
      apply group_counts.
    + rewrite <- ints_of_counts. unfold ints_of.
      apply Permutation_flat_map, Permutation_map, Hperm.
Qed.

End GeneratedTable.

(* ----------------------------------------------------------------- *)
(** ** Item numbers *)

Section ItemNumbers.

Import Frame BOQGenerator.

Lemma numbers_nth (n i : nat) :
  (i < n)%nat ->
  nth_error (map CInt (range 1 n)) i = Some (CInt (Z.of_nat i + 1)).
Proof.
  intros Hi. rewrite nth_error_map, (range_nth 1 n i Hi).
  cbn [option_map]. do 2 f_equal. lia.
Qed.

(** Inserting a column leaves the cells under the other columns as they
    are. *)
Lemma insert0_other (df df' : DataFrame) (new col : string)
      (values : list cell) :
  insert0 df new values = Ok df' ->
  col <> new ->
  column df' col = column df col.
Proof.
  unfold insert0. destruct (has_column df new); [discriminate|].
  destruct (Nat.eqb (List.length values) (len df)) eqn:Hlen;
    [|discriminate].
  cbn [negb]. intros [= <-] Hne. unfold column, len in *. cbn [columns rows].
  apply Nat.eqb_eq in Hlen. rewrite map_map.
  assert (Hn : String.eqb new col = false).
  { apply String.eqb_neq. congruence. }
  rewrite (map_ext _ (fun p => cell_at (columns df) (snd p) col))
    by (intros p; cbn; now rewrite Hn).
  revert values Hlen. induction (rows df) as [|row rs IH];
    intros [|v values] Hlen; cbn in *; try congruence.
  f_equal. apply IH. congruence.
Qed.

Lemma cell_at_drop (header : list string) (row : list cell)
      (dropped col : string) :
  col <> dropped ->
  cell_at (filter (fun h => negb (String.eqb h dropped)) header)
          (drop_cell header row dropped) col
  = cell_at header row col.
Proof.
  intros Hne. revert row; induction header as [|h header IH];
    intros row; [reflexivity|].
  destruct row as [|c row].
  - assert (Hnil : forall hd, cell_at hd [] col = CNone)
      by (intros []; reflexivity).
    cbn [drop_cell]. now rewrite !Hnil.
  - cbn [filter drop_cell]. destruct (String.eqb h dropped) eqn:Hd;
      cbn [negb cell_at].
    + apply String.eqb_eq in Hd. subst h.
      assert (Hn : String.eqb dropped col = false).
      { apply String.eqb_neq. congruence. }
      rewrite Hn. apply IH.
    + destruct (String.eqb h col); [reflexivity | apply IH].
Qed.

Lemma filter_absent (header : list string) (col : string) :
  existsb (String.eqb col) header = false ->
  filter (fun h => negb (String.eqb h col)) header = header.
Proof.
  induction header as [|h header IH]; cbn; [reflexivity|].
  rewrite orb_false_iff. intros [Hh Hrest].
  rewrite String.eqb_sym, Hh. cbn. now rewrite IH.
Qed.

(** X16.  On a table without an [item_no] column, [add_item_numbers]
    returns the table itself when it is empty, and otherwise the table
    with a first column [item_no] that numbers the rows 1, 2, ..., N from
    the top, the other columns being as they were. *)
Theorem add_item_numbers_on_fresh_table :
  forall df : DataFrame,
    has_column df "item_no" = false ->
    exists df',
      add_item_numbers df = Ok df'
      /\ len df' = len df
      /\ (empty df = true -> df' = df)
      /\ (empty df = false ->
          columns df' = "item_no" :: columns df
          /\ (forall i, (i < len df)%nat ->
                nth_error (column df' "item_no") i
                = Some (CInt (Z.of_nat i + 1)))
          /\ forall col, col <> "item_no" -> column df' col = column df col).
Proof.
  intros df Hcol. unfold add_item_numbers.
  destruct (empty df) eqn:Hempty.
  - exists df. repeat split; discriminate.
  - destruct (insert0_fresh df "item_no" (map CInt (range 1 (len df))) Hcol)
      as [df' [Hins [Hcols [Hlen Hvals]]]].
    { now rewrite length_map, range_length. }
    exists df'. split; [exact Hins|]. split; [exact Hlen|].
    split; [discriminate|]. intros _. split; [exact Hcols|]. split.
    + intros i Hi. rewrite Hvals. now apply numbers_nth.
    + intros col Hne. exact (insert0_other _ _ _ _ _ Hins Hne).
Qed.

Lemma number_sheet_spec :
  forall df : DataFrame,
    exists df',
      ExcelExporter.number_sheet df = Ok df'
      /\ len df' = len df
      /\ columns df'
         = "item_no"
           :: filter (fun h => negb (String.eqb h "item_no")) (columns df)
      /\ (forall i, (i < len df)%nat ->
            nth_error (column df' "item_no") i
            = Some (CInt (Z.of_nat i + 1)))
      /\ forall col, col <> "item_no" -> column df' col = column df col.
Proof.
  intros df. unfold ExcelExporter.number_sheet.
  destruct (has_column df "item_no") eqn:Hcol.
  - destruct (drop_column_absent df "item_no") as [Habs Hlen].
    destruct (insert0_fresh (drop_column df "item_no") "item_no"
                (map CInt (range 1 (len (drop_column df "item_no")))) Habs)
      as [df' [Hins [Hcols [Hlen' Hvals]]]].
    { now rewrite length_map, range_length. }
    exists df'. split; [exact Hins|]. split; [congruence|].
    split; [exact Hcols|]. split.
    + intros i Hi. rewrite Hvals, Hlen. now apply numbers_nth.
    + intros col Hne. rewrite (insert0_other _ _ _ _ _ Hins Hne).
      unfold column, drop_column. cbn [columns rows]. rewrite map_map.
      apply map_ext. intros row. now apply cell_at_drop.
  - destruct (insert0_fresh df "item_no" (map CInt (range 1 (len df))) Hcol)
      as [df' [Hins [Hcols [Hlen Hvals]]]].
    { now rewrite length_map, range_length. }
    exists df'. split; [exact Hins|]. split; [exact Hlen|]. split.
    + rewrite Hcols. f_equal. symmetry. now apply filter_absent.
    + split.
      * intros i Hi. rewrite Hvals. now apply numbers_nth.
      * intros col Hne. exact (insert0_other _ _ _ _ _ Hins Hne).
Qed.

(** X17.  The exporter's numbering succeeds on every table: a column
    [item_no] that is there is dropped, the rows are numbered 1, 2, ...,
    N from the top in a new first column, and the other columns are as
    they were. *)
Theorem exporter_numbers_every_table :
  forall df : DataFrame,
    exists df',
      ExcelExporter.number_sheet df = Ok df'
      /\ len df' = len df
      /\ columns df'
         = "item_no"
           :: filter (fun h => negb (String.eqb h "item_no")) (columns df)
      /\ (forall i, (i < len df)%nat ->
            nth_error (column df' "item_no") i
            = Some (CInt (Z.of_nat i + 1)))
      /\ forall col, col <> "item_no" -> column df' col = column df col.
Proof. exact number_sheet_spec. Qed.

End ItemNumbers.

(* ----------------------------------------------------------------- *)
(** ** Sheet names and descriptions *)

Section Names.

Import Notions ExcelSheets.

Lemma lacks_nil (c : ascii) : lacks c "".
Proof. unfold lacks. reflexivity. Qed.

Lemma smap_smap (f g : ascii -> ascii) (s : string) :
  PyStr.smap g (PyStr.smap f s) = PyStr.smap (fun c => g (f c)) s.
Proof. induction s as [|c s IH]; cbn; [reflexivity|]. now rewrite IH. Qed.

Lemma smap_ext (f g : ascii -> ascii) (s : string) :
  (forall c, f c = g c) -> PyStr.smap f s = PyStr.smap g s.
Proof.
  intros H. induction s as [|c s IH]; cbn; [reflexivity|].
  now rewrite H, IH.
Qed.

Lemma replacements_smap (chars : list ascii) (s : string) :
  fold_left (fun clean_name char => replace_char char "_" clean_name)
            chars s
  = PyStr.smap (cleaned chars) s.
Proof.
  revert s; induction chars as [|char chars IH]; intros s; cbn.
  - induction s as [|c s IHs]; cbn; [reflexivity|]. now rewrite <- IHs.
  - rewrite IH. unfold replace_char. rewrite smap_smap. reflexivity.
Qed.

Lemma cleaned_valid (c : ascii) :
  Forall (fun char => cleaned invalid_chars c <> char) invalid_chars.
Proof.
  destruct c as [[] [] [] [] [] [] [] []];
    repeat constructor; discriminate.
Qed.

Lemma smap_lacks (f : ascii -> ascii) (char : ascii) (s : string) :
  (forall c, f c <> char) -> lacks char (PyStr.smap f s).
Proof.
  intros H. induction s as [|c s IH]; cbn; [apply lacks_nil|].
  apply lacks_cons. split; [|exact IH]. intros ->. now apply (H c).
Qed.

Lemma take_lacks (char : ascii) (n : nat) (s : string) :
  lacks char s -> lacks char (take n s).
Proof.
  revert s; induction n as [|n IH]; intros s H; [apply lacks_nil|].
  destruct s as [|c s]; [apply lacks_nil|]. cbn.
  apply lacks_cons in H. destruct H as [Hne H].
  apply lacks_cons. auto.
Qed.

Lemma take_length (n : nat) (s : string) :
  (String.length (take n s) <= n)%nat.
Proof.
  revert s; induction n as [|n IH]; intros s; [cbn; lia|].
  destruct s as [|c s]; cbn; [lia|]. specialize (IH s). lia.
Qed.

(** X18.  A cleaned sheet name is never empty, has at most 31 characters
    and holds none of the characters / \ ? * [ ]. *)
Theorem clean_sheet_name_is_valid :
  forall name : string,
    _clean_sheet_name name <> ""
    /\ (String.length (_clean_sheet_name name) <= 31)%nat
    /\ Forall (fun char => lacks char (_clean_sheet_name name)) invalid_chars.
Proof.
  intros name. unfold _clean_sheet_name.
  set (stripped := if PyStr.startswith name "Ifc"
                   then PyStr.remove_all "Ifc" name else name).
  rewrite replacements_smap.
  set (replaced := PyStr.smap (cleaned invalid_chars) stripped).
  assert (Hvalid : Forall (fun char => lacks char replaced) invalid_chars).
  { apply Forall_forall. intros char Hchar. apply smap_lacks. intros c.
    pose proof (cleaned_valid c) as Hc. rewrite Forall_forall in Hc. auto. }
  set (cut := if (31 <? String.length replaced)%nat then take 31 replaced
              else replaced).
  assert (Hcut : (String.length cut <= 31)%nat
                 /\ Forall (fun char => lacks char cut) invalid_chars).
  { subst cut. destruct (31 <? String.length replaced)%nat eqn:Hlen.
    - split; [apply take_length|].
      eapply Forall_impl; [|exact Hvalid]. intros char. apply take_lacks.
    - apply Nat.ltb_ge in Hlen. auto. }
  destruct Hcut as [Hlen Hlacks].
  destruct cut as [|c cut]; cbn [PyStr.truthy negb].
  - split; [discriminate|]. split; [cbn; lia|].
    repeat constructor.
  - split; [discriminate|]. auto.
Qed.

Lemma remove_all_fuel_absent (old : string) (fuel : nat) (s : string) :
  PyStr.contains old s = false -> PyStr.remove_all_fuel fuel old s = s.
Proof.
  revert s; induction fuel as [|fuel IH]; intros s H; [reflexivity|].
  destruct s as [|c s]; [reflexivity|]. cbn [PyStr.remove_all_fuel].
  rewrite contains_unfold in H. apply orb_false_iff in H.
  destruct H as [Hp Hs]. rewrite Hp. now rewrite IH.
Qed.

Lemma remove_all_fuel_hit (old : string) (fuel : nat) (s : string) :
  s <> "" ->
  String.prefix old s = true ->
  PyStr.remove_all_fuel (S fuel) old s
  = PyStr.remove_all_fuel fuel old (PyStr.drop (String.length old) s).
Proof.
  intros Hs Hp. destruct s as [|c s]; [congruence|].
  cbn [PyStr.remove_all_fuel]. now rewrite Hp.
Qed.

(** Removing "Ifc" from a name that starts with it and holds it nowhere
    else leaves the rest of the name. *)
Lemma remove_prefix_Ifc (s : string) :
  PyStr.contains "Ifc" s = false ->
  PyStr.startswith ("Ifc" ++ s) "Ifc" = true
  /\ PyStr.remove_all "Ifc" ("Ifc" ++ s) = s.
Proof.
  intros H. split.
  - unfold PyStr.startswith. apply prefix_iff. now exists s.
  - change (PyStr.remove_all "Ifc" ("Ifc" ++ s))
      with (PyStr.remove_all_fuel (S (S (S (String.length s)))) "Ifc"
              (String "I" (String "f" (String "c" s)))).
    rewrite remove_all_fuel_hit.
    + change (PyStr.drop (String.length "Ifc")
                (String "I" (String "f" (String "c" s)))) with s.
      now apply remove_all_fuel_absent.
    + discriminate.
    + apply prefix_iff. now exists s.
Qed.

(** X19.  The description of a line drops the prefix "Ifc" of the element
    type and names the material after a dash, unless the material is
    empty or one of the placeholders "Unknown" and "Not Specified". *)
Theorem description_strips_prefix :
  forall type_name material : string,
    PyStr.contains "Ifc" type_name = false ->
    (real_material material = true ->
     BOQGenerator._create_description ("Ifc" ++ type_name) material
     = (type_name ++ " - " ++ material)%string)
    /\ (real_material material = false ->
        BOQGenerator._create_description ("Ifc" ++ type_name) material
        = type_name)
    /\ BOQGenerator._create_description type_name "Not Specified"
       = type_name.
Proof.
  intros type_name material H.
  destruct (remove_prefix_Ifc type_name H) as [Hstart Hremove].
  unfold BOQGenerator._create_description, real_material.
  rewrite Hstart, Hremove. split; [|split].
  - now intros ->.
  - now intros ->.
  - replace (PyStr.truthy "Not Specified"
             && negb (String.eqb "Not Specified" "Unknown"
                      || String.eqb "Not Specified" "Not Specified"))
      with false by reflexivity.
    destruct (PyStr.startswith type_name "Ifc"); [|reflexivity].
    change (PyStr.remove_all "Ifc" type_name)
      with (PyStr.remove_all_fuel (String.length type_name) "Ifc" type_name).
    now apply remove_all_fuel_absent.
Qed.

End Names.

(* ----------------------------------------------------------------- *)
(** ** The elements and the storeys the reader hands over *)

Section Reader.

Import Notions IFCElements.

Lemma filter_physical_eq (elements : list entity) :
  _filter_physical_elements elements = filter is_physical elements.
Proof.
  induction elements as [|e elements IH]; [reflexivity|].
  cbn [_filter_physical_elements filter]. unfold is_physical.
  destruct (existsb _ excluded_types); cbn [negb andb]; [exact IH|].
  destruct (has_openings e); cbn [negb andb]; [exact IH|].
  destruct (mentions_keyword (QuantityExtractor.Name (core e)));
    cbn [negb andb]; [exact IH|].
  destruct (mentions_keyword (QuantityExtractor.Tag (core e)));
    cbn [negb andb]; [exact IH|].
  now rewrite IH.
Qed.

Lemma filter_idem {A} (f : A -> bool) (l : list A) :
  filter f (filter f l) = filter f l.
Proof.
  induction l as [|x l IH]; cbn; [reflexivity|].
  destruct (f x) eqn:Hx; cbn; now rewrite ?Hx, IH.
Qed.

(** X20.  Filtering the physical elements keeps the order of the elements
    and is idempotent; no element that is left has an excluded type, an
    opening that voids it, or a name or tag that mentions "opening",
    "void" or "annotation" in any case; and an element with an opening is
    always dropped, be it a wall. *)
Theorem physical_filter_properties :
  forall elements : list entity,
    let kept := _filter_physical_elements elements in
    kept = filter is_physical elements
    /\ _filter_physical_elements kept = kept
    /\ Forall (fun e =>
                 ~ In (QuantityExtractor.is_a (core e)) excluded_types
                 /\ has_openings e = false
                 /\ mentions_keyword (QuantityExtractor.Name (core e)) = false
                 /\ mentions_keyword (QuantityExtractor.Tag (core e)) = false)
              kept
    /\ (forall e, has_openings e = true -> ~ In e kept).
Proof.
  intros elements kept. subst kept. rewrite !filter_physical_eq.
  split; [reflexivity|]. split; [apply filter_idem|]. split.
  - apply Forall_forall. intros e He. apply filter_In in He.
    destruct He as [_ He]. unfold is_physical in He.
    rewrite !andb_true_iff, !negb_true_iff in He.
    destruct He as [[[Ht Ho] Hn] Htag]. repeat split; auto.
    intros Hin. apply existsb_eqb_In in Hin. congruence.
  - intros e Ho He. apply filter_In in He. destruct He as [_ He].
    unfold is_physical in He. rewrite Ho in He.
    rewrite !andb_true_iff in He. destruct He as [[[_ He] _] _].
    discriminate.
Qed.

Lemma collect_eq (f : ifc_file) (types : list string)
      (all_elements : list entity) :
  collect (Some f) types all_elements =
    Ok (all_elements
        ++ flat_map (fun t => filter is_physical
                                (match by_type f t with
                                 | Some elements => elements
                                 | None => []
                                 end)) types).
Proof.
  revert all_elements; induction types as [|t types IH];
    intros all_elements; cbn [collect flat_map].
  - now rewrite app_nil_r.
  - unfold get_elements_by_type.
    destruct (by_type f t) as [elements|]; cbn [bind];
      rewrite IH, filter_physical_eq, <- app_assoc; reflexivity.
Qed.

(** X21.  Without a loaded file [get_civil_engineering_elements] raises
    [RuntimeError]; with one it returns the physical elements of the
    types IfcBeam, IfcColumn, IfcSlab, IfcWall and IfcFooting, type after
    type in this order, a type whose lookup fails contributing no element
    and costing none of the others. *)
Theorem civil_elements_by_type :
  get_civil_engineering_elements None = Raise RuntimeError
  /\ forall f : ifc_file,
      exists elements,
        get_civil_engineering_elements (Some f) = Ok elements
        /\ elements
           = flat_map (fun t => filter is_physical
                                  (match by_type f t with
                                   | Some found => found
                                   | None => []
                                   end))
                      ["IfcBeam"; "IfcColumn"; "IfcSlab"; "IfcWall";
                       "IfcFooting"]
        /\ Forall (fun e => is_physical e = true) elements.
Proof.
  split; [reflexivity|]. intros f.
  unfold get_civil_engineering_elements. rewrite collect_eq.
  eexists. split; [reflexivity|]. split; [reflexivity|].
  cbn [app]. apply Forall_forall. intros e He.
  apply in_flat_map in He. destruct He as [t [_ He]].
  apply filter_In in He. tauto.
Qed.

Lemma first_return_first {A B} (body : A -> option B) (before : list A)
      (x : A) (after : list A) (r : B) :
  Forall (fun y => body y = None) before ->
  body x = Some r ->
  first_return body (before ++ x :: after) = Some r.
Proof.
  intros Hbefore Hx. induction Hbefore as [|y before Hy _ IH]; cbn.
  - now rewrite Hx.
  - now rewrite Hy.
Qed.

(** X22.  The storey of an element is the name of the first structure it
    is contained in that is a storey, its long name when it has no name;
    this structure decides even when it has neither, and the container
    lookup is used only when no containing structure is a storey. *)
Theorem storey_of_first_containing_storey :
  forall (e : entity) (relations : list containment),
    ContainedInStructure e = Some relations ->
    (forall before relation after s,
        relations = before ++ relation :: after ->
        Forall not_in_storey before ->
        RelatingStructure relation = Some s ->
        is_IfcBuildingStorey s = true ->
        get_element_storey e = storey_name s)
    /\ (Forall not_in_storey relations ->
        get_element_storey e = match container e with
                               | Some s => storey_name s
                               | None => None
                               end).
Proof.
  intros e relations Hrel. unfold get_element_storey. rewrite Hrel.
  set (body := fun relation =>
                 match RelatingStructure relation with
                 | Some s => if is_IfcBuildingStorey s
                             then Some (storey_name s) else None
                 | None => None
                 end).
  assert (Hnone : forall l, Forall not_in_storey l ->
                            Forall (fun r => body r = None) l).
  { intros l Hl. eapply Forall_impl; [|exact Hl].
    intros r Hr. unfold not_in_storey in Hr. unfold body.
    destruct (RelatingStructure r) as [s|]; [|reflexivity].
    now rewrite Hr. }
  split.
  - intros before relation after s -> Hbefore Hs Hstorey.
    rewrite (first_return_first body before relation after (storey_name s)).
    + reflexivity.
    + now apply Hnone.
    + unfold body. now rewrite Hs, Hstorey.
  - intros Hall. now rewrite (first_return_none body relations (Hnone _ Hall)).
Qed.

End Reader.

(* ------------------------------------------------------------------ *)
(** ** The sheets of the exported workbook *)

Section Sheets.

Import QuantityExtractor Frame BOQGenerator Notions ExcelSheets.

Context {RT : PyRuntime}.

Lemma cell_eqb_str (s : string) (c : cell) :
  cell_eqb c (CStr s) = true <-> c = CStr s.
Proof.
  destruct c; cbn; try (split; [discriminate|congruence]).
  rewrite String.eqb_eq. split; congruence.
Qed.

Lemma str_eqb_cell (s : string) (c : cell) :
  cell_eqb (CStr s) c = true <-> c = CStr s.
Proof.
  destruct c; cbn; try (split; [discriminate|congruence]).
  rewrite String.eqb_eq. split; congruence.
Qed.

Lemma existsb_str (s : string) (seen : list cell) :
  existsb (cell_eqb (CStr s)) seen = true <-> In (CStr s) seen.
Proof.
  rewrite existsb_exists. split.
  - intros [c [Hin Heq]]. apply str_eqb_cell in Heq. now subst.
  - intros Hin. exists (CStr s). split; [exact Hin|].
    now apply str_eqb_cell.
Qed.

Lemma unique_from_In (xs seen : list cell) (u : cell) :
  In u (unique_from seen xs) -> In u xs.
Proof.
  revert seen. induction xs as [|x rest IH]; intros seen; cbn; [tauto|].
  destruct (existsb (cell_eqb x) seen).
  - intros Hin. right. eapply IH, Hin.
  - intros [->|Hin]; [now left|]. right. eapply IH, Hin.
Qed.

Lemma unique_from_unseen (xs seen : list cell) (s : string) :
  In (CStr s) (unique_from seen xs) -> ~ In (CStr s) seen.
Proof.
  revert seen. induction xs as [|x rest IH]; intros seen; cbn; [tauto|].
  destruct (existsb (cell_eqb x) seen) eqn:Hseen.
  - apply IH.
  - intros [->|Hin].
    + intros Habs. apply existsb_str in Habs. congruence.
    + intros Habs. apply (IH _ Hin). now right.
Qed.

Lemma unique_from_str (xs seen : list cell) :
  Forall is_str xs -> Forall is_str (unique_from seen xs).
Proof.
  intros Hxs. apply Forall_forall. intros u Hin.
  apply unique_from_In in Hin.
  now apply (proj1 (Forall_forall _ _) Hxs).
Qed.

Lemma occurrences_cons (u x : cell) (xs : list cell) :
  occurrences u (x :: xs)
  = ((if cell_eqb x u then 1 else 0) + occurrences u xs)%nat.
Proof.
  unfold occurrences. cbn [filter]. now destruct (cell_eqb x u).
Qed.

Lemma occurrences_In (s : string) (xs : list cell) :
  In (CStr s) xs -> (0 < occurrences (CStr s) xs)%nat.
Proof.
  induction xs as [|x rest IH]; cbn [In]; [tauto|].
  rewrite occurrences_cons. intros [->|Hin].
  - cbn. rewrite String.eqb_refl. lia.
  - specialize (IH Hin). lia.
Qed.

(** Counting a cell that is new takes it out of what is left to count. *)
Lemma occurrences_split (s : string) (seen xs : list cell) :
  ~ In (CStr s) seen ->
  (occurrences (CStr s) xs
   + List.length (filter (fun c => negb (existsb (cell_eqb c)
                                                 (CStr s :: seen))) xs)
   = List.length (filter (fun c => negb (existsb (cell_eqb c) seen)) xs))%nat.
Proof.
  intros Hnew. induction xs as [|c rest IH]; [reflexivity|].
  rewrite occurrences_cons. cbn [filter existsb]. cbn [existsb] in IH.
  destruct (cell_eqb c (CStr s)) eqn:Heq.
  - apply cell_eqb_str in Heq. subst c.
    destruct (existsb (cell_eqb (CStr s)) seen) eqn:Hseen.
    + apply existsb_str in Hseen. contradiction.
    + cbn [orb negb List.length]. lia.
  - cbn [orb]. destruct (negb (existsb (cell_eqb c) seen));
      cbn [List.length]; lia.
Qed.

(** Every row is counted under exactly one of the distinct values. *)
Lemma unique_from_counts (xs seen : list cell) :
  Forall is_str xs ->
  list_sum (map (fun u => occurrences u xs) (unique_from seen xs))
  = List.length (filter (fun c => negb (existsb (cell_eqb c) seen)) xs).
Proof.
  intros Hxs. revert seen.
  induction Hxs as [|x rest Hx Hrest IH]; intros seen; [reflexivity|].
  destruct x as [|s| |]; cbn in Hx; try contradiction.
  assert (Hshift : forall seen',
             In (CStr s) seen' ->
             map (fun u => occurrences u (CStr s :: rest))
                 (unique_from seen' rest)
             = map (fun u => occurrences u rest) (unique_from seen' rest)).
  { intros seen' Hin. apply map_ext_in. intros u Hu.
    rewrite occurrences_cons.
    destruct (cell_eqb (CStr s) u) eqn:Heq; [|reflexivity].
    apply str_eqb_cell in Heq. subst u.
    now apply unique_from_unseen in Hu. }
  cbn [unique_from filter].
  destruct (existsb (cell_eqb (CStr s)) seen) eqn:Hseen.
  - cbn [negb]. rewrite Hshift by now apply existsb_str. apply IH.
  - cbn [negb List.length map list_sum fold_right].
    change (fold_right Nat.add 0%nat ?l) with (list_sum l).
    rewrite Hshift by now left. rewrite IH.
    rewrite occurrences_cons. cbn [cell_eqb]. rewrite String.eqb_refl.
    assert (Hnew : ~ In (CStr s) seen).
    { intros Habs. apply existsb_str in Habs. congruence. }
    pose proof (occurrences_split s seen rest Hnew). lia.
Qed.

Lemma unique_counts (xs : list cell) :
  Forall is_str xs ->
  list_sum (map (fun u => occurrences u xs) (unique xs)) = List.length xs.
Proof.
  intros Hxs. unfold unique. rewrite (unique_from_counts xs [] Hxs).
  cbn [existsb negb]. f_equal. clear Hxs.
  induction xs as [|x rest IH]; cbn; congruence.
Qed.

(** The rows selected for a type are those that count as occurrences of
    the type, and their type column holds nothing else. *)
Lemma rows_of_type_len (df : DataFrame) (t : cell) :
  len (rows_of_type df t) = occurrences t (column df "element_type").
Proof.
  unfold len, rows_of_type, occurrences, column. cbn [rows columns].
  induction (rows df) as [|row rest IH]; [reflexivity|].
  cbn [filter map].
  destruct (cell_eqb (cell_at (columns df) row "element_type") t);
    cbn [List.length]; congruence.
Qed.

Lemma rows_of_type_column (df : DataFrame) (s : string) :
  column (rows_of_type df (CStr s)) "element_type"
  = repeat (CStr s) (len (rows_of_type df (CStr s))).
Proof.
  unfold len, rows_of_type, column. cbn [rows columns].
  induction (rows df) as [|row rest IH]; [reflexivity|].
  cbn [filter].
  destruct (cell_eqb (cell_at (columns df) row "element_type") (CStr s))
    eqn:Heq; [|exact IH].
  apply cell_eqb_str in Heq. cbn [map List.length repeat]. now rewrite Heq, IH.
Qed.

Lemma type_sheets_spec (df : DataFrame) (types : list string) :
  Forall (fun t => In (CStr t) (column df "element_type")) types ->
  exists sheets,
    type_sheets df (map CStr types) = Some sheets
    /\ Forall2 (sheet_of_type df) types sheets.
Proof.
  induction 1 as [|t rest Ht Hrest [sheets [Hsheets Hall]]].
  - exists []. split; [reflexivity|constructor].
  - destruct (number_sheet_spec (rows_of_type df (CStr t)))
      as [type_df [Hnum [Hlen [_ [_ Hother]]]]].
    destruct (number_sheet_numbers (rows_of_type df (CStr t)))
      as [type_df' [Hnum' [_ Hnos]]].
    rewrite Hnum in Hnum'. injection Hnum' as <-.
    exists ((_clean_sheet_name t, type_df) :: sheets). split.
    + cbn [map type_sheets sheet_name_of]. rewrite Hnum, Hsheets.
      reflexivity.
    + constructor; [|exact Hall].
      unfold sheet_of_type. cbn [fst snd]. rewrite Hlen.
      rewrite rows_of_type_len.
      repeat split.
      * now apply occurrences_In.
      * rewrite Hother by discriminate.
        rewrite rows_of_type_column. now rewrite rows_of_type_len.
      * rewrite Hnos. now rewrite rows_of_type_len.
Qed.

Lemma strings_of_cells (xs : list cell) :
  Forall is_str xs -> exists ss, xs = map CStr ss.
Proof.
  induction 1 as [|x rest Hx _ [ss ->]].
  - now exists [].
  - destruct x as [|s| |]; cbn in Hx; try contradiction.
    now exists (s :: ss).
Qed.

(** The element types of a generated table are strings. *)
Lemma generated_types_are_strings (lines : list boq_item) (by_ : list string) :
  Forall is_str
         (column (sort_values {| columns := item_columns;
                                 rows := map row_of_item lines |} by_)
                 "element_type").
Proof.
  set (df0 := {| columns := item_columns; rows := map row_of_item lines |}).
  destruct (sort_values_perm df0 by_) as [Hcols Hperm].
  unfold column. rewrite Hcols. cbn [df0 columns rows] in *.
  apply Forall_forall. intros c Hin. apply in_map_iff in Hin.
  destruct Hin as [row [<- Hrow]].
  apply (Permutation_in _ Hperm) in Hrow. apply in_map_iff in Hrow.
  destruct Hrow as [line [<- _]]. exact I.
Qed.

(** The sheets of a table with lines whose element types are strings. *)
Lemma boq_sheets_spec (df : DataFrame) :
  empty df = false ->
  has_column df "element_type" = true ->
  Forall is_str (column df "element_type") ->
  exists types sheets,
    boq_sheets df = Some sheets
    /\ unique (column df "element_type") = map CStr types
    /\ types <> []
    /\ Forall2 (sheet_of_type df) types sheets
    /\ list_sum (map (fun sheet => len (snd sheet)) sheets) = len df.
Proof.
  intros Hempty Hcol Hstr.
  destruct (strings_of_cells _ (unique_from_str _ [] Hstr)) as [types Htypes].
  fold (unique (column df "element_type")) in Htypes.
  assert (Hin : Forall (fun t => In (CStr t) (column df "element_type"))
                       types).
  { apply Forall_forall. intros t Ht.
    apply (unique_from_In _ []). fold (unique (column df "element_type")).
    rewrite Htypes. now apply in_map. }
  destruct (type_sheets_spec df types Hin) as [sheets [Hsheets Hall]].
  assert (Htypes_ne : types <> []).
  { intros ->. unfold unique, column in Htypes.
    unfold empty in Hempty.
    destruct (columns df); [discriminate|].
    destruct (rows df); [discriminate|]. cbn in Htypes. discriminate. }
  exists types, sheets. unfold boq_sheets.
  rewrite Hempty, Hcol. cbn [negb andb]. rewrite Htypes, Hsheets.
  split.
  { inversion Hall; subst; [congruence|reflexivity]. }
  split; [reflexivity|]. split; [exact Htypes_ne|].
  split; [exact Hall|].
  assert (Hlen : len df = List.length (column df "element_type")).
  { unfold len, column. now rewrite length_map. }
  rewrite Hlen, <- (unique_counts _ Hstr), Htypes, map_map.
  clear - Hall. induction Hall as [|t sheet types sheets Hsheet _ IH].
  - reflexivity.
  - cbn [map list_sum fold_right].
    change (fold_right Nat.add 0%nat ?l) with (list_sum l) in *.
    destruct Hsheet as [_ [_ [-> _]]]. now rewrite IH.
Qed.

Lemma all_distinct_NoDup (l : list string) :
  all_distinct l = true -> NoDup l.
Proof.
  induction l as [|x rest IH]; cbn [all_distinct]; [constructor|].
  intros H. apply andb_prop in H. destruct H as [Hx Hrest].
  constructor; [|now apply IH].
  intros Hin. apply existsb_eqb_In in Hin. rewrite Hin in Hx.
  discriminate.
Qed.

Lemma sheet_names (df : DataFrame) (types : list string)
      (sheets : list (string * DataFrame)) :
  Forall2 (sheet_of_type df) types sheets ->
  map fst sheets = map _clean_sheet_name types.
Proof.
  induction 1 as [|t sheet types sheets [Hname _] _ IH]; [reflexivity|].
  cbn [map]. now rewrite Hname, IH.
Qed.

(** X23.  Exporting a generated bill whose element types consist of ASCII
    letters and digits and get sheet names that differ from one another,
    also when case is ignored, writes one sheet for each element type, in the
    order of their first line: the sheet is named by [_clean_sheet_name],
    no two sheets by the same name; it holds the lines of that type and
    no other, at least one, numbered 1, 2, ... from the top; the sheets
    together hold as many lines as the bill. *)
Theorem generated_boq_has_one_sheet_per_type :
  forall (quantities : list quantity_record) (level : string)
         (df : DataFrame),
    quantities <> [] ->
    generate_boq quantities level = Ok df ->
    sheets_of_their_own df = true ->
    exists types sheets,
      boq_sheets df = Some sheets
      /\ unique (column df "element_type") = map CStr types
      /\ types <> []
      /\ Forall2 (sheet_of_type df) types sheets
      /\ NoDup (map fst sheets)
      /\ list_sum (map (fun sheet => len (snd sheet)) sheets) = len df.
Proof.
  intros quantities level df Hne Hgen Hown.
  destruct (generate_boq_lines quantities level Hne)
    as [lines [_ [_ Hdf]]].
  destruct (generate_boq_frame quantities level Hne)
    as [df' [Hgen' [Hcols [_ [Hpos _]]]]].
  rewrite Hgen in Hgen'. injection Hgen' as <-.
  assert (Hstr : Forall is_str (column df "element_type")).
  { rewrite Hgen in Hdf. injection Hdf as ->.
    apply generated_types_are_strings. }
  destruct (boq_sheets_spec df)
    as [types [sheets [Hsheets [Htypes [Htypes_ne [Hall Hsum]]]]]].
  - unfold empty. rewrite Hcols. unfold len in Hpos.
    destruct (rows df); [inversion Hpos|reflexivity].
  - unfold has_column. now rewrite Hcols.
  - exact Hstr.
  - exists types, sheets. repeat (split; [assumption|]).
    split; [|exact Hsum].
    rewrite (sheet_names df types sheets Hall).
    unfold sheets_of_their_own in Hown.
    apply andb_prop in Hown. destruct Hown as [_ Hdistinct].
    rewrite Htypes, map_map in Hdistinct.
    apply all_distinct_NoDup in Hdistinct.
    change (map (fun t => PyStr.lower (sheet_title (CStr t))) types)
      with (map (fun t => PyStr.lower (_clean_sheet_name t)) types)
      in Hdistinct.
    rewrite <- (map_map _clean_sheet_name PyStr.lower) in Hdistinct.
    now apply NoDup_map_inv in Hdistinct.
Qed.

(** X24.  A table without rows or without columns is exported as the one
    sheet "Bill of Quantities" with the seven standard columns and no
    line, whatever the table held. *)
Theorem empty_table_gives_one_empty_sheet :
  forall df : DataFrame,
    empty df = true ->
    boq_sheets df
    = Some [("Bill of Quantities",
             {| columns := fallback_columns; rows := [] |})].
Proof.
  intros df Hempty. unfold boq_sheets. rewrite Hempty. reflexivity.
Qed.

End Sheets.

(* ------------------------------------------------------------------ *)
(** ** The further properties on examples *)

Section OnFurtherExamples.

Import QuantityExtractor Frame BOQGenerator Spec Examples Notions Samples.

#[local] Existing Instance Reference.runtime.

Local Open Scope float_scope.

(** A column of 2 by 2 by 2 whose property sets hold no quantity, in a
    model in metres: the record has no volume, no area and no length. *)
Lemma measures_come_from_property_sets_witness :
  _calculate_geometric_quantities unmeasured_column = no_measures
  /\ exists r,
      extract_quantities 1 unmeasured_column None = Ok r
      /\ q_volume r = None /\ q_area r = None /\ q_length r = None.
Proof.
  apply (measures_come_from_property_sets 1 unmeasured_column None 1 1);
    reflexivity.
Defined.

(** Of a wall and a column in one batch, with a storey lookup that knows
    the wall and raises on the column, both are extracted, the wall on
    its storey and the column on none. *)
Lemma batch_accounts_for_every_element_witness :
  map q_element_id
      (fst (extract_all_quantities 1 [surveyed_wall; unmeasured_column]
                                   (Some storey_of_wall_21)))
  = [21%Z; 23%Z]
  /\ map q_storey
         (fst (extract_all_quantities 1 [surveyed_wall; unmeasured_column]
                                      (Some storey_of_wall_21)))
     = [Some "Level 1"; None].
Proof.
  destruct (batch_accounts_for_every_element
              1 [surveyed_wall; unmeasured_column] (Some storey_of_wall_21))
    as [_ [Hids Hstoreys]].
  split; [rewrite Hids|rewrite Hstoreys]; reflexivity.
Defined.

Lemma geometric_length_of_linear_members_witness :
  (is_a shape_column = "IfcBeam" \/ is_a shape_column = "IfcColumn")
  /\ gt0 2 = true
  /\ exists g b0 b1 b2 b3 b4 b5 rest,
      shape shape_column = Some g
      /\ geom_bbox g = Some (b0 :: b1 :: b2 :: b3 :: b4 :: b5 :: rest)
      /\ In 2 [b3 - b0; b4 - b1; b5 - b2].
Proof.
  apply (geometric_length_of_linear_members shape_column 2). reflexivity.
Defined.

Lemma category_base_is_type_witness :
  element_base (_get_category shape_column) = "IfcColumn"
  /\ element_base "IfcColumn" = "IfcColumn".
Proof.
  apply (category_base_is_type shape_column). reflexivity.
Defined.

Lemma get_rate_ignores_case_witness :
  CostEstimator.get_rate example_rates "IfcWall" (Some "CONCRETE C30")
  = CostEstimator.get_rate example_rates "IfcWall" (Some "Concrete c30")
  /\ CostEstimator.get_rate example_rates "IfcWall"
       (Some (PyStr.upper "CONCRETE C30"))
     = CostEstimator.get_rate example_rates "IfcWall" (Some "CONCRETE C30").
Proof.
  apply (get_rate_ignores_case example_rates "IfcWall"
           "CONCRETE C30" "Concrete c30");
    reflexivity.
Defined.

Lemma unit_scale_factor_default_witness :
  IFCReader.get_unit_scale_factor (Some (model_of_units [si_square_metre]))
  = Ok 0.001.
Proof.
  apply (unit_scale_factor_default (model_of_units [si_square_metre])).
  cbn. constructor; [reflexivity|constructor].
Defined.

Lemma unknown_level_groups_by_type_witness :
  generate_boq three_walls "floor" = generate_boq three_walls "type".
Proof.
  apply (unknown_level_groups_by_type three_walls "floor"). reflexivity.
Defined.

Lemma composite_key_round_trip_witness :
  exists line,
    _create_boq_item (group_key "all" (wall_record 11 2)) three_walls "all"
    = Ok line
    /\ element_type line = "IfcWall"
    /\ storey line = "Level 1"
    /\ material line = "Concrete C30".
Proof.
  apply (composite_key_round_trip (wall_record 11 2) three_walls);
    reflexivity.
Defined.

Lemma generated_boq_is_sorted_witness :
  exists df,
    generate_boq three_walls "type" = Ok df
    /\ columns df = item_columns
    /\ len df
       = List.length (keys_in_order (map (group_key "type") three_walls))
    /\ (1 <= len df <= List.length three_walls)%nat
    /\ ascending (fun row => [cell_at item_columns row "element_type";
                             cell_at item_columns row "storey"])
                 (rows df).
Proof.
  apply (generated_boq_is_sorted three_walls "type"). discriminate.
Defined.

Lemma summary_counts_every_record_witness :
  exists df,
    generate_boq three_walls "storey" = Ok df
    /\ lookup (get_summary df) "total_items"
       = Some (SInt (Z.of_nat
                       (List.length (_group_quantities three_walls "storey"))))
    /\ lookup (get_summary df) "total_count"
       = Some (SInt (Z_sum (map count_of three_walls))).
Proof.
  apply (summary_counts_every_record three_walls "storey"). discriminate.
Defined.

Lemma add_item_numbers_on_fresh_table_witness :
  exists df',
    add_item_numbers unnumbered_table = Ok df'
    /\ len df' = 2%nat
    /\ columns df' = ["item_no"; "element_type"; "quantity"]
    /\ column df' "item_no" = [CInt 1; CInt 2].
Proof.
  destruct (add_item_numbers_on_fresh_table unnumbered_table eq_refl)
    as [df' [Hnum [Hlen [_ Hfull]]]].
  destruct (Hfull eq_refl) as [Hcols [Hnos _]].
  exists df'. repeat split; try assumption.
  pose proof (Hnos 0%nat) as H0. pose proof (Hnos 1%nat) as H1.
  assert (Hl : List.length (column df' "item_no") = 2%nat).
  { unfold column. rewrite length_map. exact Hlen. }
  destruct (column df' "item_no") as [|a [|b [|c rest]]];
    try discriminate Hl.
  cbn in H0, H1.
  assert (Ha : Some a = Some (CInt 1)) by (apply H0; repeat constructor).
  assert (Hb : Some b = Some (CInt 2)) by (apply H1; repeat constructor).
  congruence.
Defined.

Lemma description_strips_prefix_witness :
  _create_description "IfcWall" "Concrete C30" = "Wall - Concrete C30"
  /\ _create_description "IfcWall" "Unknown" = "Wall"
  /\ _create_description "Wall" "Not Specified" = "Wall".
Proof.
  destruct (description_strips_prefix "Wall" "Concrete C30" eq_refl)
    as [Hreal [_ Hplain]].
  destruct (description_strips_prefix "Wall" "Unknown" eq_refl)
    as [_ [Hnone _]].
  split; [exact (Hreal eq_refl)|].
  split; [exact (Hnone eq_refl)|exact Hplain].
Defined.

Lemma storey_of_first_containing_storey_witness :
  IFCElements.get_element_storey housed_wall = Some "Level 1".
Proof.
  destruct (storey_of_first_containing_storey housed_wall
              [in_site; in_level_1] eq_refl) as [Hfirst _].
  apply (Hfirst [in_site] in_level_1 [] level_1); try reflexivity.
  constructor; [reflexivity|constructor].
Defined.

(** Three walls and a slab, grouped by type: the sheets "Slab" and
    "Wall", of one line each. *)
Lemma generated_boq_has_one_sheet_per_type_witness :
  exists df sheets,
    generate_boq walls_and_slab "type" = Ok df
    /\ sheets_of_their_own df = true
    /\ ExcelSheets.boq_sheets df = Some sheets
    /\ map fst sheets = ["Slab"; "Wall"]
    /\ map (fun sheet => column (snd sheet) "item_no") sheets
       = [[CInt 1]; [CInt 1]]
    /\ NoDup (map fst sheets).
Proof.
  eexists.
  destruct (generated_boq_has_one_sheet_per_type
              walls_and_slab "type" _ ltac:(discriminate)
              ltac:(reflexivity) ltac:(reflexivity))
    as [types [sheets [Hsheets [_ [_ [_ [Hnames _]]]]]]].
  exists sheets. split; [reflexivity|]. split; [reflexivity|].
  split; [exact Hsheets|].
  vm_compute in Hsheets. injection Hsheets as <-.
  split; [reflexivity|]. split; [reflexivity|exact Hnames].
Defined.

Lemma empty_table_gives_one_empty_sheet_witness :
  ExcelSheets.boq_sheets table_without_lines
  = Some [("Bill of Quantities",
           {| columns := ExcelSheets.fallback_columns; rows := [] |})].
Proof.
  apply (empty_table_gives_one_empty_sheet table_without_lines).
  reflexivity.
Defined.

End OnFurtherExamples.
